(** * BoltzmannGenerator: the training driver [examples/train.py]

    A shallow embedding of the command-line training script and of the
    dual-objective training loop it runs, followed by the properties of
    the specification that concern this file.

    The numerical back ends the script calls into (torch, numpy, mdtraj,
    OpenMM and the [boltzmann] package) are not part of the file: they are
    collected in the [Backend] interface below, and everything is stated
    for an arbitrary implementation of it. *)

From Stdlib Require Import ZArith QArith Ascii String List SpecFloat.
From stdpp Require Import base option list gmap strings.

Local Open Scope string_scope.
Local Open Scope Z_scope.
Local Open Scope list_scope.

(** ** Python exceptions raised by the script or by the calls it makes *)

Inductive exn :=
| RuntimeError (msg : string)
| UnboundLocalError (var : string)
| NameError (var : string)
| ZeroDivisionError
| ValueError (msg : string)
| OverflowError (msg : string)
| IndexError
| OSError (path : string).

Inductive outcome (A : Type) :=
| Ok (a : A)
| Raise (e : exn).
Arguments Ok {A} a.
Arguments Raise {A} e.

Definition is_ok {A} (o : outcome A) : bool :=
  match o with Ok _ => true | Raise _ => false end.

(** ** The file system, as far as the script looks at it

    A map from paths to what is there.  The keys are relative paths in
    canonical form: components separated by single slashes, none of them
    empty, [.] or [..].  The calls below are the library calls on such
    paths; there are no symbolic links and no permissions. *)

Inductive node := File | Dir.

(** the components of a path, split at the slashes *)
Fixpoint split_path (cur p : string) : list string :=
  match p with
  | EmptyString => [cur]
  | String c r =>
      if Ascii.eqb c "/"%char then cur :: split_path EmptyString r
      else split_path (cur +:+ String c EmptyString) r
  end.

Definition components (p : string) : list string := split_path EmptyString p.

Definition plain (c : string) : bool :=
  negb (String.eqb c EmptyString || String.eqb c "." || String.eqb c "..").

Definition canonical (p : string) : bool := forallb plain (components p).

Fixpoint no_slash (p : string) : bool :=
  match p with
  | EmptyString => true
  | String c r => negb (Ascii.eqb c "/"%char) && no_slash r
  end.

(** a name that is a single path component *)
Definition plain_name (name : string) : bool := no_slash name && plain name.

(** the directories on the way to [p], outermost first: [a], [a/b] and
    [a/b/c] for [a/b/c] *)
Fixpoint dirs_from (pre p : string) : list string :=
  match p with
  | EmptyString => [pre]
  | String c r =>
      if Ascii.eqb c "/"%char then pre :: dirs_from (pre +:+ "/") r
      else dirs_from (pre +:+ String c EmptyString) r
  end.

Definition dirs_to (p : string) : list string := dirs_from EmptyString p.

(** creating them in turn; a plain file in the way is an error *)
Fixpoint make_dirs (ds : list string) (m : gmap string node)
    : option (gmap string node) :=
  match ds with
  | [] => Some m
  | d :: rest =>
      match m !! d with
      | Some File => None
      | Some Dir => make_dirs rest m
      | None => make_dirs rest (<[d := Dir]> m)
      end
  end.

(** [os.path.exists] *)
Definition path_exists (m : gmap string node) (p : string) : bool :=
  bool_decide (is_Some (m !! p)).

(** the entries strictly below directory [p] *)
Definition below (p q : string) : bool := String.prefix (p +:+ "/") q.

Definition remove_tree (p : string) (m : gmap string node) : gmap string node :=
  filter (fun kv => negb (below p kv.1)) (delete p m).

(** ** Slices of a numpy array: [a[:k]] and [a[k:]] for a Python int [k] *)

Definition slice_bound (n : nat) (k : Z) : nat :=
  if k <? 0 then Z.to_nat (Z.max 0 (Z.of_nat n + k))
  else Nat.min n (Z.to_nat k).

Definition slice_to {A} (k : Z) (l : list A) : list A :=
  firstn (slice_bound (length l) k) l.

Definition slice_from {A} (k : Z) (l : list A) : list A :=
  skipn (slice_bound (length l) k) l.

(** A view [a[lo:hi]] on an array that stays shared with its base. *)
Record view := { lo : nat; hi : nat }.

Definition view_to (n : nat) (k : Z) : view :=
  {| lo := 0; hi := slice_bound n k |}.
Definition view_from (n : nat) (k : Z) : view :=
  {| lo := slice_bound n k; hi := n |}.

Definition read_view {A} (v : view) (base : list A) : list A :=
  firstn (hi v - lo v) (skipn (lo v) base).

(** ** Python floats

    A Python float is an IEEE 754 binary64 number: 53 bits of precision,
    largest exponent 1024.  The operations are those of the Standard
    Library's specification of floating-point arithmetic (round to nearest,
    ties to even). *)

Definition float := spec_float.

(** the conversion of a Python int in a mixed operation: correctly rounded,
    OverflowError when the int is too large *)
Definition float_of_int (n : Z) : outcome float :=
  match binary_normalize 53 1024 n 0 false with
  | S754_infinity _ => Raise (OverflowError "int too large to convert to float")
  | x => Ok x
  end.

(** [int(x)]: truncation toward zero *)
Definition py_int (x : float) : outcome Z :=
  match x with
  | S754_nan => Raise (ValueError "cannot convert float NaN to integer")
  | S754_infinity _ =>
      Raise (OverflowError "cannot convert float infinity to integer")
  | S754_zero _ => Ok 0
  | S754_finite s m e =>
      Ok (cond_Zopp s (if 0 <=? e then Zpos m * 2 ^ e else Zpos m / 2 ^ (- e)))
  end.

(** [int(n / f)] for a Python int [n] and a float [f]: the int is
    converted, the quotient is rounded to a float, and [int] truncates it *)
Definition int_div (n : nat) (f : float) : outcome Z :=
  match float_of_int (Z.of_nat n) with
  | Raise e => Raise e
  | Ok x =>
      match f with
      | S754_zero _ => Raise ZeroDivisionError
      | _ => py_int (SFdiv 53 1024 x f)
      end
  end.

(** [n < f] for an int [n] below 2^53, which converts exactly *)
Definition int_lt_float (n : Z) (f : float) : bool :=
  match float_of_int n with
  | Ok x => SFltb x f
  | Raise _ => false
  end.

(** a float greater than zero *)
Definition float_positive (f : float) : bool :=
  match f with
  | S754_finite false _ _ | S754_infinity false => true
  | _ => false
  end.

(** [floor(n / f)] on the exact quotient of an int by a finite float, as
    the specification words the size of the validation split *)
Definition floor_div (n : Z) (f : float) : option Z :=
  match f with
  | S754_finite s m e =>
      let d := cond_Zopp s (Zpos m) in
      Some (if 0 <=? e then n / (d * 2 ^ e) else (n * 2 ^ (- e)) / d)
  | _ => None
  end.

(** *** Right shifts of a mantissa, as the rounding of a quotient does them *)

Definition inexact (r : shr_record) : bool := shr_r r || shr_s r.

(** [b] is [a] shifted right by [k] bits: the mantissa is divided, and the
    round and sticky bits are set only if something was lost (now or
    before) *)
Definition shr_rel (k : Z) (a b : shr_record) : Prop :=
  shr_m b = shr_m a / 2 ^ k /\
  (inexact b = true -> inexact a = true \/ shr_m a mod 2 ^ k <> 0).

(** [range(k)] *)
Definition py_range (k : Z) : list Z := map Z.of_nat (seq 0 (Z.to_nat k)).

(** ** The numerical back ends

    [F] stands for the scalars the script computes with: Python floats and
    zero-dimensional float32 tensors (which carry their autograd history,
    so that [backward] can be a function of the loss).  Random generators
    are explicit states: [NGen] is numpy's global generator, [TGen] is
    torch's.  Network calls return the network and the generator again,
    since a forward pass in training mode updates batch-norm buffers and
    draws dropout masks. *)

Class Backend := {
  F : Type;
  fzero : F;
  fone : F;
  fhalf : F;                               (* the literal 0.5 *)
  fadd : F -> F -> F;
  fsub : F -> F -> F;
  fmul : F -> F -> F;
  fdiv : F -> F -> F;
  of_count : nat -> F;                     (* number of elements, as a float *)
  as_tensor32 : F -> F;                    (* torch.tensor(x, dtype=float32) *)
  tmedian : list F -> F;                   (* torch.median *)
  tmin : list F -> F;                      (* torch.min *)

  NGen : Type;
  np_randint : nat -> NGen -> nat * NGen;  (* one draw from [0, n) *)
  np_randint_lt : forall n g, (0 < n)%nat -> ((np_randint n g).1 < n)%nat;
  np_shuffle : forall A : Type, list A -> NGen -> list A * NGen;
  np_shuffle_perm : forall A (l : list A) g, (np_shuffle A l g).1 ≡ₚ l;

  TGen : Type;
  torch_randn : TGen -> F * TGen;          (* one standard-normal draw *)

  Traj : Type;                             (* mdtraj trajectory *)
  md_load : string -> string -> Traj;      (* md.load(dcd, top=pdb) *)
  superpose_backbone : Traj -> Traj;
  traj_atoms : Traj -> nat;                (* xyz.shape[1] *)
  traj_frames : Traj -> list (list F);     (* xyz, one flattened row per frame *)
  traj_set_xyz : list (list F) -> Traj -> Traj;

  Net : Type;                              (* the flow: parameters, buffers, mode *)
  Layer : Type;
  pca_mixed_transform : Z -> Traj -> list (list F) -> Layer;
  random_permutation : Z -> Z -> Layer;
  alternating_mask : Z -> bool -> list bool;
  affine_coupling : list bool -> Z -> Z -> F -> Layer;
  spline_coupling : list bool -> Z -> Z -> F -> Z -> Z -> Layer;
  composite_transform : list Layer -> TGen -> Net * TGen;
  torch_load : string -> Net;
  net_train : Net -> Net;
  net_eval : Net -> Net;
  net_forward : bool -> Net -> list (list F) -> TGen
                -> (list (list F) * list F) * Net * TGen;
  net_inverse : bool -> Net -> list (list F) -> TGen
                -> (list (list F) * list F) * Net * TGen;
  backward : F -> Net -> Net;

  Opt : Type;                              (* optimizer together with its scheduler *)
  adamw : Net -> F -> F -> Opt;
  warmup_cosine : Opt -> Z -> F -> Z -> Z -> Opt;
  zero_grad : Opt -> Net -> Net;
  opt_step : Opt -> Net -> Opt * Net;
  sched_step : Z -> Opt -> Opt;

  Ctx : Type;                              (* OpenMM simulation context *)
  openmm_simulation : string -> Ctx;
  openmm_energy : list (list F) -> Ctx -> F -> list F;
  regularize_energy : list F -> F -> F -> list F;

  writer_file : string;                    (* the tensorboard event file of this
                                              process: events.out.tfevents.<time>.<host>.<pid> *)
}.

Section Train.
Context `{B : Backend}.

Definition tensor := list (list F).

(** *** Reductions over tensors *)

Definition tsum (l : list F) : F := fold_left fadd l fzero.

(** [torch.mean]: the sum of all elements over their number *)
Definition tmean (l : list F) : F := fdiv (tsum l) (of_count (length l)).

(** [torch.sum(z ** 2, dim=1)] *)
Definition sum_squares (z : tensor) : list F :=
  map (fun row => tsum (map (fun c => fmul c c) row)) z.

(** ** Command line *)

Record args := {
  pdb_path : string;
  dcd_path : string;
  output_name : string;
  overwrite : bool;
  epochs : Z;
  batch_size : Z;
  warmup_epochs : Z;
  init_lr : F;
  final_lr : F;
  weight_decay : F;
  dropout_fraction : F;
  log_freq : Z;
  fold_validation : float;
  load_network_arg : option string;     (* --load-network; the function below keeps the name *)
  coupling_layers : Z;
  hidden_features : Z;
  hidden_layers : Z;
  spline_points : Z;
  is_affine : bool;
  train_example : bool;
  train_energy : bool;
  example_weight : F;
  energy_weight : F;
  temperature : F;
  energy_max : F;
  energy_high : F;
}.

Inductive device := Cuda | Cpu.

(** ** Observable effects, in the order they happen *)

Inductive event :=
| EvPrint (text : string)
| EvPrintVal (label : string) (v : F)
| EvExists (path : string)
| EvRemove (path : string)
| EvRmtree (path : string)
| EvMakedirs (path : string)
| EvWriterOpen (logdir : string)
| EvLoadTraj (dcd top : string)
| EvLoadNet (path : string)
| EvBuildNet
| EvOpenMM (pdb : string)
| EvBackward (loss : F)
| EvPostfix (loss loss_val : F)
| EvScalar (tag : string) (v : F) (step : Z)
| EvSaveModel (path : string)
| EvSaveTraj (path : string) (xyz : tensor).

Record world := {
  fs : gmap string node;
  trace : list event;
  np_gen : NGen;
  torch_gen : TGen;
  cuda_available : bool;
  g_args : option args;                    (* the module-level name [args] *)
}.

Definition set_fs (m : gmap string node) (w : world) : world :=
  {| fs := m; trace := trace w; np_gen := np_gen w; torch_gen := torch_gen w;
     cuda_available := cuda_available w; g_args := g_args w |}.
Definition set_trace (t : list event) (w : world) : world :=
  {| fs := fs w; trace := t; np_gen := np_gen w; torch_gen := torch_gen w;
     cuda_available := cuda_available w; g_args := g_args w |}.
Definition set_np_gen (g : NGen) (w : world) : world :=
  {| fs := fs w; trace := trace w; np_gen := g; torch_gen := torch_gen w;
     cuda_available := cuda_available w; g_args := g_args w |}.
Definition set_torch_gen (g : TGen) (w : world) : world :=
  {| fs := fs w; trace := trace w; np_gen := np_gen w; torch_gen := g;
     cuda_available := cuda_available w; g_args := g_args w |}.
Definition set_g_args (a : args) (w : world) : world :=
  {| fs := fs w; trace := trace w; np_gen := np_gen w; torch_gen := torch_gen w;
     cuda_available := cuda_available w; g_args := Some a |}.

(** ** Computations: a state monad over [world] in which an exception
    leaves the world as it was when it was raised *)

Definition M (A : Type) : Type := world -> outcome A * world.

Definition ret {A} (a : A) : M A := fun w => (Ok a, w).
Definition raise {A} (e : exn) : M A := fun w => (Raise e, w).
Definition bind {A C} (m : M A) (k : A -> M C) : M C :=
  fun w => match m w with
           | (Ok a, w') => k a w'
           | (Raise e, w') => (Raise e, w')
           end.
Definition lift {A} (o : outcome A) : M A := fun w => (o, w).
Definition emit (e : event) : M unit :=
  fun w => (Ok tt, set_trace (trace w ++ [e]) w).
Definition when (b : bool) (m : M unit) : M unit := if b then m else ret tt.

Notation "x <- m ;; k" := (bind m (fun x => k))
  (at level 100, m at next level, right associativity).
Notation "m ;;; k" := (bind m (fun _ => k))
  (at level 100, right associativity).

(** reading a local that may not have been assigned yet *)
Definition read_local {A} (name : string) (v : option A) : M A :=
  match v with Some x => ret x | None => raise (UnboundLocalError name) end.


(** ** File-system calls *)

Definition os_path_exists (p : string) : M bool :=
  fun w => (Ok (path_exists (fs w) p), set_trace (trace w ++ [EvExists p]) w).

(** [os.remove]: only plain files can be removed *)
Definition os_remove (p : string) : M unit :=
  fun w => match fs w !! p with
           | Some File => (Ok tt, set_fs (delete p (fs w))
                                    (set_trace (trace w ++ [EvRemove p]) w))
           | _ => (Raise (OSError p), w)
           end.

(** [shutil.rmtree]: the directory and everything below it *)
Definition shutil_rmtree (p : string) : M unit :=
  fun w => match fs w !! p with
           | Some Dir => (Ok tt, set_fs (remove_tree p (fs w))
                                   (set_trace (trace w ++ [EvRmtree p]) w))
           | _ => (Raise (OSError p), w)
           end.

(** [os.makedirs(p, exist_ok=True)]: [p] and the missing directories
    above it *)
Definition os_makedirs (p : string) : M unit :=
  fun w => match make_dirs (dirs_to p) (fs w) with
           | Some m => (Ok tt, set_fs m (set_trace (trace w ++ [EvMakedirs p]) w))
           | None => (Raise (OSError p), w)
           end.

(** opening a file for writing: it is created or truncated; a directory
    of that name is an error *)
Definition open_wb (p : string) : M unit :=
  fun w => match fs w !! p with
           | Some Dir => (Raise (OSError p), w)
           | _ => (Ok tt, set_fs (<[p := File]> (fs w)) w)
           end.

Definition write_file (p : string) (e : event) : M unit :=
  fun w => (Ok tt, set_fs (<[p := File]> (fs w)) (set_trace (trace w ++ [e]) w)).

(** ** Random draws *)

(** [size] independent draws from [0, n): sampling with replacement *)
Fixpoint np_draws (n size : nat) (g : NGen) : list nat * NGen :=
  match size with
  | O => ([], g)
  | S k => let (i, g1) := np_randint n g in
           let (rest, g2) := np_draws n k g1 in
           (i :: rest, g2)
  end.

(** [np.random.choice(a, size, replace=True)] *)
Definition np_random_choice (a : list nat) (size : Z) : M (list nat) :=
  fun w =>
    if size <? 0 then (Raise (ValueError "negative dimensions are not allowed"), w)
    else if (Nat.eqb (length a) 0 && (0 <? size))%bool
    then (Raise (ValueError "a cannot be empty unless no samples are taken"), w)
    else let (pos, g) := np_draws (length a) (Z.to_nat size) (np_gen w) in
         (Ok (map (fun i => nth i a O) pos), set_np_gen g w).

(** [np.arange(k)] *)
Definition np_arange (k : nat) : list nat := seq 0 k.

(** [t[index, :]] *)
Definition take_rows (t : tensor) (index : list nat) : M tensor :=
  match mapM (fun i => t !! i) index with
  | Some rows => ret rows
  | None => raise IndexError
  end.

Fixpoint randn_row (cols : nat) (g : TGen) : list F * TGen :=
  match cols with
  | O => ([], g)
  | S k => let (x, g1) := torch_randn g in
           let (rest, g2) := randn_row k g1 in
           (x :: rest, g2)
  end.

Fixpoint randn_rows (rows cols : nat) (g : TGen) : tensor * TGen :=
  match rows with
  | O => ([], g)
  | S k => let (r, g1) := randn_row cols g in
           let (rest, g2) := randn_rows k cols g1 in
           (r :: rest, g2)
  end.

(** [torch.normal(mean, std, size=(rows, cols))] *)
Definition torch_normal (mean std : F) (rows cols : Z) : M tensor :=
  fun w =>
    if ((rows <? 0) || (cols <? 0))%bool
    then (Raise (RuntimeError "negative dimension"), w)
    else let (t, g) := randn_rows (Z.to_nat rows) (Z.to_nat cols) (torch_gen w) in
         (Ok (map (map (fun x => fadd mean (fmul std x))) t), set_torch_gen g w).

(** ** The functions of train.py *)

Definition get_device : M device :=
  fun w => if cuda_available w
           then (Ok Cuda, set_trace (trace w ++ [EvPrint "Using cuda"]) w)
           else (Ok Cpu, set_trace (trace w ++ [EvPrint "Using CPU"]) w).

Definition model_file (name : string) : string := "models/" +:+ name +:+ ".pkl".
Definition training_traj_file (name : string) : string :=
  "training_traj/" +:+ name +:+ ".pdb".
Definition sample_traj_file (name : string) : string :=
  "sample_traj/" +:+ name +:+ ".pdb".
Definition run_dir (name : string) : string := "runs/" +:+ name.

Definition delete_run (name : string) : M unit :=
  b1 <- os_path_exists (model_file name) ;;
  when b1 (os_remove (model_file name)) ;;;
  b2 <- os_path_exists (training_traj_file name) ;;
  when b2 (os_remove (training_traj_file name)) ;;;
  b3 <- os_path_exists (sample_traj_file name) ;;
  when b3 (os_remove (sample_traj_file name)) ;;;
  b4 <- os_path_exists (run_dir name) ;;
  when b4 (shutil_rmtree (run_dir name)).

Definition create_dirs : M unit :=
  os_makedirs "models" ;;;
  os_makedirs "training_traj" ;;;
  os_makedirs "sample_traj".

Definition event_file (name : string) : string :=
  run_dir name +:+ "/" +:+ writer_file.

(** [SummaryWriter(log_dir=..., purge_step=0)]: the writer creates its log
    directory, with the directories above it, and opens its event file
    there *)
Definition create_tensorboard (name : string) : M unit :=
  os_makedirs (run_dir name) ;;;
  open_wb (event_file name) ;;;
  emit (EvWriterOpen (run_dir name)).

(** The two parameters are not used: the paths are read from the
    module-level [args]. *)
Definition load_trajectory (pdb_path' dcd_path' : string) : M Traj :=
  emit (EvPrint "Loading trajectory") ;;;
  fun w => match g_args w with
           | None => (Raise (NameError "args"), w)
           | Some ga =>
               (Ok (superpose_backbone (md_load (dcd_path ga) (pdb_path ga))),
                set_trace (trace w ++ [EvLoadTraj (dcd_path ga) (pdb_path ga)]) w)
           end.

Definition coupling_block (n_dim : Z) (use_affine_coupling : bool)
    (spline_points' hidden_features' hidden_layers' : Z) (dropout : F)
    : list Layer :=
  let p := random_permutation (n_dim - 6) 1 in
  let mask_even := alternating_mask (n_dim - 6) true in
  let mask_odd := alternating_mask (n_dim - 6) false in
  let t1 := if use_affine_coupling
            then affine_coupling mask_even hidden_features' hidden_layers' dropout
            else spline_coupling mask_even hidden_features' hidden_layers' dropout
                   5 spline_points' in
  let t2 := if use_affine_coupling
            then affine_coupling mask_odd hidden_features' hidden_layers' dropout
            else spline_coupling mask_odd hidden_features' hidden_layers' dropout
                   5 spline_points' in
  [p; t1; t2].

Definition build_network (n_dim : Z) (topology : Traj) (training_data : tensor)
    (n_coupling : Z) (use_affine_coupling : bool)
    (spline_points' hidden_features' hidden_layers' : Z) (dropout : F)
    : M Net :=
  emit (EvPrint "Creating network") ;;;
  let mixed := pca_mixed_transform n_dim topology training_data in
  let layers :=
    mixed :: concat (map (fun _ => coupling_block n_dim use_affine_coupling
                                     spline_points' hidden_features'
                                     hidden_layers' dropout)
                         (py_range n_coupling)) in
  fun w => let (net, g) := composite_transform layers (torch_gen w) in
           (Ok net, set_torch_gen g (set_trace (trace w ++ [EvBuildNet]) w)).

Definition load_network (path : string) : M Net :=
  fun w => (Ok (torch_load path), set_trace (trace w ++ [EvLoadNet path]) w).

Definition setup_optimizer (net : Net) (init_lr' weight_decay' : F) : Opt :=
  adamw net init_lr' weight_decay'.

Definition setup_scheduler (optimizer : Opt) (init_lr' final_lr' : F)
    (epochs' warmup_epochs' : Z) : Opt :=
  warmup_cosine optimizer epochs' final_lr' 8 warmup_epochs'.

Definition get_openmm_context (pdb : string) : M Ctx :=
  fun w => (Ok (openmm_simulation pdb), set_trace (trace w ++ [EvOpenMM pdb]) w).

(** the closure [eval_energy] returned by [get_energy_evaluator] *)
Definition get_energy_evaluator (openmm_context : Ctx)
    (temperature' energy_high' energy_max' : F) : tensor -> list F :=
  let high := as_tensor32 energy_high' in
  let max := as_tensor32 energy_max' in
  fun x => regularize_energy (openmm_energy x openmm_context temperature') high max.


(** ** The locals of [run_training]

    [env] holds the names that are assigned once, before the loop.
    [data] is the array [training_data_npy] after its in-place shuffle;
    [val_data] and [train_data] are slices of it and share its memory. *)

Record env := {
  traj : Traj;
  n_dim : Z;
  openmm_context : Ctx;
  energy_evaluator : tensor -> list F;
  data : tensor;
  val_data : view;
  train_data : view;
  indices : list nat;
  indices_val : list nat;
  fixed_z : tensor;
}.

(** The names the loop assigns; [None] is a name not bound yet. *)
Record locals := {
  env_of : env;
  net : Net;
  optimizer : Opt;
  fixed_coords : list tensor;
  loss : option F;
  example_loss : option F;
  energy_loss : option F;
  loss_val : option F;
  example_loss_val : option F;
  energy_loss_val : option F;
  fixed_energy : option F;
}.

Definition set_net x (s : locals) : locals :=
  {| env_of := env_of s; net := x; optimizer := optimizer s; fixed_coords :=
     fixed_coords s; loss := loss s; example_loss := example_loss s;
     energy_loss := energy_loss s; loss_val := loss_val s; example_loss_val :=
     example_loss_val s; energy_loss_val := energy_loss_val s; fixed_energy :=
     fixed_energy s |}.
Definition set_optimizer x (s : locals) : locals :=
  {| env_of := env_of s; net := net s; optimizer := x; fixed_coords :=
     fixed_coords s; loss := loss s; example_loss := example_loss s;
     energy_loss := energy_loss s; loss_val := loss_val s; example_loss_val :=
     example_loss_val s; energy_loss_val := energy_loss_val s; fixed_energy :=
     fixed_energy s |}.
Definition set_fixed_coords x (s : locals) : locals :=
  {| env_of := env_of s; net := net s; optimizer := optimizer s; fixed_coords
     := x; loss := loss s; example_loss := example_loss s; energy_loss :=
     energy_loss s; loss_val := loss_val s; example_loss_val :=
     example_loss_val s; energy_loss_val := energy_loss_val s; fixed_energy :=
     fixed_energy s |}.
Definition set_loss x (s : locals) : locals :=
  {| env_of := env_of s; net := net s; optimizer := optimizer s; fixed_coords
     := fixed_coords s; loss := x; example_loss := example_loss s; energy_loss
     := energy_loss s; loss_val := loss_val s; example_loss_val :=
     example_loss_val s; energy_loss_val := energy_loss_val s; fixed_energy :=
     fixed_energy s |}.
Definition set_example_loss x (s : locals) : locals :=
  {| env_of := env_of s; net := net s; optimizer := optimizer s; fixed_coords
     := fixed_coords s; loss := loss s; example_loss := x; energy_loss :=
     energy_loss s; loss_val := loss_val s; example_loss_val :=
     example_loss_val s; energy_loss_val := energy_loss_val s; fixed_energy :=
     fixed_energy s |}.
Definition set_energy_loss x (s : locals) : locals :=
  {| env_of := env_of s; net := net s; optimizer := optimizer s; fixed_coords
     := fixed_coords s; loss := loss s; example_loss := example_loss s;
     energy_loss := x; loss_val := loss_val s; example_loss_val :=
     example_loss_val s; energy_loss_val := energy_loss_val s; fixed_energy :=
     fixed_energy s |}.
Definition set_loss_val x (s : locals) : locals :=
  {| env_of := env_of s; net := net s; optimizer := optimizer s; fixed_coords
     := fixed_coords s; loss := loss s; example_loss := example_loss s;
     energy_loss := energy_loss s; loss_val := x; example_loss_val :=
     example_loss_val s; energy_loss_val := energy_loss_val s; fixed_energy :=
     fixed_energy s |}.
Definition set_example_loss_val x (s : locals) : locals :=
  {| env_of := env_of s; net := net s; optimizer := optimizer s; fixed_coords
     := fixed_coords s; loss := loss s; example_loss := example_loss s;
     energy_loss := energy_loss s; loss_val := loss_val s; example_loss_val :=
     x; energy_loss_val := energy_loss_val s; fixed_energy := fixed_energy s
     |}.
Definition set_energy_loss_val x (s : locals) : locals :=
  {| env_of := env_of s; net := net s; optimizer := optimizer s; fixed_coords
     := fixed_coords s; loss := loss s; example_loss := example_loss s;
     energy_loss := energy_loss s; loss_val := loss_val s; example_loss_val :=
     example_loss_val s; energy_loss_val := x; fixed_energy := fixed_energy s
     |}.
Definition set_fixed_energy x (s : locals) : locals :=
  {| env_of := env_of s; net := net s; optimizer := optimizer s; fixed_coords
     := fixed_coords s; loss := loss s; example_loss := example_loss s;
     energy_loss := energy_loss s; loss_val := loss_val s; example_loss_val :=
     example_loss_val s; energy_loss_val := energy_loss_val s; fixed_energy :=
     x |}.

Definition call_forward (grad : bool) (s : locals) (x : tensor)
    : M (tensor * list F * locals) :=
  fun w => let '(r, n, g) := net_forward grad (net s) x (torch_gen w) in
           (Ok (r, set_net n s), set_torch_gen g w).

Definition call_inverse (grad : bool) (s : locals) (z : tensor)
    : M (tensor * list F * locals) :=
  fun w => let '(r, n, g) := net_inverse grad (net s) z (torch_gen w) in
           (Ok (r, set_net n s), set_torch_gen g w).

Definition np_random_shuffle {A} (l : list A) : M (list A) :=
  fun w => let (l', g) := np_shuffle A l (np_gen w) in (Ok l', set_np_gen g w).

Definition truthy (o : option string) : option string :=
  match o with
  | Some EmptyString => None
  | _ => o
  end.

(** *** Lines 208-267: everything before the loop *)
Definition setup (a : args) (dev : device) : M locals :=
  create_tensorboard (output_name a) ;;;
  traj0 <- load_trajectory (pdb_path a) (dcd_path a) ;;
  let n_dim0 := Z.of_nat (traj_atoms traj0) * 3 in
  let training_data_npy := traj_frames traj0 in
  let training_data := training_data_npy in      (* astype makes a copy *)
  emit (EvPrint "Trajectory loaded") ;;;
  emit (EvPrint "Data has size:") ;;;
  net0 <- match truthy (load_network_arg a) with
          | Some name => load_network (model_file name)
          | None => build_network n_dim0 traj0 training_data
                      (coupling_layers a) (is_affine a) (spline_points a)
                      (hidden_features a) (hidden_layers a) (dropout_fraction a)
          end ;;
  let optimizer0 := setup_optimizer net0 (init_lr a) (weight_decay a) in
  let scheduler := setup_scheduler optimizer0 (init_lr a) (final_lr a)
                     (epochs a) (warmup_epochs a) in
  ctx <- get_openmm_context (pdb_path a) ;;
  let evaluator := get_energy_evaluator ctx (temperature a)
                     (energy_high a) (energy_max a) in
  let n := length training_data_npy in
  n_val <- lift (int_div n (fold_validation a)) ;;
  shuffled <- np_random_shuffle training_data_npy ;;
  let val := view_to n n_val in
  let train := view_from n n_val in
  fixed_z0 <- torch_normal fzero fone 1 (n_dim0 - 6) ;;
  ret {| env_of := {| traj := traj_set_xyz shuffled traj0;
                      n_dim := n_dim0;
                      openmm_context := ctx;
                      energy_evaluator := evaluator;
                      data := shuffled;
                      val_data := val;
                      train_data := train;
                      indices := np_arange (length (read_view train shuffled));
                      indices_val := np_arange (length (read_view val shuffled));
                      fixed_z := fixed_z0 |};
         net := net0; optimizer := scheduler; fixed_coords := [];
         loss := None; example_loss := None; energy_loss := None;
         loss_val := None; example_loss_val := None; energy_loss_val := None;
         fixed_energy := None |}.

(** *** Lines 274-281 *)
Definition example_objective (a : args) (s : locals) : M locals :=
  index_batch <- np_random_choice (indices (env_of s)) (batch_size a) ;;
  x_batch <- take_rows (read_view (train_data (env_of s)) (data (env_of s)))
               index_batch ;;
  r <- call_forward true s x_batch ;;
  let '(z, z_jac, s1) := r in
  let example_loss0 := fsub (fmul fhalf (tmean (sum_squares z))) (tmean z_jac) in
  ret (set_example_loss (Some (fmul (example_weight a) example_loss0)) s1).

(** *** Lines 283-290 *)
Definition energy_objective (a : args) (s : locals) : M locals :=
  z_batch <- torch_normal fzero fone (batch_size a) (n_dim (env_of s) - 6) ;;
  r <- call_inverse true s z_batch ;;
  let '(x, x_jac, s1) := r in
  let energies := energy_evaluator (env_of s1) x in
  let energy_loss0 := fsub (tmean energies) (tmean x_jac) in
  ret (set_energy_loss (Some (fmul (energy_weight a) energy_loss0)) s1).

(** *** Lines 292-297 *)
Definition combined_loss (a : args) (s : locals) : M F :=
  if (train_example a && train_energy a)%bool then
    ex <- read_local "example_loss" (example_loss s) ;;
    en <- read_local "energy_loss" (energy_loss s) ;;
    ret (fadd ex en)
  else if train_example a then read_local "example_loss" (example_loss s)
  else read_local "energy_loss" (energy_loss s).

(** *** Lines 271-301: one training step *)
Definition train_step (a : args) (epoch : Z) (s : locals) : M locals :=
  let s0 := set_net (zero_grad (optimizer s) (net_train (net s))) s in
  s1 <- (if train_example a then example_objective a s0 else ret s0) ;;
  s2 <- (if train_energy a then energy_objective a s1 else ret s1) ;;
  l <- combined_loss a s2 ;;
  let s3 := set_loss (Some l) s2 in
  emit (EvBackward l) ;;;
  let (o, n) := opt_step (optimizer s3) (backward l (net s3)) in
  ret (set_optimizer (sched_step epoch o) (set_net n s3)).


(** [epoch % log_freq] *)
Definition py_mod (x y : Z) : M Z :=
  if y =? 0 then raise ZeroDivisionError else ret (x mod y).

(** *** Lines 304-373: validation and logging *)
Definition validate_log (a : args) (epoch : Z) (s : locals) : M locals :=
  let s0 := set_net (net_eval (net s)) s in
  l <- read_local "loss" (loss s0) ;;
  emit (EvScalar "Train/loss" l epoch) ;;;
  (if train_example a then
     ex <- read_local "example_loss" (example_loss s0) ;;
     emit (EvScalar "Train/example" ex epoch)
   else ret tt) ;;;
  (if train_energy a then
     en <- read_local "energy_loss" (energy_loss s0) ;;
     emit (EvScalar "Train/energy" en epoch)
   else ret tt) ;;;
  (* with torch.no_grad(): *)
  index_val <- np_random_choice (indices_val (env_of s0)) (batch_size a) ;;
  x_val <- take_rows (read_view (val_data (env_of s0)) (data (env_of s0)))
             index_val ;;
  r1 <- call_forward false s0 x_val ;;
  let '(z_prime, z_prime_jac, s1) := r1 in
  let example_loss_val' :=
    fmul (example_weight a)
      (fsub (fmul fhalf (tmean (sum_squares z_prime))) (tmean z_prime_jac)) in
  z_val <- torch_normal fzero fone (batch_size a) (n_dim (env_of s1) - 6) ;;
  r2 <- call_inverse false s1 z_val ;;
  let '(x_prime, x_prime_jac, s2) := r2 in
  let val_energies := energy_evaluator (env_of s2) x_prime in
  let energy_loss_val' :=
    fmul (energy_weight a) (fsub (tmean val_energies) (tmean x_prime_jac)) in
  let loss_val' :=
    if (train_example a && train_energy a)%bool
    then fadd example_loss_val' energy_loss_val'
    else if train_example a then example_loss_val' else energy_loss_val' in
  emit (EvPostfix l loss_val') ;;;
  emit (EvScalar "Validation/loss" loss_val' epoch) ;;;
  emit (EvScalar "Validation/example" example_loss_val' epoch) ;;;
  emit (EvScalar "Validation/energy" energy_loss_val' epoch) ;;;
  emit (EvScalar "Energies/mean_energy" (tmean val_energies) epoch) ;;;
  emit (EvScalar "Energies/median_energy" (tmedian val_energies) epoch) ;;;
  emit (EvScalar "Energies/minimum_energy" (tmin val_energies) epoch) ;;;
  r3 <- call_inverse false s2 (fixed_z (env_of s2)) ;;
  let '(fixed_x, fixed_x_jac, s3) := r3 in
  let fixed_energy' :=
    tmean (openmm_energy fixed_x (openmm_context (env_of s3)) (temperature a)) in
  emit (EvScalar "Energies/fixed_energy" fixed_energy' epoch) ;;;
  ret (set_fixed_energy (Some fixed_energy')
         (set_fixed_coords (fixed_coords s3 ++ [fixed_x])
            (set_energy_loss_val (Some energy_loss_val')
               (set_example_loss_val (Some example_loss_val')
                  (set_loss_val (Some loss_val') s3))))).

(** *** Lines 270-373: the body of the loop *)
Definition epoch_body (a : args) (epoch : Z) (s : locals) : M locals :=
  s1 <- train_step a epoch s ;;
  r <- py_mod epoch (log_freq a) ;;
  if r =? 0 then validate_log a epoch s1 else ret s1.

Fixpoint run_epochs (a : args) (es : list Z) (s : locals) : M locals :=
  match es with
  | [] => ret s
  | epoch :: rest => s1 <- epoch_body a epoch s ;; run_epochs a rest s1
  end.

(** [for epoch in progress], where [progress] wraps [range(args.epochs)]:
    the progress bar only displays, and its one call that reads locals,
    [set_postfix], is the event [EvPostfix]. *)
Definition training_loop (a : args) (s : locals) : M locals :=
  run_epochs a (py_range (epochs a)) s.

(** *** Lines 375-404: after the loop *)
Definition finalize (a : args) (s : locals) : M unit :=
  write_file (model_file (output_name a))
    (EvSaveModel (model_file (output_name a))) ;;;
  l <- read_local "loss" (loss s) ;;
  emit (EvPrintVal "Final loss:" l) ;;;
  (if train_example a then
     ex <- read_local "example_loss" (example_loss s) ;;
     emit (EvPrintVal "Final example loss:" ex)
   else ret tt) ;;;
  (if train_energy a then
     en <- read_local "energy_loss" (energy_loss s) ;;
     emit (EvPrintVal "Final energy loss:" en)
   else ret tt) ;;;
  lv <- read_local "loss_val" (loss_val s) ;;
  emit (EvPrintVal "Final validation loss:" lv) ;;;
  exv <- read_local "example_loss_val" (example_loss_val s) ;;
  emit (EvPrintVal "Final validation example loss:" exv) ;;;
  env' <- read_local "energy_loss_val" (energy_loss_val s) ;;
  emit (EvPrintVal "Final validation energy loss:" env') ;;;
  fe <- read_local "fixed_energy" (fixed_energy s) ;;
  emit (EvPrintVal "Final fixed energy loss:" fe) ;;;
  (* np.array(fixed_coords).reshape(shape[0], -1, 3) *)
  (match fixed_coords s with
   | [] => raise (ValueError "cannot reshape array of size 0")
   | _ => ret tt
   end) ;;;
  write_file (training_traj_file (output_name a))
    (EvSaveTraj (training_traj_file (output_name a))
       (map (fun fx => concat fx) (fixed_coords s))) ;;;
  let s1 := set_net (net_eval (net s)) s in
  z <- torch_normal fzero fone (batch_size a) (n_dim (env_of s1) - 6) ;;
  r <- call_inverse true s1 z ;;
  let '(x, _, _) := r in
  write_file (sample_traj_file (output_name a))
    (EvSaveTraj (sample_traj_file (output_name a)) x).

Definition run_training (a : args) (dev : device) : M unit :=
  s0 <- setup a dev ;;
  s <- training_loop a s0 ;;
  finalize a s.

(** *** Lines 571-592: the script, after the command line has been parsed *)
Definition main (a : args) : M unit :=
  (fun w => (Ok tt, set_g_args a w)) ;;;
  (if negb (train_example a || train_energy a)
   then raise (RuntimeError
                 "You must specify at least one of train_example or train_energy.")
   else ret tt) ;;;
  let model_path := model_file (output_name a) in
  b <- os_path_exists model_path ;;
  (if b then
     if overwrite a
     then emit (EvPrint ("Warning: output `" +:+ model_path
                         +:+ "' already exists. Overwriting anyway."))
     else raise (RuntimeError ("Output '" +:+ model_path
                               +:+ "' already exists. If you're sure use --overwrite."))
   else ret tt) ;;;
  delete_run (output_name a) ;;;
  create_dirs ;;;
  device0 <- get_device ;;
  run_training a device0.


(** ** Vocabulary for the statements about logging *)

Definition scalar_if (b : bool) (v : option F) (tag : string) (epoch : Z)
    : list event :=
  if b then match v with Some x => [EvScalar tag x epoch] | None => [] end
  else [].

(** the scalars written for the training losses of the step *)
Definition train_scalars (a : args) (epoch : Z) (s : locals) (l : F)
    : list event :=
  [EvScalar "Train/loss" l epoch]
  ++ scalar_if (train_example a) (example_loss s) "Train/example" epoch
  ++ scalar_if (train_energy a) (energy_loss s) "Train/energy" epoch.

(** What a validation-and-logging pass from state [s], world [w] to
    [s'], [w'] computes and records (lines 304-373). *)
Definition validation_pass (a : args) (epoch : Z) (s : locals) (w : world)
    (s' : locals) (w' : world) : Prop :=
  let E := env_of s in
  let val := read_view (val_data E) (data E) in
  let pos := (np_draws (length (indices_val E))
                (Z.to_nat (batch_size a)) (np_gen w)).1 in
  exists l (x_val z : tensor) (z_jac : list F) n1 g1 wx
         (z_val : tensor) wz (x : tensor) (x_jac : list F) n2 g2
         (fixed_x : tensor) (fixed_jac : list F) n3 g3,
    loss s = Some l /\
    Forall2 (fun i row => val !! nth i (indices_val E) O = Some row) pos x_val /\
    net_forward false (net_eval (net s)) x_val (torch_gen w) = (z, z_jac, n1, g1) /\
    torch_gen wx = g1 /\
    torch_normal fzero fone (batch_size a) (n_dim E - 6) wx = (Ok z_val, wz) /\
    net_inverse false n1 z_val (torch_gen wz) = (x, x_jac, n2, g2) /\
    net_inverse false n2 (fixed_z E) g2 = (fixed_x, fixed_jac, n3, g3) /\
    let example_v :=
      fmul (example_weight a)
        (fsub (fmul fhalf (tmean (sum_squares z))) (tmean z_jac)) in
    let val_energies := energy_evaluator E x in
    let energy_v :=
      fmul (energy_weight a) (fsub (tmean val_energies) (tmean x_jac)) in
    let loss_v :=
      if (train_example a && train_energy a)%bool then fadd example_v energy_v
      else if train_example a then example_v else energy_v in
    let fixed_v :=
      tmean (openmm_energy fixed_x (openmm_context E) (temperature a)) in
    example_loss_val s' = Some example_v /\
    energy_loss_val s' = Some energy_v /\
    loss_val s' = Some loss_v /\
    fixed_energy s' = Some fixed_v /\
    fixed_coords s' = fixed_coords s ++ [fixed_x] /\
    env_of s' = E /\ net s' = n3 /\ optimizer s' = optimizer s /\
    loss s' = loss s /\ example_loss s' = example_loss s /\
    energy_loss s' = energy_loss s /\
    fs w' = fs w /\
    trace w' =
      trace w ++ train_scalars a epoch s l ++
      [EvPostfix l loss_v;
       EvScalar "Validation/loss" loss_v epoch;
       EvScalar "Validation/example" example_v epoch;
       EvScalar "Validation/energy" energy_v epoch;
       EvScalar "Energies/mean_energy" (tmean val_energies) epoch;
       EvScalar "Energies/median_energy" (tmedian val_energies) epoch;
       EvScalar "Energies/minimum_energy" (tmin val_energies) epoch;
       EvScalar "Energies/fixed_energy" fixed_v epoch].

(** Every name the lines after the loop read is bound. *)
Definition names_bound (a : args) (s : locals) : Prop :=
  is_Some (loss s) /\
  (train_example a = true -> is_Some (example_loss s)) /\
  (train_energy a = true -> is_Some (energy_loss s)) /\
  is_Some (loss_val s) /\ is_Some (example_loss_val s) /\
  is_Some (energy_loss_val s) /\ is_Some (fixed_energy s) /\
  fixed_coords s <> [].

(** a computation that returns from every world *)
Definition total {A} (m : M A) : Prop :=
  forall w, exists x w', m w = (Ok x, w').

(** the values written under [tag] at [step], oldest first *)
Definition logged (tag : string) (step : Z) (t : list event) : list F :=
  flat_map (fun e => match e with
                     | EvScalar tag' v step' =>
                         if (String.eqb tag tag' && (step =? step'))%bool
                         then [v] else []
                     | _ => []
                     end) t.


(** ** Vocabulary for the statements about the rest of the script *)

(** a computation that leaves the file system as it found it, whether it
    returns or raises *)
Definition keeps_fs {A} (m : M A) : Prop := forall w, fs (m w).2 = fs w.

Definition is_backward (e : event) : bool :=
  match e with EvBackward _ => true | _ => false end.

(** how many backward passes a trace records *)
Definition backward_count (t : list event) : nat :=
  length (List.filter is_backward t).

(** the epochs of [es] in which the loop validates and logs *)
Definition log_epochs (a : args) (es : list Z) : list Z :=
  List.filter (fun e => e mod log_freq a =? 0) es.

(** the layers [build_network] hands to [CompositeTransform] *)
Definition network_layers (n_dim : Z) (topology : Traj)
    (training_data : tensor) (n_coupling : Z) (use_affine_coupling : bool)
    (spline_points' hidden_features' hidden_layers' : Z) (dropout : F)
    : list Layer :=
  pca_mixed_transform n_dim topology training_data
  :: concat (map (fun _ => coupling_block n_dim use_affine_coupling
                             spline_points' hidden_features' hidden_layers'
                             dropout)
               (py_range n_coupling)).

(** the events of creating the network, loaded or built *)
Definition network_events (a : args) : list event :=
  match truthy (load_network_arg a) with
  | Some name => [EvLoadNet (model_file name)]
  | None => [EvPrint "Creating network"; EvBuildNet]
  end.

(** the exceptions an iteration of the loop can end in *)
Definition loop_error (e : exn) : Prop :=
  match e with
  | ValueError _ | RuntimeError _ | ZeroDivisionError => True
  | _ => False
  end.

(** a computation that, when it raises, raises one of [allowed] *)
Definition raises_only {A} (allowed : exn -> Prop) (m : M A) : Prop :=
  forall w e w', m w = (Raise e, w') -> allowed e.

End Train.

Arguments args : clear implicits.
Arguments args {B}.

(** ** A small back end to run the script on

    Exact rationals for the scalars, counters for the two generators, a
    three-atom molecule with five frames, and a one-parameter "network". *)

Module Toy.

Definition qadd (x y : Q) : Q := Qred (x + y).
Definition qsub (x y : Q) : Q := Qred (x - y).
Definition qmul (x y : Q) : Q := Qred (x * y).
Definition qdiv (x y : Q) : Q := Qred (x / y).
Definition qmin (x y : Q) : Q := if Qle_bool x y then x else y.

Fixpoint qinsert (x : Q) (l : list Q) : list Q :=
  match l with
  | [] => [x]
  | y :: r => if Qle_bool x y then x :: l else y :: qinsert x r
  end.
Definition qsort (l : list Q) : list Q := fold_right qinsert [] l.
Definition qmedian (l : list Q) : Q := nth ((length l - 1) / 2)%nat (qsort l) 0%Q.
Definition qminimum (l : list Q) : Q :=
  match l with [] => 0%Q | x :: r => fold_left qmin r x end.

Definition frame (i : Z) : list Q :=
  map (fun j => inject_Z (10 * i + Z.of_nat j)) (seq 0 9%nat).

Definition frames (dcd : string) : list (list Q) :=
  if String.eqb dcd "other.dcd" then map frame [6; 7; 8; 9]
  else map frame [1; 2; 3; 4; 5].

Definition qsum (l : list Q) : Q := fold_left qadd l 0%Q.

Definition backend : Backend := {|
  F := Q;
  fzero := 0%Q;
  fone := 1%Q;
  fhalf := (1 # 2)%Q;
  fadd := qadd; fsub := qsub; fmul := qmul; fdiv := qdiv;
  of_count := fun n => inject_Z (Z.of_nat n);
  as_tensor32 := fun x => x;
  tmedian := qmedian;
  tmin := qminimum;
  NGen := nat;
  np_randint := fun n g => ((g mod n)%nat, S g);
  np_randint_lt := fun n g H =>
    Nat.mod_upper_bound g n (proj2 (Nat.neq_0_lt_0 n) H);
  np_shuffle := fun A l g => (rev l, S g);
  np_shuffle_perm := fun A l g => Permutation_sym (Permutation_rev l);
  TGen := nat;
  torch_randn := fun g => (inject_Z (Z.of_nat g), S g);
  Traj := string * list (list Q);
  md_load := fun dcd top => (top, frames dcd);
  superpose_backbone := fun t => t;
  traj_atoms := fun _ => 3%nat;
  traj_frames := snd;
  traj_set_xyz := fun xyz t => (t.1, xyz);
  Net := Z;
  Layer := unit;
  pca_mixed_transform := fun _ _ _ => tt;
  random_permutation := fun _ _ => tt;
  alternating_mask := fun n even =>
    map (fun i => if even then Nat.even i else Nat.odd i) (seq 0 (Z.to_nat n));
  affine_coupling := fun _ _ _ _ => tt;
  spline_coupling := fun _ _ _ _ _ _ => tt;
  composite_transform := fun layers g => (Z.of_nat (length layers), S g);
  torch_load := fun _ => 0;
  net_train := fun n => n;
  net_eval := fun n => n;
  net_forward := fun _ n x g =>
    ((map (fun r => map (qadd (inject_Z n)) (skipn 6%nat r)) x,
      map (fun _ => inject_Z n) x), n, g);
  net_inverse := fun _ n z g =>
    ((map (fun r => app (repeat 0%Q 6%nat) (map (fun c => qsub c (inject_Z n)) r)) z,
      map (fun _ => inject_Z (- n)) z), n, g);
  backward := fun _ n => n;
  Opt := unit;
  adamw := fun _ _ _ => tt;
  warmup_cosine := fun o _ _ _ _ => o;
  zero_grad := fun _ n => n;
  opt_step := fun o n => (o, n + 1);
  sched_step := fun _ o => o;
  Ctx := string;
  openmm_simulation := fun pdb => pdb;
  openmm_energy := fun x _ _ => map qsum x;
  regularize_energy := fun e high max =>
    map (fun v => if Qle_bool v high then v else qmin high max) e;
  writer_file := "events.out.tfevents.0.host.1";
|}.

#[local] Existing Instance backend.

(** the float a decimal option value is read as: the double nearest to it *)
Definition double (q : Q) : float :=
  SFdiv 53 1024 (binary_normalize 53 1024 (Qnum q) 0 false)
    (binary_normalize 53 1024 (Zpos (Qden q)) 0 false).

Definition configure (epochs' log_freq' : Z) (fold : Q)
    (example energy : bool) : @args backend := {|
  pdb_path := "mol.pdb";
  dcd_path := "mol.dcd";
  output_name := "run";
  overwrite := false;
  epochs := epochs';
  batch_size := 2;
  warmup_epochs := 1;
  init_lr := (1 # 1000)%Q;
  final_lr := (1 # 100000)%Q;
  weight_decay := (1 # 1000)%Q;
  dropout_fraction := (1 # 2)%Q;
  log_freq := log_freq';
  fold_validation := double fold;
  load_network_arg := None;
  coupling_layers := 1;
  hidden_features := 4;
  hidden_layers := 1;
  spline_points := 8;
  is_affine := true;
  train_example := example;
  train_energy := energy;
  example_weight := 1%Q;
  energy_weight := 2%Q;
  temperature := 298%Q;
  energy_max := 1000%Q;
  energy_high := 100%Q;
|}.

(** three epochs, logging every second one, two frames of five held out *)
Definition config : @args backend := configure 3 2 (5 # 2)%Q true true.

Definition empty_world : @world backend := {|
  fs := ∅; trace := []; np_gen := 0%nat; torch_gen := 0%nat;
  cuda_available := false; g_args := None |}.

(** a world in which an earlier run has left its model *)
Definition used_world : @world backend :=
  set_fs (<["models/run.pkl" := File]> (<["models" := Dir]> ∅)) empty_world.

(** the world once the script has bound [args] *)
Definition booted (a : @args backend) : @world backend :=
  set_g_args a empty_world.

Definition blank : @locals backend := {|
  env_of := {| traj := (EmptyString, []); n_dim := 0;
               openmm_context := EmptyString;
               energy_evaluator := fun _ => []; data := [];
               val_data := {| lo := 0; hi := 0 |};
               train_data := {| lo := 0; hi := 0 |};
               indices := []; indices_val := []; fixed_z := [] |};
  net := 0; optimizer := tt; fixed_coords := [];
  loss := None; example_loss := None; energy_loss := None;
  loss_val := None; example_loss_val := None; energy_loss_val := None;
  fixed_energy := None |}.

Definition state_of (r : outcome (@locals backend) * @world backend)
    : @locals backend :=
  match r.1 with Ok s => s | Raise _ => blank end.

(** the state and world that [setup] leaves *)
Definition s0 (a : @args backend) : @locals backend :=
  state_of (setup a Cpu (booted a)).
Definition w0 (a : @args backend) : @world backend :=
  (setup a Cpu (booted a)).2.

(** ... and those after the first training step, and after the first
    iteration of the loop *)
Definition s1 (a : @args backend) : @locals backend :=
  state_of (train_step a 0 (s0 a) (w0 a)).
Definition w1 (a : @args backend) : @world backend :=
  (train_step a 0 (s0 a) (w0 a)).2.
Definition s2 (a : @args backend) : @locals backend :=
  state_of (epoch_body a 0 (s0 a) (w0 a)).
Definition w2 (a : @args backend) : @world backend :=
  (epoch_body a 0 (s0 a) (w0 a)).2.

(** ... and those at the end of the loop *)
Definition s_end (a : @args backend) : @locals backend :=
  state_of (training_loop a (s0 a) (w0 a)).
Definition w_end (a : @args backend) : @world backend :=
  (training_loop a (s0 a) (w0 a)).2.


(** a world with the leftovers of an earlier run of the same name, and the
    model of another run *)
Definition old_run_world : @world backend :=
  set_fs (<["models/run.pkl" := File]>
            (<["models/other.pkl" := File]>
               (<["models" := Dir]>
                  (<["runs/run/events" := File]>
                     (<["runs/run" := Dir]> ∅))))) empty_world.

(** ... and one in which [training_traj/run.pdb] is a directory *)
Definition odd_world : @world backend :=
  set_fs (<["models/run.pkl" := File]>
            (<["training_traj/run.pdb" := Dir]> ∅)) empty_world.

(** ZeroDivisionError, as a test on outcomes *)
Definition is_zero_division {A} (o : outcome A) : bool :=
  match o with Raise ZeroDivisionError => true | _ => false end.

(** never logging ([--log-freq 0]), and ten-fold validation on five frames *)
Definition config_no_log : @args backend := configure 3 0 (5 # 2)%Q true true.
Definition config_ten_fold : @args backend := configure 3 2 (10 # 1)%Q true true.

End Toy.

(** * The division that sizes the validation split

    Facts on [int(n / f)] in double precision. *)

Section Floats.

Lemma digits2_pos_bounds p :
  2 ^ (Zpos (digits2_pos p) - 1) <= Zpos p < 2 ^ Zpos (digits2_pos p).
Proof.
  induction p as [p IH | p IH |]; simpl digits2_pos.
  - rewrite Pos2Z.inj_succ.
    replace (Z.succ (Zpos (digits2_pos p)) - 1) with (Z.succ (Zpos (digits2_pos p) - 1)) by lia.
    rewrite !Z.pow_succ_r by lia. lia.
  - rewrite Pos2Z.inj_succ.
    replace (Z.succ (Zpos (digits2_pos p)) - 1) with (Z.succ (Zpos (digits2_pos p) - 1)) by lia.
    rewrite !Z.pow_succ_r by lia. lia.
  - simpl. lia.
Qed.

Lemma Zdigits2_le q E : 0 <= q < 2 ^ E -> 0 <= E -> Zdigits2 q <= E.
Proof.
  intros [Hq Hlt] HE. destruct q as [|p|p]; simpl; try lia.
  pose proof (digits2_pos_bounds p) as [Hlo _].
  assert (H : 2 ^ (Zpos (digits2_pos p) - 1) < 2 ^ E) by lia.
  apply Z.pow_lt_mono_r_iff in H; lia.
Qed.

Lemma digits2_pos_mono p q : Zpos p <= Zpos q -> Zpos (digits2_pos p) <= Zpos (digits2_pos q).
Proof.
  intros H. pose proof (digits2_pos_bounds p) as [Hlo _].
  pose proof (digits2_pos_bounds q) as [_ Hhi].
  assert (H1 : 2 ^ (Zpos (digits2_pos p) - 1) < 2 ^ Zpos (digits2_pos q)) by lia.
  apply Z.pow_lt_mono_r_iff in H1; lia.
Qed.

Lemma digits2_pos_full p : 2 ^ 52 <= Zpos p < 2 ^ 53 -> Zpos (digits2_pos p) = 53.
Proof.
  intros [Hlo Hhi]. pose proof (digits2_pos_bounds p) as [Hl Hh].
  assert (H1 : 2 ^ 52 < 2 ^ Zpos (digits2_pos p)) by lia.
  assert (H2 : 2 ^ (Zpos (digits2_pos p) - 1) < 2 ^ 53) by lia.
  apply Z.pow_lt_mono_r_iff in H1; try lia.
  apply Z.pow_lt_mono_r_iff in H2; lia.
Qed.

Lemma shr_1_rel a : 0 <= shr_m a -> shr_rel 1 a (shr_1 a).
Proof.
  destruct a as [m r s]. unfold shr_rel, inexact. simpl shr_m. intros Hm.
  change (2 ^ 1) with 2.
  destruct m as [|[p|p|]|p]; try lia; simpl shr_1; simpl shr_m; simpl shr_r; simpl shr_s.
  - split; [reflexivity | intros H; left; destruct r, s; auto].
  - split.
    + apply (Z.div_unique _ _ _ 1); lia.
    + intros _. right. rewrite <- (Z.mod_unique (Zpos p~1) 2 (Zpos p) 1); lia.
  - split.
    + apply (Z.div_unique _ _ _ 0); lia.
    + intros H. left. destruct r, s; auto.
  - split; [reflexivity |]. intros _. right. discriminate.
Qed.

Lemma shr_rel_nonneg k a b : 0 <= k -> 0 <= shr_m a -> shr_rel k a b -> 0 <= shr_m b.
Proof.
  intros Hk Ha [Hb _]. rewrite Hb. apply Z.div_pos; [lia |].
  apply Z.pow_pos_nonneg; lia.
Qed.

Lemma shr_rel_trans k1 k2 a b c :
  0 <= k1 -> 0 <= k2 -> 0 <= shr_m a ->
  shr_rel k1 a b -> shr_rel k2 b c -> shr_rel (k1 + k2) a c.
Proof.
  intros H1 H2 Ha [Hb Ib] [Hc Ic].
  assert (P1 : 0 < 2 ^ k1) by (apply Z.pow_pos_nonneg; lia).
  assert (P2 : 0 < 2 ^ k2) by (apply Z.pow_pos_nonneg; lia).
  split.
  - rewrite Hc, Hb, Z.pow_add_r by lia. apply Z.div_div; lia.
  - intros H. rewrite Z.pow_add_r by lia.
    assert (Hdiv : shr_m a mod (2 ^ k1 * 2 ^ k2) = 0 ->
                   shr_m a mod 2 ^ k1 = 0 /\ (shr_m a / 2 ^ k1) mod 2 ^ k2 = 0).
    { intros Hz. apply Z.mod_divide in Hz; [| lia].
      destruct Hz as [t Ht]. split.
      - apply Z.mod_divide; [lia |]. exists (t * 2 ^ k2). rewrite Ht. ring.
      - replace (shr_m a) with (t * 2 ^ k2 * 2 ^ k1) by (rewrite Ht; ring).
        rewrite Z.div_mul by lia. apply Z.mod_mul. lia. }
    destruct (Ic H) as [Hb' | Hb'].
    + destruct (Ib Hb') as [Ha' | Ha']; [left; exact Ha' |].
      right. intros Hz. apply Hdiv in Hz. tauto.
    + right. intros Hz. apply Hdiv in Hz. rewrite Hb in Hb'. tauto.
Qed.

Lemma iter_pos_shr p : forall a, 0 <= shr_m a -> shr_rel (Zpos p) a (SpecFloat.iter_pos shr_1 p a).
Proof.
  induction p as [p IH | p IH |]; intros a Ha; simpl SpecFloat.iter_pos.
  - pose proof (shr_1_rel a Ha) as R1.
    pose proof (shr_rel_nonneg 1 _ _ ltac:(lia) Ha R1) as N1.
    pose proof (IH _ N1) as R2.
    pose proof (shr_rel_nonneg (Zpos p) _ _ ltac:(lia) N1 R2) as N2.
    pose proof (IH _ N2) as R3.
    replace (Zpos p~1) with (1 + Zpos p + Zpos p) by lia.
    eapply shr_rel_trans; [lia | lia | exact Ha | | exact R3].
    eapply shr_rel_trans; [lia | lia | exact Ha | exact R1 | exact R2].
  - pose proof (IH _ Ha) as R2.
    pose proof (shr_rel_nonneg (Zpos p) _ _ ltac:(lia) Ha R2) as N2.
    pose proof (IH _ N2) as R3.
    replace (Zpos p~0) with (Zpos p + Zpos p) by lia.
    eapply shr_rel_trans; [lia | lia | exact Ha | exact R2 | exact R3].
  - apply shr_1_rel, Ha.
Qed.

Lemma shr_rel_0 a : shr_rel 0 a a.
Proof.
  split; [now rewrite Z.pow_0_r, Z.div_1_r | auto].
Qed.

Lemma shr_rel_shr a e n :
  0 <= shr_m a ->
  snd (shr a e n) = e + Z.max 0 n /\ shr_rel (Z.max 0 n) a (fst (shr a e n)).
Proof.
  intros Ha. destruct n as [|p|p]; simpl.
  - split; [lia | apply shr_rel_0].
  - split; [reflexivity | now apply iter_pos_shr].
  - split; [lia | apply shr_rel_0].
Qed.

Lemma shr_fexp_rel m e l :
  0 <= m ->
  let k := Z.max 0 (fexp 53 1024 (Zdigits2 m + e) - e) in
  snd (shr_fexp 53 1024 m e l) = e + k /\
  shr_m (fst (shr_fexp 53 1024 m e l)) = m / 2 ^ k /\
  (loc_of_shr_record (fst (shr_fexp 53 1024 m e l)) <> loc_Exact ->
   l <> loc_Exact \/ m mod 2 ^ k <> 0).
Proof.
  intros Hm k. unfold shr_fexp.
  assert (Ha : 0 <= shr_m (shr_record_of_loc m l)).
  { destruct l as [|[]]; exact Hm. }
  destruct (shr_rel_shr (shr_record_of_loc m l) e
              (fexp 53 1024 (Zdigits2 m + e) - e) Ha) as [He [Hq Hi]].
  fold k in He, Hq, Hi.
  assert (Hsm : shr_m (shr_record_of_loc m l) = m) by (destruct l as [|[]]; reflexivity).
  rewrite Hsm in Hq, Hi.
  split; [exact He |]. split; [exact Hq |].
  intros Hloc.
  assert (Hin : inexact (fst (shr (shr_record_of_loc m l) e
                    (fexp 53 1024 (Zdigits2 m + e) - e))) = true).
  { destruct (fst (shr _ _ _)) as [m0 [|] [|]]; simpl in *; auto. }
  destruct (Hi Hin) as [H | H]; [left | right; exact H].
  destruct l as [|[]]; [discriminate H | discriminate | discriminate | discriminate].
Qed.

Lemma round_nearest_even_cases m l :
  round_nearest_even m l = m \/
  (round_nearest_even m l = m + 1 /\ l <> loc_Exact).
Proof.
  destruct l as [|[]]; simpl.
  - left; reflexivity.
  - destruct (Z.even m); [left; reflexivity |].
    right; split; [reflexivity | discriminate].
  - left; reflexivity.
  - right; split; [reflexivity | discriminate].
Qed.

Lemma new_location_exact n r : new_location n r <> loc_Exact -> r <> 0.
Proof.
  intros H Hr. apply H. subst r. unfold new_location.
  destruct (Z.even n); reflexivity.
Qed.

Lemma no_round_up (a b C P my K T q r m1 qm : Z) :
  0 < a -> a < b -> b <= C * (b - a) -> C <= T ->
  0 < P -> 0 < my -> 0 < K ->
  my * (K * T) = b * P ->
  a * P = my * q + r -> 0 <= r < my ->
  q = K * m1 + qm -> 0 <= qm < K ->
  T <= m1 + 1 ->
  r = 0 /\ qm = 0.
Proof.
  intros Ha Hab HC HCT HP Hmy HK HE Hdm Hr Hdq Hqm Hge.
  assert (HT : 0 < T) by nia.
  assert (S1 : K * (T - 1) <= q).
  { assert (K * (T - 1) <= K * m1) by (apply Z.mul_le_mono_nonneg_l; lia). lia. }
  assert (S2 : my * (K * (T - 1)) <= a * P).
  { assert (my * (K * (T - 1)) <= my * q) by (apply Z.mul_le_mono_nonneg_l; lia). lia. }
  assert (S3 : (T - 1) * b * P <= a * T * P).
  { assert (my * (K * (T - 1)) * T <= a * P * T) by (apply Z.mul_le_mono_nonneg_r; lia).
    replace ((T - 1) * b * P) with ((T - 1) * (b * P)) by ring.
    rewrite <- HE.
    replace ((T - 1) * (my * (K * T))) with (my * (K * (T - 1)) * T) by ring.
    replace (a * T * P) with (a * P * T) by ring. assumption. }
  assert (S4 : (T - 1) * b <= a * T).
  { apply Z.mul_le_mono_pos_r in S3; assumption. }
  assert (S5 : C * (b - a) <= T * (b - a)) by (apply Z.mul_le_mono_nonneg_r; lia).
  assert (S6 : a * T = (T - 1) * b) by lia.
  assert (S7 : a * P * T = my * (K * (T - 1)) * T).
  { replace (a * P * T) with (a * T * P) by ring. rewrite S6.
    replace (my * (K * (T - 1)) * T) with ((T - 1) * (my * (K * T))) by ring.
    rewrite HE. ring. }
  assert (S8 : a * P = my * (K * (T - 1))).
  { apply Z.mul_cancel_r in S7; lia. }
  assert (S9 : my * (K * (T - 1)) <= my * q) by (apply Z.mul_le_mono_nonneg_l; lia).
  assert (R0 : r = 0) by lia.
  split; [exact R0 |].
  assert (S10 : my * q = my * (K * (T - 1))) by lia.
  apply Z.mul_cancel_l in S10; [| lia].
  assert (K * (T - 1) <= K * m1) by (apply Z.mul_le_mono_nonneg_l; lia). lia.
Qed.

Lemma fexp_nonpos z : z <= 0 -> fexp 53 1024 z <= -53.
Proof. unfold fexp, emin. lia. Qed.

Lemma div_lt_one (mx my : positive) (ex ey : Z) :
  Zpos mx < 2 ^ 53 -> Zpos my < 2 ^ 53 ->
  (ex = ey /\ Zpos mx < Zpos my) \/ (ex < ey /\ 2 ^ 52 <= Zpos my) ->
  py_int (SFdiv 53 1024 (S754_finite false mx ex) (S754_finite false my ey)) = Ok 0.
Proof.
  intros Hx Hy Hlt.
  pose (d := ey - ex).
  assert (Hd : 0 <= d) by (unfold d; lia).
  pose (a := Zpos mx). pose (b := Zpos my * 2 ^ d).
  assert (Hab : a < b /\ b <= 2 ^ 53 * (b - a)).
  { destruct Hlt as [[He Hm] | [He Hm]].
    - unfold b, d. rewrite He, Z.sub_diag, Z.pow_0_r, Z.mul_1_r. unfold a. lia.
    - assert (Hp : 2 <= 2 ^ d).
      { change 2 with (2 ^ 1) at 1. apply Z.pow_le_mono_r; unfold d; lia. }
      unfold a, b. nia. }
  assert (HD : Zpos (digits2_pos mx) + ex - (Zpos (digits2_pos my) + ey) <= 0).
  { destruct Hlt as [[He Hm] | [He Hm]].
    - pose proof (digits2_pos_mono mx my ltac:(lia)). lia.
    - rewrite (digits2_pos_full my) by lia.
      pose proof (Zdigits2_le (Zpos mx) 53 ltac:(lia) ltac:(lia)) as H. simpl in H. lia. }
  unfold SFdiv, SFdiv_core_binary. simpl Zdigits2. simpl xorb.
  set (e' := Z.min (fexp 53 1024 (Zpos (digits2_pos mx) + ex - (Zpos (digits2_pos my) + ey))) (ex - ey)).
  assert (He' : e' <= -53 /\ e' <= ex - ey).
  { pose proof (fexp_nonpos _ HD). unfold e'. lia. }
  clearbody e'.
  set (s := ex - ey - e').
  assert (Hs : 0 <= s) by (unfold s; lia).
  assert (Hm' : match s with
                | 0 => Z.pos mx
                | Z.pos _ => IntDef.Z.shiftl (Z.pos mx) s
                | Z.neg _ => 0
                end = a * 2 ^ s).
  { destruct s as [|p|p] eqn:Es; [unfold a; lia | | lia].
    change (IntDef.Z.shiftl (Z.pos mx) (Z.pos p)) with (Z.shiftl (Z.pos mx) (Z.pos p)).
    rewrite Z.shiftl_mul_pow2 by lia. reflexivity. }
  rewrite Hm'. clear Hm'.
  change (IntDef.Z.div_eucl (a * 2 ^ s) (Z.pos my)) with (Z.div_eucl (a * 2 ^ s) (Z.pos my)).
  destruct (Z.div_eucl (a * 2 ^ s) (Z.pos my)) as [q r] eqn:Hqr.
  assert (Hq : q = (a * 2 ^ s) / Z.pos my) by (unfold Z.div; now rewrite Hqr).
  assert (Hr : r = (a * 2 ^ s) mod Z.pos my) by (unfold Z.modulo; now rewrite Hqr).
  clear Hqr.
  unfold binary_round_aux.
  assert (Ha : 0 < a) by (unfold a; lia).
  assert (Hmy : 0 < Z.pos my) by lia.
  set (P := 2 ^ s) in *.
  assert (HP : 0 < P) by (apply Z.pow_pos_nonneg; lia).
  assert (HE : Z.pos my * 2 ^ (- e') = b * P).
  { unfold b, P. replace (- e') with (d + s) by (unfold d, s; lia).
    rewrite Z.pow_add_r by lia. ring. }
  assert (Hq0 : 0 <= q) by (rewrite Hq; apply Z.div_pos; nia).
  assert (HqE : q < 2 ^ (- e')).
  { rewrite Hq. apply Z.div_lt_upper_bound; [lia |]. rewrite HE. nia. }
  pose proof (shr_fexp_rel q e' (new_location (Z.pos my) r) Hq0) as (He1 & Hm1 & Hl1).
  set (k1 := Z.max 0 (fexp 53 1024 (Zdigits2 q + e') - e')) in *.
  assert (Hk1 : 0 <= k1 /\ e' + k1 <= -53).
  { pose proof (Zdigits2_le q (- e') ltac:(lia) ltac:(lia)) as Hdq.
    pose proof (fexp_nonpos (Zdigits2 q + e') ltac:(lia)). unfold k1. lia. }
  destruct (shr_fexp 53 1024 q e' (new_location (Z.pos my) r)) as [mrs1 e1].
  simpl in He1, Hm1, Hl1.
  set (K := 2 ^ k1) in *.
  assert (HK : 0 < K) by (apply Z.pow_pos_nonneg; lia).
  set (T := 2 ^ (- e1)).
  assert (HT : 2 ^ 53 <= T).
  { unfold T. apply Z.pow_le_mono_r; lia. }
  assert (HKT : 2 ^ (- e') = K * T).
  { unfold K, T. rewrite <- Z.pow_add_r by lia. f_equal. lia. }
  set (m1 := shr_m mrs1) in *.
  assert (Hm1b : 0 <= m1 < T).
  { rewrite Hm1. split; [apply Z.div_pos; lia |].
    apply Z.div_lt_upper_bound; [lia |]. lia. }
  set (m2 := round_nearest_even m1 (loc_of_shr_record mrs1)).
  assert (Hm2 : 0 <= m2 < T).
  { destruct (round_nearest_even_cases m1 (loc_of_shr_record mrs1))
      as [Hrn | [Hrn Hne]]; fold m2 in Hrn; [lia |].
    destruct (Z.lt_ge_cases (m1 + 1) T) as [|Hge]; [lia |].
    exfalso.
    pose proof (Z.div_mod (a * P) (Z.pos my) ltac:(lia)) as Hdm.
    rewrite <- Hq, <- Hr in Hdm.
    pose proof (Z.mod_pos_bound (a * P) (Z.pos my) ltac:(lia)) as Hrb.
    rewrite <- Hr in Hrb.
    pose proof (Z.div_mod q K ltac:(lia)) as Hdq.
    rewrite <- Hm1 in Hdq.
    pose proof (Z.mod_pos_bound q K ltac:(lia)) as Hqb.
    assert (HE' : Z.pos my * (K * T) = b * P) by (rewrite <- HKT; exact HE).
    destruct (no_round_up a b (2 ^ 53) P (Z.pos my) K T q r m1 (q mod K)
                Ha (proj1 Hab) (proj2 Hab) HT HP Hmy HK HE' Hdm Hrb Hdq Hqb Hge)
      as [Hr0 Hqm].
    destruct (Hl1 Hne) as [Hl | Hl]; [| contradiction].
    now apply new_location_exact in Hl. }
  clearbody m2.
  pose proof (shr_fexp_rel m2 e1 loc_Exact ltac:(lia)) as (He3 & Hm3 & _).
  set (k2 := Z.max 0 (fexp 53 1024 (Zdigits2 m2 + e1) - e1)) in *.
  assert (Hk2 : 0 <= k2) by (unfold k2; lia).
  destruct (shr_fexp 53 1024 m2 e1 loc_Exact) as [mrs3 e3].
  simpl in He3, Hm3.
  assert (P2 : 0 < 2 ^ k2) by (apply Z.pow_pos_nonneg; lia).
  destruct (shr_m mrs3) as [|m3|m3] eqn:E3.
  - reflexivity.
  - assert (Hge : 2 ^ k2 <= m2).
    { destruct (Z.lt_ge_cases m2 (2 ^ k2)) as [Hlt2|]; [| assumption].
      rewrite Z.div_small in Hm3 by lia. discriminate. }
    assert (Hk2lt : k2 < - e1).
    { apply (Z.pow_lt_mono_r_iff 2); [lia | lia |]. fold T. lia. }
    assert (He3n : e3 < 0) by lia.
    destruct (Z.leb_spec e3 (1024 - 53)); [| lia].
    unfold py_int. destruct (Z.leb_spec 0 e3); [lia |].
    simpl cond_Zopp. f_equal. rewrite Hm3.
    apply Z.div_small. split; [apply Z.div_pos; lia |].
    apply Z.div_lt_upper_bound; [lia |].
    rewrite <- Z.pow_add_r by lia.
    replace (k2 + - e3) with (- e1) by lia. fold T. lia.
  - exfalso. assert (0 <= m2 / 2 ^ k2) by (apply Z.div_pos; lia). lia.
Qed.

(** what validity says about a finite float *)
Lemma valid_bounds s m e :
  valid_binary 53 1024 (S754_finite s m e) = true ->
  Zpos m < 2 ^ 53 /\ -1074 <= e /\ (-1074 < e -> 2 ^ 52 <= Zpos m).
Proof.
  simpl. unfold bounded, canonical_mantissa, fexp, emin. intros H.
  apply andb_prop in H as [H _]. apply Z.eqb_eq in H.
  pose proof (digits2_pos_bounds m) as [Hlo Hhi].
  assert (Hd : Zpos (digits2_pos m) <= 53) by lia.
  split.
  - assert (2 ^ Zpos (digits2_pos m) <= 2 ^ 53) by (apply Z.pow_le_mono_r; lia).
    lia.
  - split; [lia |]. intros He.
    replace (Zpos (digits2_pos m)) with 53 in Hlo by lia. exact Hlo.
Qed.

(** rounding a canonical mantissa changes nothing *)
Lemma round_canonical s m e :
  fexp 53 1024 (Zpos (digits2_pos m) + e) = e -> e <= 971 ->
  binary_round_aux 53 1024 s (Zpos m) e loc_Exact = S754_finite s m e.
Proof.
  intros Hc He. unfold binary_round_aux, shr_fexp. simpl Zdigits2.
  rewrite Hc, Z.sub_diag. simpl. rewrite Hc, Z.sub_diag. simpl.
  destruct (Z.leb_spec e (1024 - 53)); [reflexivity | lia].
Qed.

Lemma digits2_pos_iter m k :
  Zpos (digits2_pos (Pos.iter xO m k)) = Zpos (digits2_pos m) + Zpos k.
Proof.
  induction k as [|k IH] using Pos.peano_ind.
  - simpl. lia.
  - rewrite Pos.iter_succ. simpl digits2_pos. rewrite Pos2Z.inj_succ, IH. lia.
Qed.

(** an int below 2^53 converts to a valid non-negative float *)
Lemma float_of_int_valid n :
  0 <= n < 2 ^ 53 ->
  exists x, float_of_int n = Ok x /\ valid_binary 53 1024 x = true /\
            (x = S754_zero false \/ exists m e, x = S754_finite false m e).
Proof.
  intros [Hn Hlt]. unfold float_of_int.
  destruct n as [|p|p]; [| | lia].
  - exists (S754_zero false). simpl. auto.
  - simpl binary_normalize. unfold binary_round.
    pose proof (digits2_pos_bounds p) as [Hlo Hhi].
    assert (Hd : 1 <= Zpos (digits2_pos p) <= 53).
    { split; [lia |].
      assert (H : 2 ^ (Zpos (digits2_pos p) - 1) < 2 ^ 53) by lia.
      apply Z.pow_lt_mono_r_iff in H; lia. }
    assert (Hf : fexp 53 1024 (Zpos (digits2_pos p) + 0)
                 = Zpos (digits2_pos p) - 53) by (unfold fexp, emin; lia).
    rewrite Hf. unfold shl_align.
    destruct (Zpos (digits2_pos p) - 53 - 0) as [|k|k] eqn:Ek; [| lia |].
    + rewrite round_canonical by (rewrite ?Hf; lia).
      eexists. split; [reflexivity |]. split; [| eauto].
      simpl. unfold bounded, canonical_mantissa. rewrite Hf.
      apply andb_true_intro. split; [apply Z.eqb_eq; lia | apply Z.leb_le; lia].
    + assert (Hc : fexp 53 1024 (Zpos (digits2_pos (Pos.iter xO p k))
                                 + (Zpos (digits2_pos p) - 53))
                   = Zpos (digits2_pos p) - 53).
      { rewrite digits2_pos_iter. unfold fexp, emin. lia. }
      rewrite round_canonical by (rewrite ?Hc; lia).
      eexists. split; [reflexivity |]. split; [| eauto].
      simpl. unfold bounded, canonical_mantissa. rewrite Hc.
      apply andb_true_intro. split; [apply Z.eqb_eq; lia | apply Z.leb_le; lia].
Qed.

(** the quotient of a non-negative float by a greater one truncates to 0 *)
Lemma div_trunc_zero (x y : float) :
  valid_binary 53 1024 x = true -> valid_binary 53 1024 y = true ->
  (x = S754_zero false \/ exists m e, x = S754_finite false m e) ->
  SFltb x y = true ->
  py_int (SFdiv 53 1024 x y) = Ok 0.
Proof.
  intros Vx Vy Hx Hlt. unfold SFltb in Hlt.
  destruct Hx as [-> | (mx & ex & ->)].
  - destruct y as [sy|sy| |sy my ey]; simpl in Hlt; try discriminate;
      reflexivity.
  - destruct y as [sy|sy| |sy my ey]; simpl in Hlt; try discriminate.
    + reflexivity.
    + destruct sy; [discriminate |].
      apply valid_bounds in Vx as (Bx & Ex & _).
      apply valid_bounds in Vy as (By & _ & Ny).
      apply div_lt_one; [exact Bx | exact By |].
      destruct (Z.compare_spec ex ey) as [He | He | He].
      * left. split; [exact He |].
        change (Pos.compare_cont Eq mx my) with (Pos.compare mx my) in Hlt.
        destruct (Pos.compare_spec mx my); try discriminate. lia.
      * right. split; [exact He | apply Ny; lia].
      * discriminate.
Qed.

(** rounding keeps the sign *)
Lemma py_int_round_nonneg m e l k :
  py_int (binary_round_aux 53 1024 false m e l) = Ok k -> 0 <= k.
Proof.
  unfold binary_round_aux.
  destruct (shr_fexp 53 1024 m e l) as [mrs1 e1].
  destruct (shr_fexp 53 1024 _ e1 loc_Exact) as [mrs2 e2].
  destruct (shr_m mrs2) as [|p|p].
  - intros [= <-]. lia.
  - destruct (e2 <=? 1024 - 53); [| discriminate].
    unfold py_int, cond_Zopp. intros [= <-].
    destruct (Z.leb_spec 0 e2).
    + apply Z.mul_nonneg_nonneg; [lia | apply Z.pow_nonneg; lia].
    + apply Z.div_pos; [lia | apply Z.pow_pos_nonneg; lia].
  - discriminate.
Qed.

Lemma float_of_int_cases n x :
  float_of_int (Z.of_nat n) = Ok x ->
  x = S754_zero false \/ x = S754_nan \/ exists m e, x = S754_finite false m e.
Proof.
  unfold float_of_int. destruct (Z.of_nat n) as [|p|p] eqn:En; [| | lia].
  - simpl. intros [= <-]. auto.
  - simpl binary_normalize. unfold binary_round.
    destruct (shl_align _ _ _) as [mz ez]. unfold binary_round_aux.
    destruct (shr_fexp 53 1024 (Zpos mz) ez loc_Exact) as [mrs1 e1].
    destruct (shr_fexp 53 1024 _ e1 loc_Exact) as [mrs2 e2].
    destruct (shr_m mrs2) as [|q|q].
    + intros [= <-]. auto.
    + destruct (e2 <=? 1024 - 53); [| discriminate].
      intros [= <-]. eauto.
    + intros [= <-]. auto.
Qed.

(** for a positive divisor [int(n / f)] is not negative *)
Lemma int_div_nonneg n f k :
  float_positive f = true -> int_div n f = Ok k -> 0 <= k.
Proof.
  unfold int_div. intros Hf H.
  destruct (float_of_int (Z.of_nat n)) as [x|e] eqn:Hx; [| discriminate].
  apply float_of_int_cases in Hx.
  destruct f as [sf|sf| |sf mf ef]; try discriminate; destruct sf; try discriminate.
  - destruct Hx as [-> | [-> | (m & e & ->)]]; simpl in H;
      try discriminate; injection H as <-; lia.
  - destruct Hx as [-> | [-> | (m & e & ->)]].
    + simpl in H. injection H as <-. lia.
    + discriminate.
    + unfold SFdiv in H.
      destruct (SFdiv_core_binary 53 1024 (Zpos m) e (Zpos mf) ef) as [[mz ez] lz].
      simpl xorb in H. now apply py_int_round_nonneg in H.
Qed.

End Floats.

(** * Properties *)

Section Properties.
Context `{B : Backend}.

(** ** Sequencing *)

Lemma bind_Ok {A C} (m : M A) (k : A -> M C) w c w' :
  bind m k w = (Ok c, w') ->
  exists a w1, m w = (Ok a, w1) /\ k a w1 = (Ok c, w').
Proof.
  unfold bind. destruct (m w) as [[x|e] w1]; intros H; [eauto | discriminate].
Qed.

Lemma bind_run_Ok {A C} (m : M A) (k : A -> M C) w a w1 :
  m w = (Ok a, w1) -> bind m k w = k a w1.
Proof. intros H. unfold bind. now rewrite H. Qed.

Lemma bind_run_Raise {A C} (m : M A) (k : A -> M C) w e w1 :
  m w = (Raise e, w1) -> bind m k w = (Raise e, w1).
Proof. intros H. unfold bind. now rewrite H. Qed.

(** ** The two configuration gates of the script *)

(** C4. With both objectives disabled the script stops with the
    RuntimeError of its first check.  Nothing has happened by then: the
    file system was neither queried nor changed, no event was produced (no
    directory, writer, trajectory, network or OpenMM context was created,
    no training step ran) and no random number was drawn; the only change
    is that the module-level name [args] is bound. *)
Theorem no_objective_rejected (a : args) (w : world) :
  train_example a = false -> train_energy a = false ->
  exists msg,
    main a w = (Raise (RuntimeError msg), set_g_args a w) /\
    fs (main a w).2 = fs w /\
    trace (main a w).2 = trace w /\
    np_gen (main a w).2 = np_gen w /\
    torch_gen (main a w).2 = torch_gen w.
Proof.
  intros Hex Hen. eexists.
  assert (Hm : main a w =
               (Raise (RuntimeError
                  "You must specify at least one of train_example or train_energy."),
                set_g_args a w)).
  { unfold main, bind. simpl. rewrite Hex, Hen. reflexivity. }
  rewrite Hm. simpl. repeat split; reflexivity.
Qed.

(** C5. When [models/<output-name>.pkl] exists and [--overwrite] was not
    given, the script stops with a RuntimeError.  The file system is left
    exactly as it was (nothing deleted, no directory created), no random
    number was drawn, and the only event, if any, is the existence test of
    the model file itself: no training has started. *)
Theorem existing_output_rejected (a : args) (w : world) :
  path_exists (fs w) (model_file (output_name a)) = true ->
  overwrite a = false ->
  exists msg w',
    main a w = (Raise (RuntimeError msg), w') /\
    fs w' = fs w /\
    np_gen w' = np_gen w /\
    torch_gen w' = torch_gen w /\
    (trace w' = trace w \/
     trace w' = trace w ++ [EvExists (model_file (output_name a))]).
Proof.
  intros Hex Hov.
  destruct (negb (train_example a || train_energy a)) eqn:Hflags.
  - exists "You must specify at least one of train_example or train_energy.",
      (set_g_args a w).
    split; [| simpl; auto].
    unfold main, bind. simpl. rewrite Hflags. reflexivity.
  - eexists _, _. split.
    + unfold main, bind, os_path_exists. simpl. rewrite Hflags. simpl.
      rewrite Hex, Hov. reflexivity.
    + simpl. auto.
Qed.

(** ** Loading the trajectory *)

(** C9. The result of [load_trajectory] does not depend on its two
    parameters: whatever is passed, it is the trajectory found at the paths
    of the module-level [args], superposed on its backbone (and a NameError
    when that name is not bound). *)
Theorem load_trajectory_ignores_parameters (p d p' d' : string) (w : world) :
  load_trajectory p d w = load_trajectory p' d' w /\
  (load_trajectory p d w).1 =
    match g_args w with
    | Some ga => Ok (superpose_backbone (md_load (dcd_path ga) (pdb_path ga)))
    | None => Raise (NameError "args")
    end.
Proof.
  split; [reflexivity |].
  unfold load_trajectory, bind, emit. simpl.
  destruct (g_args w); reflexivity.
Qed.


(** ** Pieces of a training step *)

Tactic Notation "inv_bind" hyp(H) "as" ident(r) ident(w1) ident(Hr) :=
  apply bind_Ok in H as (r & w1 & Hr & H).

Ltac inv_ret H := unfold ret in H; injection H as <- <-.

Lemma np_draws_length n size g :
  length (np_draws n size g).1 = size.
Proof.
  revert g. induction size as [|k IH]; intros g; simpl; [reflexivity |].
  destruct (np_randint n g) as [i g1]. specialize (IH g1).
  destruct (np_draws n k g1) as [rest g2]. simpl in *. now rewrite IH.
Qed.

Lemma np_draws_lt n size g :
  (0 < n)%nat -> Forall (fun i => (i < n)%nat) (np_draws n size g).1.
Proof.
  intros Hn. revert g. induction size as [|k IH]; intros g; simpl.
  - constructor.
  - pose proof (np_randint_lt n g Hn) as Hi.
    destruct (np_randint n g) as [i g1]. specialize (IH g1).
    destruct (np_draws n k g1) as [rest g2]. simpl in *. now constructor.
Qed.

Lemma np_random_choice_Ok (pop : list nat) size w index w' :
  np_random_choice pop size w = (Ok index, w') ->
  0 <= size /\
  index = map (fun i => nth i pop O)
            (np_draws (length pop) (Z.to_nat size) (np_gen w)).1 /\
  w' = set_np_gen (np_draws (length pop) (Z.to_nat size) (np_gen w)).2 w.
Proof.
  unfold np_random_choice. intros H.
  destruct (size <? 0) eqn:Hs; [discriminate |].
  destruct (Nat.eqb (length pop) 0 && (0 <? size))%bool; [discriminate |].
  destruct (np_draws _ _ _) as [pos g]. injection H as <- <-.
  split; [lia | split; reflexivity].
Qed.

Lemma take_rows_Ok (t : tensor) index w rows w' :
  take_rows t index w = (Ok rows, w') ->
  Forall2 (fun i row => t !! i = Some row) index rows /\ w' = w.
Proof.
  unfold take_rows. intros H.
  destruct (mapM _ index) as [rows'|] eqn:Hm; [| discriminate].
  inv_ret H. split; [| reflexivity]. now apply mapM_Some.
Qed.

Lemma randn_row_length cols g : length (randn_row cols g).1 = cols.
Proof.
  revert g. induction cols as [|k IH]; intros g; simpl; [reflexivity |].
  destruct (torch_randn g) as [x g1]. specialize (IH g1).
  destruct (randn_row k g1) as [rest g2]. simpl in *. now rewrite IH.
Qed.

Lemma randn_rows_shape rows cols g :
  length (randn_rows rows cols g).1 = rows /\
  Forall (fun r => length r = cols) (randn_rows rows cols g).1.
Proof.
  revert g. induction rows as [|k IH]; intros g; simpl.
  - split; [reflexivity | constructor].
  - pose proof (randn_row_length cols g) as Hr.
    destruct (randn_row cols g) as [r g1]. specialize (IH g1).
    destruct (randn_rows k cols g1) as [rest g2]. simpl in *.
    destruct IH as [IH1 IH2]. split; [now rewrite IH1 | now constructor].
Qed.

(** [torch.normal] returns a tensor of the requested shape, and touches
    nothing but torch's generator *)
Lemma torch_normal_Ok mean std rows cols w t w' :
  torch_normal mean std rows cols w = (Ok t, w') ->
  0 <= rows /\ 0 <= cols /\
  length t = Z.to_nat rows /\
  Forall (fun r => length r = Z.to_nat cols) t /\
  exists g, w' = set_torch_gen g w.
Proof.
  unfold torch_normal. intros H.
  destruct ((rows <? 0) || (cols <? 0))%bool eqn:Hs; [discriminate |].
  apply orb_false_iff in Hs as [Hr Hc].
  pose proof (randn_rows_shape (Z.to_nat rows) (Z.to_nat cols) (torch_gen w))
    as [Hl Hf].
  destruct (randn_rows _ _ _) as [t0 g]. injection H as <- <-. simpl in *.
  repeat split; try lia.
  - now rewrite length_map.
  - apply Forall_map. eapply Forall_impl; [exact Hf |].
    intros r Hlen. simpl. now rewrite length_map.
  - now exists g.
Qed.

Lemma call_forward_Ok grad s x w r w' :
  call_forward grad s x w = (Ok r, w') ->
  exists z z_jac n g,
    net_forward grad (net s) x (torch_gen w) = (z, z_jac, n, g) /\
    r = (z, z_jac, set_net n s) /\ w' = set_torch_gen g w.
Proof.
  unfold call_forward. intros H.
  destruct (net_forward _ _ _ _) as [[[z zj] n] g]. injection H as <- <-.
  now exists z, zj, n, g.
Qed.

Lemma call_inverse_Ok grad s z w r w' :
  call_inverse grad s z w = (Ok r, w') ->
  exists x x_jac n g,
    net_inverse grad (net s) z (torch_gen w) = (x, x_jac, n, g) /\
    r = (x, x_jac, set_net n s) /\ w' = set_torch_gen g w.
Proof.
  unfold call_inverse. intros H.
  destruct (net_inverse _ _ _ _) as [[[x xj] n] g]. injection H as <- <-.
  now exists x, xj, n, g.
Qed.

Lemma read_local_Ok {A} name (v : option A) w x w' :
  read_local name v w = (Ok x, w') -> v = Some x /\ w' = w.
Proof.
  unfold read_local. destruct v; intros H; [inv_ret H; auto | discriminate].
Qed.

(** Lines 274-281, read off a successful run of them. *)
Lemma example_objective_Ok a s w s' w' :
  example_objective a s w = (Ok s', w') ->
  let train := read_view (train_data (env_of s)) (data (env_of s)) in
  let pos := (np_draws (length (indices (env_of s)))
                (Z.to_nat (batch_size a)) (np_gen w)).1 in
  exists (x_batch z : tensor) (z_jac : list F) n g,
    0 <= batch_size a /\
    Forall2 (fun i row => train !! nth i (indices (env_of s)) O = Some row)
      pos x_batch /\
    net_forward true (net s) x_batch (torch_gen w) = (z, z_jac, n, g) /\
    s' = set_example_loss
           (Some (fmul (example_weight a)
                    (fsub (fmul fhalf (tmean (sum_squares z))) (tmean z_jac))))
           (set_net n s) /\
    trace w' = trace w /\ fs w' = fs w.
Proof.
  unfold example_objective. intros H.
  inv_bind H as index w1 Hc. apply np_random_choice_Ok in Hc as (Hsize & -> & ->).
  inv_bind H as x_batch w2 Hr. apply take_rows_Ok in Hr as (Hrows & ->).
  inv_bind H as r w3 Hf.
  apply call_forward_Ok in Hf as (z & zj & n & g & Hf & -> & ->).
  inv_ret H. exists x_batch, z, zj, n, g. simpl in *.
  repeat split; auto.
  apply Forall2_fmap_l in Hrows. exact Hrows.
Qed.

(** Lines 283-290, read off a successful run of them. *)
Lemma energy_objective_Ok a s w s' w' :
  energy_objective a s w = (Ok s', w') ->
  exists (z_batch x : tensor) (x_jac : list F) wz n g,
    torch_normal fzero fone (batch_size a) (n_dim (env_of s) - 6) w
      = (Ok z_batch, wz) /\
    net_inverse true (net s) z_batch (torch_gen wz) = (x, x_jac, n, g) /\
    s' = set_energy_loss
           (Some (fmul (energy_weight a)
                    (fsub (tmean (energy_evaluator (env_of s) x)) (tmean x_jac))))
           (set_net n s) /\
    trace w' = trace w /\ fs w' = fs w.
Proof.
  unfold energy_objective. intros H.
  inv_bind H as z_batch wz Hz. pose proof Hz as Hn.
  apply torch_normal_Ok in Hn as (_ & _ & _ & _ & gz & Hwz).
  inv_bind H as r w2 Hi.
  apply call_inverse_Ok in Hi as (x & xj & n & g & Hi & -> & ->).
  inv_ret H. exists z_batch, x, xj, wz, n, g. subst wz. simpl in *.
  repeat split; auto.
Qed.


(** Lines 292-297: which names the combined loss is read from *)
Lemma combined_loss_Ok a s w l w' :
  combined_loss a s w = (Ok l, w') ->
  w' = w /\
  match train_example a, train_energy a with
  | true, true => exists ex en,
      example_loss s = Some ex /\ energy_loss s = Some en /\ l = fadd ex en
  | true, false => example_loss s = Some l
  | false, _ => energy_loss s = Some l
  end.
Proof.
  unfold combined_loss. intros H.
  destruct (train_example a), (train_energy a); simpl in H.
  - inv_bind H as ex w1 Hex. apply read_local_Ok in Hex as (Hex & ->).
    inv_bind H as en w2 Hen. apply read_local_Ok in Hen as (Hen & ->).
    inv_ret H. split; [reflexivity |]. now exists ex, en.
  - apply read_local_Ok in H as (? & ->). now split.
  - apply read_local_Ok in H as (? & ->). now split.
  - apply read_local_Ok in H as (? & ->). now split.
Qed.

(** A successful training step, phase by phase. *)
Lemma train_step_Ok a epoch s w s' w' :
  train_step a epoch s w = (Ok s', w') ->
  let s0 := set_net (zero_grad (optimizer s) (net_train (net s))) s in
  exists s1 w1 s2 w2 l,
    (if train_example a then example_objective a s0 w else (Ok s0, w))
      = (Ok s1, w1) /\
    (if train_energy a then energy_objective a s1 w1 else (Ok s1, w1))
      = (Ok s2, w2) /\
    combined_loss a s2 w2 = (Ok l, w2) /\
    s' = set_optimizer
           (sched_step epoch (opt_step (optimizer s2) (backward l (net s2))).1)
           (set_net (opt_step (optimizer s2) (backward l (net s2))).2
              (set_loss (Some l) s2)) /\
    w' = set_trace (trace w2 ++ [EvBackward l]) w2.
Proof.
  intros H s0. unfold train_step in H. fold s0 in H.
  inv_bind H as s1 w1 H1. inv_bind H as s2 w2 H2. inv_bind H as l w3 H3.
  pose proof (combined_loss_Ok _ _ _ _ _ H3) as [-> _].
  inv_bind H as u w4 H4. unfold emit in H4. injection H4 as _ <-.
  simpl in H. destruct (opt_step _ _) as [o n] eqn:Ho. inv_ret H.
  exists s1, w1, s2, w2, l. simpl.
  repeat split; auto.
  - destruct (train_example a); exact H1.
  - destruct (train_energy a); exact H2.
  - now rewrite Ho.
Qed.

(** The objectives leave the event trace and the file system alone, and
    the names assigned before the loop as well. *)
Lemma objectives_frame a s w s1 w1 s2 w2 :
  (if train_example a then example_objective a s w else (Ok s, w))
    = (Ok s1, w1) ->
  (if train_energy a then energy_objective a s1 w1 else (Ok s1, w1))
    = (Ok s2, w2) ->
  trace w2 = trace w /\ fs w2 = fs w /\
  env_of s1 = env_of s /\ env_of s2 = env_of s /\
  optimizer s2 = optimizer s /\
  fixed_coords s2 = fixed_coords s /\
  (train_example a = true -> example_loss s2 = example_loss s1) /\
  (train_example a = false -> example_loss s2 = example_loss s) /\
  (train_energy a = false -> energy_loss s2 = energy_loss s) /\
  loss_val s2 = loss_val s /\ example_loss_val s2 = example_loss_val s /\
  energy_loss_val s2 = energy_loss_val s /\ fixed_energy s2 = fixed_energy s.
Proof.
  intros H1 H2.
  assert (E1 : trace w1 = trace w /\ fs w1 = fs w /\ env_of s1 = env_of s /\
               optimizer s1 = optimizer s /\ fixed_coords s1 = fixed_coords s /\
               (train_example a = false -> example_loss s1 = example_loss s) /\
               energy_loss s1 = energy_loss s /\
               loss_val s1 = loss_val s /\
               example_loss_val s1 = example_loss_val s /\
               energy_loss_val s1 = energy_loss_val s /\
               fixed_energy s1 = fixed_energy s).
  { destruct (train_example a).
    - apply example_objective_Ok in H1
        as (xb & z & zj & n & g & _ & _ & _ & -> & Ht & Hf).
      simpl. repeat split; auto. discriminate.
    - injection H1 as <- <-. repeat split; auto. }
  destruct E1 as (Et & Ef & Ee & Eo & Ec & Eex & Een & Elv & Eexv & Eenv & Efe).
  destruct (train_energy a).
  - apply energy_objective_Ok in H2
      as (zb & x & xj & wz & n & g & _ & _ & -> & Ht & Hf).
    simpl. rewrite Ht, Hf.
    repeat split; auto; try congruence; discriminate.
  - injection H2 as <- <-. repeat split; auto; congruence.
Qed.

(** ** The loss of a training step *)

(** C1. In a training step with the example objective enabled, the example
    loss is [example_weight * (0.5 * mean(sum(z^2, dim=1)) - mean(z_jac))]
    where [(z, z_jac)] is the forward pass (gradients on, training mode) on
    [x_batch], and [x_batch] consists of [batch_size] rows of the training
    split, one for each of [batch_size] independent draws from the index
    range: sampling with replacement. *)
Theorem example_loss_of_step (a : args) (epoch : Z) (s : locals) (w : world)
    (s' : locals) (w' : world) :
  train_example a = true ->
  train_step a epoch s w = (Ok s', w') ->
  let train := read_view (train_data (env_of s)) (data (env_of s)) in
  let pos := (np_draws (length (indices (env_of s)))
                (Z.to_nat (batch_size a)) (np_gen w)).1 in
  exists (x_batch z : tensor) (z_jac : list F) n g,
    Forall2 (fun i row => train !! nth i (indices (env_of s)) O = Some row)
      pos x_batch /\
    Forall (fun row => row ∈ train) x_batch /\
    Z.of_nat (length x_batch) = batch_size a /\
    net_forward true (zero_grad (optimizer s) (net_train (net s))) x_batch
      (torch_gen w) = (z, z_jac, n, g) /\
    example_loss s' =
      Some (fmul (example_weight a)
              (fsub (fmul fhalf (tmean (sum_squares z))) (tmean z_jac))).
Proof.
  intros Hex H train pos.
  apply train_step_Ok in H as (s1 & w1 & s2 & w2 & l & H1 & H2 & _ & -> & _).
  pose proof (objectives_frame _ _ _ _ _ _ _ H1 H2)
    as (_ & _ & _ & _ & _ & _ & Hkeep & _).
  rewrite Hex in H1.
  apply example_objective_Ok in H1
    as (xb & z & zj & n & g & Hsize & Hrows & Hf & Hs1 & _ & _).
  simpl in Hrows, Hf.
  exists xb, z, zj, n, g. repeat split; auto.
  - eapply Forall2_Forall_r; [exact Hrows |].
    apply Forall_forall. intros i _ row Hi.
    eapply list_elem_of_lookup_2. exact Hi.
  - apply Forall2_length in Hrows. rewrite <- Hrows.
    unfold pos. rewrite np_draws_length. lia.
  - simpl. rewrite (Hkeep Hex). subst s1. reflexivity.
Qed.


(** ** What [setup] establishes *)

Lemma os_makedirs_Ok p w u w' :
  os_makedirs p w = (Ok u, w') ->
  g_args w' = g_args w /\ np_gen w' = np_gen w /\ torch_gen w' = torch_gen w.
Proof.
  unfold os_makedirs. intros H.
  destruct (make_dirs (dirs_to p) (fs w)); [| discriminate].
  injection H as _ <-; auto.
Qed.

Lemma open_wb_Ok p w u w' :
  open_wb p w = (Ok u, w') ->
  fs w !! p <> Some Dir /\ w' = set_fs (<[p := File]> (fs w)) w.
Proof.
  unfold open_wb. intros H.
  destruct (fs w !! p) as [[|]|]; try discriminate;
    injection H as _ <-; (split; [discriminate | reflexivity]).
Qed.

Lemma create_tensorboard_Ok name w u w' :
  create_tensorboard name w = (Ok u, w') ->
  g_args w' = g_args w /\ np_gen w' = np_gen w /\ torch_gen w' = torch_gen w.
Proof.
  unfold create_tensorboard. intros H.
  inv_bind H as u1 w1 Hm. apply os_makedirs_Ok in Hm as (? & ? & ?).
  inv_bind H as u2 w2 Ho. apply open_wb_Ok in Ho as [_ ->].
  unfold emit in H. injection H as _ <-. auto.
Qed.

Lemma load_trajectory_Ok p d w t w' :
  load_trajectory p d w = (Ok t, w') ->
  exists ga, g_args w = Some ga /\
    t = superpose_backbone (md_load (dcd_path ga) (pdb_path ga)) /\
    g_args w' = g_args w /\ np_gen w' = np_gen w /\ torch_gen w' = torch_gen w.
Proof.
  unfold load_trajectory, bind, emit. simpl. intros H.
  destruct (g_args w) as [ga|] eqn:Hga; [| discriminate].
  injection H as <- <-. exists ga. simpl. repeat split; auto.
Qed.

Lemma emit_Ok e w u w' :
  emit e w = (Ok u, w') -> w' = set_trace (trace w ++ [e]) w.
Proof. unfold emit. now intros [= _ <-]. Qed.

Lemma network_np_gen a (t : Traj) (d : tensor) n0 w net0 w' :
  match truthy (load_network_arg a) with
  | Some name => load_network (model_file name)
  | None => build_network n0 t d (coupling_layers a) (is_affine a)
              (spline_points a) (hidden_features a) (hidden_layers a)
              (dropout_fraction a)
  end w = (Ok net0, w') ->
  np_gen w' = np_gen w.
Proof.
  destruct (truthy (load_network_arg a)) as [name|]; intros H.
  - unfold load_network in H. now injection H as _ <-.
  - unfold build_network in H. inv_bind H as u w1 He.
    apply emit_Ok in He as ->.
    destruct (composite_transform _ _) as [net1 g]. now injection H as _ <-.
Qed.

Lemma setup_Ok a dev w s w' :
  setup a dev w = (Ok s, w') ->
  exists ga n_val,
    g_args w = Some ga /\
    let traj0 := superpose_backbone (md_load (dcd_path ga) (pdb_path ga)) in
    let n := length (traj_frames traj0) in
    int_div n (fold_validation a) = Ok n_val /\
    data (env_of s) = (np_shuffle _ (traj_frames traj0) (np_gen w)).1 /\
    val_data (env_of s) = view_to n n_val /\
    train_data (env_of s) = view_from n n_val /\
    indices (env_of s) =
      np_arange (length (read_view (train_data (env_of s)) (data (env_of s)))) /\
    indices_val (env_of s) =
      np_arange (length (read_view (val_data (env_of s)) (data (env_of s)))) /\
    n_dim (env_of s) = Z.of_nat (traj_atoms traj0) * 3 /\
    energy_evaluator (env_of s) =
      get_energy_evaluator (openmm_context (env_of s)) (temperature a)
        (energy_high a) (energy_max a) /\
    fixed_coords s = [] /\
    loss s = None /\ example_loss s = None /\ energy_loss s = None /\
    loss_val s = None /\ example_loss_val s = None /\
    energy_loss_val s = None /\ fixed_energy s = None.
Proof.
  unfold setup. intros H.
  inv_bind H as u1 w1 Hw. apply create_tensorboard_Ok in Hw as (Hg1 & Hn1 & _).
  inv_bind H as t0 w2 Ht.
  apply load_trajectory_Ok in Ht as (ga & Hga & -> & _ & Hn2 & _).
  inv_bind H as u3 w3 He3. apply emit_Ok in He3 as ->.
  inv_bind H as u4 w4 He4. apply emit_Ok in He4 as ->.
  inv_bind H as net0 w5 Hnet. apply network_np_gen in Hnet. simpl in Hnet.
  inv_bind H as ctx w6 Hctx. unfold get_openmm_context in Hctx.
  injection Hctx as <- <-.
  inv_bind H as n_val w7 Hdiv. unfold lift in Hdiv. injection Hdiv as Hdiv <-.
  inv_bind H as shuffled w8 Hsh. unfold np_random_shuffle in Hsh. simpl in Hsh.
  destruct (np_shuffle _ _ _) as [l' g'] eqn:Hshuf. injection Hsh as <- <-.
  inv_bind H as fz w9 Hfz. inv_ret H.
  exists ga, n_val. simpl.
  rewrite Hg1 in Hga. rewrite Hnet, Hn2, Hn1 in Hshuf.
  repeat split; auto.
  now rewrite Hshuf.
Qed.


(** C2. In a training step of a run with the energy objective enabled, the
    energy loss is [energy_weight * (mean(energies) - mean(x_jac))] where
    [(x, x_jac)] is the inverse pass (gradients on) on [z_batch], a
    [batch_size] by [n_dim - 6] tensor of standard-normal draws, and every
    entry of [energies] is the raw OpenMM energy of [x] passed through
    [regularize_energy] with the configured [energy_high] and [energy_max].
    ([s1], [w1] are the state and world left by the example objective, or
    the initial ones when it is disabled.) *)
Theorem energy_loss_of_step (a : args) (dev : device) (wi : world)
    (si : locals) (wi' : world) (epoch : Z) (s : locals) (w : world)
    (s' : locals) (w' : world) :
  setup a dev wi = (Ok si, wi') ->
  env_of s = env_of si ->
  train_energy a = true ->
  train_step a epoch s w = (Ok s', w') ->
  let s0 := set_net (zero_grad (optimizer s) (net_train (net s))) s in
  exists s1 w1 (z_batch x : tensor) (x_jac : list F) wz n g,
    (if train_example a then example_objective a s0 w else (Ok s0, w))
      = (Ok s1, w1) /\
    torch_normal fzero fone (batch_size a) (n_dim (env_of s) - 6) w1
      = (Ok z_batch, wz) /\
    Z.of_nat (length z_batch) = batch_size a /\
    Forall (fun r => Z.of_nat (length r) = n_dim (env_of s) - 6) z_batch /\
    net_inverse true (net s1) z_batch (torch_gen wz) = (x, x_jac, n, g) /\
    let energies :=
      regularize_energy
        (openmm_energy x (openmm_context (env_of s)) (temperature a))
        (as_tensor32 (energy_high a)) (as_tensor32 (energy_max a)) in
    energy_loss s' =
      Some (fmul (energy_weight a) (fsub (tmean energies) (tmean x_jac))).
Proof.
  intros Hsetup Henv Hen H s0.
  apply setup_Ok in Hsetup
    as (ga & nv & _ & _ & _ & _ & _ & _ & _ & _ & Hev & _).
  apply train_step_Ok in H as (s1 & w1 & s2 & w2 & l & H1 & H2 & _ & -> & _).
  fold s0 in H1.
  assert (He1 : env_of s1 = env_of s).
  { destruct (train_example a).
    - now apply example_objective_Ok in H1
        as (? & ? & ? & ? & ? & _ & _ & _ & -> & _).
    - now injection H1 as <- _. }
  rewrite Hen in H2.
  apply energy_objective_Ok in H2
    as (zb & x & xj & wz & n & g & Hz & Hi & -> & _ & _).
  rewrite He1 in Hz.
  pose proof (torch_normal_Ok _ _ _ _ _ _ _ Hz) as (Hr & Hc & Hl & Hcols & _).
  exists s1, w1, zb, x, xj, wz, n, g. repeat split; auto.
  - lia.
  - eapply Forall_impl; [exact Hcols |]. intros r Hlen. simpl in Hlen. lia.
  - simpl. rewrite He1, Henv, Hev, <- Henv. reflexivity.
Qed.

(** C3. The loss that a training step backpropagates is the sum of
    exactly the enabled weighted losses of that step: example loss plus
    energy loss when both are enabled, the example loss alone, or the energy
    loss alone.  It is the value bound to [loss], the one [backward] is
    called on, and the parameters after the step are those the optimizer
    computes from that backward pass.  (With neither objective enabled the
    step can only succeed by reading an [energy_loss] bound earlier, which
    a run never has.) *)
Theorem combined_loss_of_step (a : args) (epoch : Z) (s : locals) (w : world)
    (s' : locals) (w' : world) :
  train_step a epoch s w = (Ok s', w') ->
  exists l n2,
    loss s' = Some l /\
    trace w' = trace w ++ [EvBackward l] /\
    net s' = (opt_step (optimizer s) (backward l n2)).2 /\
    match train_example a, train_energy a with
    | true, true => exists ex en,
        example_loss s' = Some ex /\ energy_loss s' = Some en /\ l = fadd ex en
    | true, false =>
        example_loss s' = Some l /\ energy_loss s' = energy_loss s
    | false, true =>
        energy_loss s' = Some l /\ example_loss s' = example_loss s
    | false, false => energy_loss s = Some l
    end.
Proof.
  intros H.
  apply train_step_Ok in H as (s1 & w1 & s2 & w2 & l & H1 & H2 & Hl & -> & ->).
  pose proof (objectives_frame _ _ _ _ _ _ _ H1 H2)
    as (Ht & _ & _ & _ & Ho & _ & _ & Hex & Hen & _).
  apply combined_loss_Ok in Hl as [_ Hl].
  exists l, (net s2). simpl in *. rewrite Ht, Ho.
  repeat split; auto.
  destruct (train_example a), (train_energy a);
    first [ exact Hl | split; auto | rewrite <- (Hen eq_refl); exact Hl ].
Qed.

(** In a state where no objective has bound its loss (such as the one
    [setup] returns), a step with both objectives disabled fails on the
    unbound name [energy_loss]. *)
Lemma step_without_objective (a : args) (epoch : Z) (s : locals) (w : world) :
  train_example a = false -> train_energy a = false ->
  energy_loss s = None ->
  train_step a epoch s w = (Raise (UnboundLocalError "energy_loss"), w).
Proof.
  intros Hex Hen Hnone. unfold train_step, bind, combined_loss.
  rewrite Hex, Hen. simpl. rewrite Hnone. reflexivity.
Qed.


(** ** Validation and logging *)

Lemma set_trace_same (w : world) : set_trace (trace w) w = w.
Proof. now destruct w. Qed.

Lemma log_if_Ok (b : bool) name (v : option F) tag epoch w u w' :
  (if b then bind (read_local name v) (fun x => emit (EvScalar tag x epoch))
   else ret tt) w = (Ok u, w') ->
  w' = set_trace (trace w ++ scalar_if b v tag epoch) w.
Proof.
  unfold scalar_if. destruct b; intros H.
  - inv_bind H as x w1 Hx. apply read_local_Ok in Hx as (-> & ->).
    now apply emit_Ok in H.
  - inv_ret H. now rewrite app_nil_r, set_trace_same.
Qed.

(** Lines 304-373, read off a successful run of them. *)
Lemma validate_log_Ok a epoch s w s' w' :
  validate_log a epoch s w = (Ok s', w') ->
  validation_pass a epoch s w s' w'.
Proof.
  intros H. unfold validation_pass. cbv zeta. unfold validate_log in H.
  inv_bind H as l w1 Hl. apply read_local_Ok in Hl as (Hl & ->). simpl in Hl.
  inv_bind H as u1 w1 He1. apply emit_Ok in He1 as ->.
  inv_bind H as u2 w2 Hex. apply log_if_Ok in Hex as ->.
  inv_bind H as u3 w3 Hen. apply log_if_Ok in Hen as ->.
  inv_bind H as index w4 Hc. apply np_random_choice_Ok in Hc as (_ & -> & ->).
  inv_bind H as x_val w5 Hr. apply take_rows_Ok in Hr as (Hrows & ->).
  inv_bind H as r1 w6 Hf.
  apply call_forward_Ok in Hf as (z & zj & n1 & g1 & Hf & -> & ->).
  inv_bind H as z_val wz Hz.
  pose proof (torch_normal_Ok _ _ _ _ _ _ _ Hz) as (_ & _ & _ & _ & gz & Hwz).
  inv_bind H as r2 w7 Hi.
  apply call_inverse_Ok in Hi as (x & xj & n2 & g2 & Hi & -> & ->).
  do 7 (let u := fresh "u" in let v := fresh "v" in let He := fresh "He" in
        inv_bind H as u v He; apply emit_Ok in He as ->).
  inv_bind H as r3 w8 Hfx.
  apply call_inverse_Ok in Hfx as (fx & fj & n3 & g3 & Hfx & -> & ->).
  inv_bind H as u9 w9 He9. apply emit_Ok in He9 as ->.
  inv_ret H. simpl in *.
  eexists l, x_val, z, zj, n1, g1, _, z_val, wz, x, xj, n2, g2, fx, fj, n3, g3.
  split; [exact Hl |].
  split; [apply Forall2_fmap_l in Hrows; exact Hrows |].
  split; [exact Hf |].
  split; [| split; [exact Hz |]]; [reflexivity |].
  split; [exact Hi |].
  split; [exact Hfx |].
  subst wz. simpl.
  repeat split; try reflexivity.
  unfold train_scalars. rewrite <- !app_assoc. reflexivity.
Qed.


(** What a training step leaves alone. *)
Lemma train_step_frame a epoch s w s' w' :
  train_step a epoch s w = (Ok s', w') ->
  env_of s' = env_of s /\ fixed_coords s' = fixed_coords s /\
  loss_val s' = loss_val s /\ example_loss_val s' = example_loss_val s /\
  energy_loss_val s' = energy_loss_val s /\ fixed_energy s' = fixed_energy s /\
  fs w' = fs w /\
  (train_example a = true -> is_Some (example_loss s')) /\
  (train_energy a = true -> is_Some (energy_loss s')) /\
  exists l, loss s' = Some l /\ trace w' = trace w ++ [EvBackward l].
Proof.
  intros H.
  apply train_step_Ok in H as (s1 & w1 & s2 & w2 & l & H1 & H2 & Hl & -> & ->).
  pose proof (objectives_frame _ _ _ _ _ _ _ H1 H2)
    as (Ht & Hfs & _ & He & _ & Hc & _ & _ & _ & Hlv & Hexv & Henv & Hfe).
  apply combined_loss_Ok in Hl as [_ Hl].
  simpl. repeat split; auto.
  - intros Hex. rewrite Hex in Hl. destruct (train_energy a).
    + destruct Hl as (ex & en & -> & _). eauto.
    + rewrite Hl. eauto.
  - intros Hen. rewrite Hen in Hl. destruct (train_example a).
    + destruct Hl as (ex & en & _ & -> & _). eauto.
    + rewrite Hl. eauto.
  - exists l. split; [reflexivity | now rewrite Ht].
Qed.

Lemma py_mod_Ok x y w r w' :
  py_mod x y w = (Ok r, w') -> y <> 0 /\ r = x mod y /\ w' = w.
Proof.
  unfold py_mod. destruct (Z.eqb_spec y 0); intros H; [discriminate |].
  inv_ret H. auto.
Qed.

(** The body of the loop: a training step, then a validation pass exactly
    when [epoch % log_freq] is zero. *)
Lemma epoch_body_Ok a epoch s w s' w' :
  epoch_body a epoch s w = (Ok s', w') ->
  log_freq a <> 0 /\
  exists s1 w1,
    train_step a epoch s w = (Ok s1, w1) /\
    if epoch mod log_freq a =? 0 then validate_log a epoch s1 w1 = (Ok s', w')
    else s' = s1 /\ w' = w1.
Proof.
  unfold epoch_body. intros H.
  inv_bind H as s1 w1 Hs. inv_bind H as r w2 Hm.
  apply py_mod_Ok in Hm as (Hnz & -> & ->).
  split; [exact Hnz |]. exists s1, w1. split; [exact Hs |].
  destruct (epoch mod log_freq a =? 0); [exact H |].
  inv_ret H. auto.
Qed.

(** C6 (as amended).  For [log_freq <> 0], an iteration of the loop runs a
    validation-and-logging pass exactly when its epoch is divisible by
    [log_freq].  Such a pass, described by [validation_pass], computes with
    gradients off and the network in evaluation mode, whatever objectives
    are enabled: the example validation loss on [batch_size] rows drawn
    with replacement from the validation split, and the energy validation
    loss on the inverse image of a fresh [batch_size] by [n_dim - 6]
    standard-normal tensor (no row of the validation split enters it).  It
    writes the scalars for the training losses (the losses of the enabled
    objectives and their sum), the three validation losses, the mean, median
    and minimum of the regularized validation energies and the raw energy
    of the decoded fixed latent vector, and appends the decoded coordinates
    to [fixed_coords].  On any other epoch the iteration is the training
    step alone: no scalar is written and nothing is appended. *)
Theorem validation_every_log_freq (a : args) (epoch : Z) (s : locals)
    (w : world) (s' : locals) (w' : world) :
  log_freq a <> 0 ->
  epoch_body a epoch s w = (Ok s', w') ->
  exists s1 w1 l,
    train_step a epoch s w = (Ok s1, w1) /\
    loss s1 = Some l /\
    trace w1 = trace w ++ [EvBackward l] /\
    ((log_freq a | epoch) -> validation_pass a epoch s1 w1 s' w') /\
    (~ (log_freq a | epoch) ->
       s' = s1 /\ w' = w1 /\
       trace w' = trace w ++ [EvBackward l] /\
       fixed_coords s' = fixed_coords s /\
       loss_val s' = loss_val s /\
       example_loss_val s' = example_loss_val s /\
       energy_loss_val s' = energy_loss_val s /\
       fixed_energy s' = fixed_energy s).
Proof.
  intros Hnz H.
  apply epoch_body_Ok in H as (_ & s1 & w1 & Hstep & Hrest).
  pose proof (train_step_frame _ _ _ _ _ _ Hstep)
    as (_ & Hc & Hlv & Hexv & Henv & Hfe & _ & _ & _ & l & Hl & Ht).
  exists s1, w1, l.
  split; [exact Hstep |]. split; [exact Hl |]. split; [exact Ht |]. split.
  - intros Hdiv. apply Z.mod_divide in Hdiv; [| exact Hnz].
    rewrite Hdiv in Hrest. simpl in Hrest. now apply validate_log_Ok.
  - intros Hndiv.
    destruct (Z.eqb_spec (epoch mod log_freq a) 0) as [Hz | Hz].
    + exfalso. apply Hndiv. now apply Z.mod_divide.
    + destruct Hrest as [-> ->]. repeat split; auto.
Qed.


(** ** The loop as a whole *)

Lemma torch_normal_total mean std rows cols w :
  0 <= rows -> 0 <= cols ->
  exists t w', torch_normal mean std rows cols w = (Ok t, w').
Proof.
  intros Hr Hc. unfold torch_normal.
  destruct (Z.ltb_spec rows 0); [lia |].
  destruct (Z.ltb_spec cols 0); [lia |]. simpl.
  destruct (randn_rows _ _ _) as [t g]. eauto.
Qed.

Lemma validation_pass_bound a epoch s w s' w' :
  validation_pass a epoch s w s' w' ->
  (train_example a = true -> is_Some (example_loss s)) ->
  (train_energy a = true -> is_Some (energy_loss s)) ->
  names_bound a s' /\ env_of s' = env_of s /\
  0 <= batch_size a /\ 0 <= n_dim (env_of s) - 6.
Proof.
  unfold validation_pass. cbv zeta.
  intros (l & xv & z & zj & n1 & g1 & wx & zv & wz & x & xj & n2 & g2 & fx
          & fj & n3 & g3 & Hl & _ & _ & _ & Hz & _ & _ & Hexv & Henv & Hlv
          & Hfe & Hfc & He & _ & _ & Hl' & Hex' & Hen' & _) Hex Hen.
  apply torch_normal_Ok in Hz as (Hb & Hd & _).
  unfold names_bound.
  rewrite Hl', Hl, Hex', Hen', Hlv, Hexv, Henv, Hfe, Hfc.
  repeat split; eauto.
  intros Happ. now apply app_eq_nil in Happ as [_ ?].
Qed.

(** An iteration keeps the names assigned before the loop, and keeps
    bound what is bound. *)
Lemma epoch_body_keeps a epoch s w s' w' :
  epoch_body a epoch s w = (Ok s', w') ->
  env_of s' = env_of s /\ (names_bound a s -> names_bound a s').
Proof.
  intros H. apply epoch_body_Ok in H as (Hnz & s1 & w1 & Hstep & Hrest).
  pose proof (train_step_frame _ _ _ _ _ _ Hstep)
    as (He & Hc & Hlv & Hexv & Henv & Hfe & _ & Hex & Hen & l & Hl & _).
  destruct (epoch mod log_freq a =? 0).
  - apply validate_log_Ok in Hrest.
    destruct (validation_pass_bound _ _ _ _ _ _ Hrest Hex Hen)
      as (Hb & He' & _).
    split; [congruence | auto].
  - destruct Hrest as [-> ->]. split; [exact He |].
    intros (_ & _ & _ & ? & ? & ? & ? & ?).
    unfold names_bound. rewrite Hl, Hlv, Hexv, Henv, Hfe, Hc.
    repeat split; eauto.
Qed.

Lemma run_epochs_keeps a es s w s' w' :
  run_epochs a es s w = (Ok s', w') ->
  env_of s' = env_of s /\ (names_bound a s -> names_bound a s').
Proof.
  revert s w. induction es as [|e es IH]; intros s w H; simpl in H.
  - inv_ret H. auto.
  - inv_bind H as s1 w1 Hb.
    apply epoch_body_keeps in Hb as [He Hk].
    apply IH in H as [He' Hk']. split; [congruence | auto].
Qed.

(** Epoch 0 always validates, so one iteration binds every name. *)
Lemma first_epoch_binds a s w s' w' :
  epoch_body a 0 s w = (Ok s', w') ->
  names_bound a s' /\ env_of s' = env_of s /\
  0 <= batch_size a /\ 0 <= n_dim (env_of s) - 6.
Proof.
  intros H. apply epoch_body_Ok in H as (Hnz & s1 & w1 & Hstep & Hrest).
  pose proof (train_step_frame _ _ _ _ _ _ Hstep)
    as (He & _ & _ & _ & _ & _ & _ & Hex & Hen & _).
  rewrite Z.mod_0_l in Hrest by exact Hnz. simpl in Hrest.
  apply validate_log_Ok in Hrest.
  destruct (validation_pass_bound _ _ _ _ _ _ Hrest Hex Hen)
    as (Hb & He' & Hbs & Hd).
  rewrite He in Hd, He'. auto.
Qed.

Lemma py_range_pos k : 1 <= k -> exists rest, py_range k = 0 :: rest.
Proof.
  intros Hk. unfold py_range.
  destruct (Z.to_nat k) as [|m] eqn:Hm; [lia |].
  simpl. eauto.
Qed.

Lemma py_range_nonpos k : k <= 0 -> py_range k = [].
Proof.
  intros Hk. unfold py_range. now replace (Z.to_nat k) with O by lia.
Qed.

Lemma total_ret {A} (x : A) : total (ret x).
Proof. intros w. unfold ret. eauto. Qed.

Lemma total_bind {A C} (m : M A) (k : A -> M C) :
  total m -> (forall x, total (k x)) -> total (bind m k).
Proof.
  intros Hm Hk w. destruct (Hm w) as (x & w1 & Hx).
  destruct (Hk x w1) as (y & w2 & Hy).
  exists y, w2. unfold bind. now rewrite Hx.
Qed.

Lemma total_emit e : total (emit e).
Proof. intros w. unfold emit. eauto. Qed.

Lemma total_write_file p e : total (write_file p e).
Proof. intros w. unfold write_file. eauto. Qed.

Lemma total_read_local {A} name (v : option A) :
  is_Some v -> total (read_local name v).
Proof. intros [x ->]. apply total_ret. Qed.

Lemma total_call_inverse grad s z : total (call_inverse grad s z).
Proof.
  intros w. unfold call_inverse.
  destruct (net_inverse _ _ _ _) as [[r n] g]. eauto.
Qed.

Lemma total_torch_normal mean std rows cols :
  0 <= rows -> 0 <= cols -> total (torch_normal mean std rows cols).
Proof. intros Hr Hc w. now apply torch_normal_total. Qed.

(** With every name bound and sizes that [torch.normal] accepts, the lines
    after the loop run to the end. *)
Lemma finalize_total a s :
  names_bound a s -> 0 <= batch_size a -> 0 <= n_dim (env_of s) - 6 ->
  total (finalize a s).
Proof.
  intros (Hl & Hex & Hen & Hlv & Hexv & Henv & Hfe & Hfc) Hbs Hd.
  unfold finalize.
  apply total_bind; [apply total_write_file | intros _].
  apply total_bind; [now apply total_read_local | intros l].
  apply total_bind; [apply total_emit | intros _].
  apply total_bind.
  { destruct (train_example a); [| apply total_ret].
    apply total_bind; [apply total_read_local; auto | intros ex].
    apply total_emit. }
  intros _. apply total_bind.
  { destruct (train_energy a); [| apply total_ret].
    apply total_bind; [apply total_read_local; auto | intros en].
    apply total_emit. }
  intros _.
  apply total_bind; [now apply total_read_local | intros lv].
  apply total_bind; [apply total_emit | intros _].
  apply total_bind; [now apply total_read_local | intros exv].
  apply total_bind; [apply total_emit | intros _].
  apply total_bind; [now apply total_read_local | intros env0].
  apply total_bind; [apply total_emit | intros _].
  apply total_bind; [now apply total_read_local | intros fe].
  apply total_bind; [apply total_emit | intros _].
  apply total_bind.
  { destruct (fixed_coords s); [contradiction | apply total_ret]. }
  intros _.
  apply total_bind; [apply total_write_file | intros _].
  apply total_bind; [now apply total_torch_normal | intros z].
  apply total_bind; [apply total_call_inverse | intros [[x xj] s2]].
  apply total_write_file.
Qed.


(** C8. [run_training] needs [epochs >= 1] and [log_freq >= 1].  Under
    them, whenever the loop completes every name the lines after it read is
    bound ([loss], the validation losses, [fixed_energy], the losses of the
    enabled objectives) and [fixed_coords] is not empty, because epoch 0
    always validates; those lines then run to the end.  With [epochs <= 0]
    the loop body never runs: the model file is written, and the next line
    fails on the unbound name [loss]. *)
Theorem finalizing_needs_one_epoch (a : args) (dev : device) (w : world)
    (s0 : locals) (w0 : world) :
  setup a dev w = (Ok s0, w0) ->
  (1 <= epochs a -> 1 <= log_freq a ->
   forall s w1, training_loop a s0 w0 = (Ok s, w1) ->
     names_bound a s /\ exists w2, finalize a s w1 = (Ok tt, w2)) /\
  (epochs a <= 0 ->
   exists w2,
     run_training a dev w = (Raise (UnboundLocalError "loss"), w2) /\
     fs w2 !! model_file (output_name a) = Some File /\
     trace w2 = trace w0 ++ [EvSaveModel (model_file (output_name a))]).
Proof.
  intros Hsetup. split.
  - intros Hep _ s w1 Hloop. unfold training_loop in Hloop.
    destruct (py_range_pos _ Hep) as [rest Hr]. rewrite Hr in Hloop.
    simpl in Hloop.
    inv_bind Hloop as s1 wa Hfirst.
    apply first_epoch_binds in Hfirst as (Hb & He & Hbs & Hd).
    apply run_epochs_keeps in Hloop as [He' Hk].
    split; [auto |].
    destruct (finalize_total a s (Hk Hb) Hbs) with (w := w1) as ([] & w2 & Hf).
    + rewrite He', He. exact Hd.
    + eauto.
  - intros Hep.
    pose proof (setup_Ok _ _ _ _ _ Hsetup)
      as (ga & nv & _ & _ & _ & _ & _ & _ & _ & _ & _ & _ & Hloss & _).
    unfold run_training. rewrite (bind_run_Ok _ _ _ _ _ Hsetup).
    unfold training_loop. rewrite (py_range_nonpos _ Hep). simpl.
    unfold bind at 1. unfold ret at 1.
    unfold finalize, bind, write_file. simpl. rewrite Hloss. simpl.
    eexists. split; [reflexivity |]. simpl.
    split; [apply lookup_insert_eq | reflexivity].
Qed.

(** ** The validation split *)

Lemma slice_bound_le n k : (slice_bound n k <= n)%nat.
Proof. unfold slice_bound. destruct (Z.ltb_spec k 0); lia. Qed.

Lemma read_view_to {A} (l : list A) k :
  read_view (view_to (length l) k) l = slice_to k l.
Proof.
  unfold read_view, view_to, slice_to. simpl. now rewrite Nat.sub_0_r.
Qed.

Lemma read_view_from {A} (l : list A) k :
  read_view (view_from (length l) k) l = slice_from k l.
Proof.
  unfold read_view, view_from, slice_from. simpl.
  apply firstn_all2. rewrite length_skipn. lia.
Qed.

Lemma slice_to_from {A} (l : list A) k : slice_to k l ++ slice_from k l = l.
Proof. apply firstn_skipn. Qed.

Lemma slice_nonneg {A} (l : list A) k :
  0 <= k ->
  slice_to k l = firstn (Z.to_nat k) l /\ slice_from k l = skipn (Z.to_nat k) l.
Proof.
  intros Hk. unfold slice_to, slice_from, slice_bound.
  destruct (Z.ltb_spec k 0); [lia |].
  destruct (Nat.le_ge_cases (length l) (Z.to_nat k)) as [Hle | Hge].
  - rewrite Nat.min_l by exact Hle.
    rewrite firstn_all, skipn_all, firstn_all2, skipn_all2 by exact Hle. auto.
  - rewrite Nat.min_r by exact Hge. auto.
Qed.

(** C10 (as amended).  After [setup] the shuffled array is a permutation
    of the loaded frames, the validation view is the slice [a[:n_val]] of it
    and the training view is the slice [a[n_val:]], where [n_val] is
    [int(n / fold_validation)]: the quotient in double precision, truncated
    toward zero.  The two index ranges [0, k) and [k, n) are disjoint and
    cover all [n] frames.  When [fold_validation] is positive, [n_val] is
    not negative and the validation view is the first [n_val] rows (all
    rows when [n_val] exceeds [n]).  No iteration of the loop changes the
    array or the two views. *)
Theorem split_is_partition (a : args) (dev : device) (w : world)
    (s : locals) (w' : world) :
  setup a dev w = (Ok s, w') ->
  let E := env_of s in
  let val := read_view (val_data E) (data E) in
  let train := read_view (train_data E) (data E) in
  let n := length (data E) in
  (exists ga, g_args w = Some ga /\
     data E ≡ₚ traj_frames
                 (superpose_backbone (md_load (dcd_path ga) (pdb_path ga)))) /\
  val ++ train = data E /\
  lo (val_data E) = O /\ hi (val_data E) = lo (train_data E) /\
  (lo (train_data E) <= n)%nat /\ hi (train_data E) = n /\
  (exists n_val,
     int_div n (fold_validation a) = Ok n_val /\
     val = slice_to n_val (data E) /\ train = slice_from n_val (data E) /\
     (float_positive (fold_validation a) = true ->
        0 <= n_val /\
        val = firstn (Z.to_nat n_val) (data E) /\
        train = skipn (Z.to_nat n_val) (data E))) /\
  (forall es s1 w1 s2 w2,
     env_of s1 = E -> run_epochs a es s1 w1 = (Ok s2, w2) -> env_of s2 = E).
Proof.
  intros Hsetup E val train n.
  apply setup_Ok in Hsetup
    as (ga & nv & Hga & Hdiv & Hdata & Hval & Htrain & _).
  fold E in Hdata, Hval, Htrain.
  assert (Hperm : data E ≡ₚ traj_frames
            (superpose_backbone (md_load (dcd_path ga) (pdb_path ga)))).
  { rewrite Hdata. apply np_shuffle_perm. }
  assert (Hn : length (traj_frames
            (superpose_backbone (md_load (dcd_path ga) (pdb_path ga)))) = n).
  { unfold n. symmetry. now apply Permutation_length. }
  rewrite Hn in Hdiv, Hval, Htrain.
  assert (Hv : val = slice_to nv (data E)).
  { unfold val. rewrite Hval. apply read_view_to. }
  assert (Ht : train = slice_from nv (data E)).
  { unfold train. rewrite Htrain. apply read_view_from. }
  split; [now exists ga |].
  split; [rewrite Hv, Ht; apply slice_to_from |].
  split; [rewrite Hval; reflexivity |].
  split; [rewrite Hval, Htrain; reflexivity |].
  split; [rewrite Htrain; apply slice_bound_le |].
  split; [rewrite Htrain; reflexivity |].
  split.
  - exists nv. split; [exact Hdiv |]. split; [exact Hv |]. split; [exact Ht |].
    intros Hpos.
    pose proof (int_div_nonneg _ _ _ Hpos Hdiv) as Hge.
    split; [exact Hge |]. rewrite Hv, Ht. now apply slice_nonneg.
  - intros es s1 w1 s2 w2 He Hrun.
    apply run_epochs_keeps in Hrun as [He' _]. congruence.
Qed.

End Properties.

(** * More of the script: the file system, the loop as a whole, errors *)

Section More.
Context `{B : Backend}.

Tactic Notation "inv_bind" hyp(H) "as" ident(r) ident(w1) ident(Hr) :=
  apply bind_Ok in H as (r & w1 & Hr & H).
Ltac inv_ret H := unfold ret in H; injection H as <- <-.

(** ** The paths of a run *)

Lemma remove_tree_lookup p (m : gmap string node) q :
  remove_tree p m !! q =
    if decide (q = p) then None
    else if below p q then None else m !! q.
Proof.
  unfold remove_tree. rewrite map_lookup_filter. simpl.
  destruct (decide (q = p)) as [-> | Hne].
  - now rewrite lookup_delete_eq.
  - rewrite lookup_delete_ne by congruence.
    destruct (m !! q) as [x|]; simpl; [| now destruct (below p q)].
    destruct (below p q); reflexivity.
Qed.

Lemma below_other_root (a b : Ascii.ascii) (p q : string) :
  a <> b -> below (String a p) (String b q) = false.
Proof.
  intros Hab. unfold below. simpl.
  destruct (Ascii.ascii_dec a b); [contradiction | reflexivity].
Qed.

(** the four paths of a run are pairwise different, and only what lies in
    [runs/<name>/] is below the run directory *)
Lemma run_paths_distinct name :
  model_file name <> training_traj_file name /\
  model_file name <> sample_traj_file name /\
  model_file name <> run_dir name /\
  training_traj_file name <> sample_traj_file name /\
  training_traj_file name <> run_dir name /\
  sample_traj_file name <> run_dir name /\
  below (run_dir name) (model_file name) = false /\
  below (run_dir name) (training_traj_file name) = false /\
  below (run_dir name) (sample_traj_file name) = false /\
  below (run_dir name) (run_dir name) = false.
Proof.
  unfold model_file, training_traj_file, sample_traj_file, run_dir.
  repeat split; try (simpl; discriminate);
    try (apply below_other_root; discriminate).
  unfold below. simpl.
  induction name as [|c name IH]; simpl; [reflexivity |].
  destruct (Ascii.ascii_dec c c); [exact IH | contradiction].
Qed.

(** ** Paths and their components *)

Lemma append_String c (s t : string) : String c s +:+ t = String c (s +:+ t).
Proof. reflexivity. Qed.

Lemma append_empty_l (s : string) : EmptyString +:+ s = s.
Proof. reflexivity. Qed.

Lemma append_empty_r (s : string) : s +:+ EmptyString = s.
Proof.
  induction s as [|c s IH]; [reflexivity |].
  rewrite append_String. f_equal. exact IH.
Qed.

Lemma append_cons (s : string) c (t : string) :
  (s +:+ String c EmptyString) +:+ t = s +:+ String c t.
Proof.
  induction s as [|c0 s IH]; [reflexivity |].
  rewrite !append_String. f_equal. exact IH.
Qed.

Lemma append_longer (s : string) c (t : string) : s +:+ String c t <> s.
Proof.
  induction s as [|c0 s IH]; [discriminate |].
  rewrite append_String. intros [= H]. now apply IH.
Qed.

Lemma length_append (s t : string) :
  String.length (s +:+ t) = (String.length s + String.length t)%nat.
Proof.
  induction s as [|c s IH]; [reflexivity |].
  rewrite append_String. simpl. f_equal. exact IH.
Qed.

Lemma split_no_slash (p : string) : forall cur,
  no_slash p = true -> split_path cur p = [cur +:+ p].
Proof.
  induction p as [|c p IH]; intros cur H; simpl in *.
  - now rewrite append_empty_r.
  - apply andb_prop in H as [Hc Hp]. apply negb_true_iff in Hc.
    rewrite Hc, IH by exact Hp. now rewrite append_cons.
Qed.

Lemma split_append (p q : string) : forall cur,
  no_slash p = true -> split_path cur (p +:+ q) = split_path (cur +:+ p) q.
Proof.
  induction p as [|c p IH]; intros cur H; simpl in *.
  - now rewrite append_empty_r.
  - apply andb_prop in H as [Hc Hp]. apply negb_true_iff in Hc.
    rewrite Hc, IH by exact Hp. now rewrite append_cons.
Qed.

Lemma dirs_no_slash (p : string) : forall pre,
  no_slash p = true -> dirs_from pre p = [pre +:+ p].
Proof.
  induction p as [|c p IH]; intros pre H; simpl in *.
  - now rewrite append_empty_r.
  - apply andb_prop in H as [Hc Hp]. apply negb_true_iff in Hc.
    rewrite Hc, IH by exact Hp. now rewrite append_cons.
Qed.

Lemma dirs_from_last (p : string) : forall pre, pre +:+ p ∈ dirs_from pre p.
Proof.
  induction p as [|c p IH]; intros pre; simpl.
  - rewrite append_empty_r. apply list_elem_of_singleton. reflexivity.
  - destruct (Ascii.eqb_spec c "/"%char) as [-> | _].
    + apply elem_of_cons. right.
      rewrite <- (append_cons pre "/" p). apply IH.
    + rewrite <- (append_cons pre c p). apply IH.
Qed.

Lemma run_dirs_self name : run_dir name ∈ dirs_to (run_dir name).
Proof.
  unfold dirs_to. change (run_dir name) with (EmptyString +:+ run_dir name) at 1.
  apply dirs_from_last.
Qed.

Lemma run_dirs_plain name :
  plain_name name = true -> dirs_to (run_dir name) = ["runs"; run_dir name].
Proof.
  unfold plain_name. intros H. apply andb_prop in H as [H _].
  unfold dirs_to, run_dir. simpl. now rewrite dirs_no_slash.
Qed.

Lemma plain_long (c : string) : (3 <= String.length c)%nat -> plain c = true.
Proof.
  intros H. destruct c as [|c1 [|c2 [|c3 c]]]; simpl in H; try lia.
  unfold plain. simpl.
  destruct (Ascii.eqb c1 "."); [| reflexivity].
  destruct (Ascii.eqb c2 "."); reflexivity.
Qed.

(** for a plain name the four paths of a run are in canonical form *)
Lemma run_paths_canonical name :
  plain_name name = true ->
  canonical (model_file name) = true /\
  canonical (training_traj_file name) = true /\
  canonical (sample_traj_file name) = true /\
  canonical (run_dir name) = true.
Proof.
  unfold plain_name. intros H. apply andb_prop in H as [Hs Hp].
  assert (Hext : forall ext, (3 <= String.length ext)%nat ->
                   no_slash ext = true ->
                   forall cur, forallb plain (split_path cur (name +:+ ext))
                               = plain ((cur +:+ name) +:+ ext)).
  { intros ext Hl He cur.
    rewrite split_append, split_no_slash by assumption. simpl.
    apply andb_true_r. }
  assert (Hlong : forall ext, (3 <= String.length ext)%nat ->
                    plain ((EmptyString +:+ name) +:+ ext) = true).
  { intros ext Hl. apply plain_long. rewrite length_append. simpl. lia. }
  unfold canonical, components, model_file, training_traj_file,
    sample_traj_file, run_dir.
  repeat split; simpl; rewrite append_empty_l.
  - rewrite Hext by (simpl; auto; lia). apply Hlong. simpl. lia.
  - rewrite Hext by (simpl; auto; lia). apply Hlong. simpl. lia.
  - rewrite Hext by (simpl; auto; lia). apply Hlong. simpl. lia.
  - rewrite split_no_slash by exact Hs. simpl. now rewrite append_empty_l, Hp.
Qed.

(** what [make_dirs] returns *)
Lemma make_dirs_spec (ds : list string) : forall m : gmap string node,
  match make_dirs ds m with
  | Some m' =>
      Forall (fun d => m !! d <> Some File) ds /\
      forall q, m' !! q = if bool_decide (q ∈ ds) then Some Dir else m !! q
  | None => Exists (fun d => m !! d = Some File) ds
  end.
Proof.
  induction ds as [|d ds IH]; intros m; simpl.
  - split; [constructor | intros q; reflexivity].
  - destruct (m !! d) as [[|]|] eqn:Hd.
    + now apply Exists_cons_hd.
    + specialize (IH m). destruct (make_dirs ds m) as [m'|].
      * destruct IH as [Hall Hlook]. split.
        { constructor; [congruence | exact Hall]. }
        intros q. rewrite Hlook.
        destruct (decide (q = d)) as [-> | Hne].
        { rewrite (bool_decide_eq_true_2 (d ∈ d :: ds)) by apply elem_of_cons, or_introl, eq_refl.
          rewrite Hd. now destruct (bool_decide (d ∈ ds)). }
        destruct (decide (q ∈ ds)) as [Hin | Hnin].
        { rewrite !bool_decide_eq_true_2;
            [reflexivity | apply elem_of_cons; auto | exact Hin]. }
        rewrite !bool_decide_eq_false_2; [reflexivity | | exact Hnin].
        intros Hq. apply elem_of_cons in Hq as [? | ?]; contradiction.
      * now apply Exists_cons_tl.
    + specialize (IH (<[d := Dir]> m)).
      destruct (make_dirs ds (<[d := Dir]> m)) as [m'|].
      * destruct IH as [Hall Hlook]. split.
        { constructor; [congruence |].
          eapply Forall_impl; [exact Hall |]. intros d' Hd' Hf. simpl in Hd'.
          apply Hd'. destruct (decide (d' = d)) as [-> | Hne];
            [congruence | now rewrite lookup_insert_ne]. }
        intros q. rewrite Hlook.
        destruct (decide (q = d)) as [-> | Hne].
        { rewrite (bool_decide_eq_true_2 (d ∈ d :: ds)) by apply elem_of_cons, or_introl, eq_refl.
          rewrite lookup_insert_eq. now destruct (bool_decide (d ∈ ds)). }
        rewrite lookup_insert_ne by congruence.
        destruct (decide (q ∈ ds)) as [Hin | Hnin].
        { rewrite !bool_decide_eq_true_2;
            [reflexivity | apply elem_of_cons; auto | exact Hin]. }
        rewrite !bool_decide_eq_false_2; [reflexivity | | exact Hnin].
        intros Hq. apply elem_of_cons in Hq as [? | ?]; contradiction.
      * apply Exists_cons_tl. eapply Exists_impl; [exact IH |].
        intros d' Hd'. simpl in Hd'.
        destruct (decide (d' = d)) as [-> | Hne];
          [rewrite lookup_insert_eq in Hd'; discriminate
          | now rewrite lookup_insert_ne in Hd'].
Qed.

Lemma os_makedirs_run p w u w' :
  os_makedirs p w = (Ok u, w') ->
  exists m, make_dirs (dirs_to p) (fs w) = Some m /\
            w' = set_fs m (set_trace (trace w ++ [EvMakedirs p]) w).
Proof.
  unfold os_makedirs. intros H.
  destruct (make_dirs (dirs_to p) (fs w)) as [m|]; [| discriminate].
  injection H as _ <-. now exists m.
Qed.

(** ** [delete_run] *)

(** one "remove it if it is there" step of [delete_run], followed by [k] *)
Lemma remove_if_exists {C} p (k : unit -> M C) w :
  let w1 := set_trace (trace w ++ [EvExists p]) w in
  (fs w !! p = Some Dir /\
   bind (os_path_exists p) (fun b => bind (when b (os_remove p)) k) w
     = (Raise (OSError p), w1)) \/
  (fs w !! p <> Some Dir /\
   exists w2,
     bind (os_path_exists p) (fun b => bind (when b (os_remove p)) k) w
       = k tt w2 /\
     fs w2 = delete p (fs w)).
Proof.
  unfold bind, os_path_exists, when, os_remove, path_exists, ret. simpl.
  destruct (fs w !! p) as [[|]|] eqn:Hp; simpl; rewrite ?Hp.
  - right. split; [discriminate |]. eexists. split; reflexivity.
  - left. split; reflexivity.
  - right. split; [discriminate |]. eexists. split; [reflexivity |].
    simpl. symmetry. now apply delete_id.
Qed.

(** the last step, on the run directory *)
Lemma rmtree_if_exists p w :
  let w1 := set_trace (trace w ++ [EvExists p]) w in
  (fs w !! p = Some File /\
   bind (os_path_exists p) (fun b => when b (shutil_rmtree p)) w
     = (Raise (OSError p), w1)) \/
  (fs w !! p <> Some File /\
   exists w2,
     bind (os_path_exists p) (fun b => when b (shutil_rmtree p)) w
       = (Ok tt, w2) /\
     fs w2 = match fs w !! p with
             | Some Dir => remove_tree p (fs w)
             | _ => fs w
             end).
Proof.
  unfold bind, os_path_exists, when, shutil_rmtree, path_exists, ret. simpl.
  destruct (fs w !! p) as [[|]|] eqn:Hp; simpl; rewrite ?Hp.
  - left. split; reflexivity.
  - right. split; [discriminate |]. eexists. split; reflexivity.
  - right. split; [discriminate |]. eexists. split; reflexivity.
Qed.

(** [delete_run] succeeds exactly when none of its three files is a
    directory and the run directory is not a file; the file system it
    leaves is the old one without the three files and, when the run
    directory was there, without it and everything below it. *)
Lemma delete_run_cases name w :
  let ok := fs w !! model_file name <> Some Dir /\
            fs w !! training_traj_file name <> Some Dir /\
            fs w !! sample_traj_file name <> Some Dir /\
            fs w !! run_dir name <> Some File in
  let rest := delete (sample_traj_file name)
                (delete (training_traj_file name)
                   (delete (model_file name) (fs w))) in
  (ok /\ exists w', delete_run name w = (Ok tt, w') /\
          fs w' = match fs w !! run_dir name with
                  | Some Dir => remove_tree (run_dir name) rest
                  | _ => rest
                  end) \/
  (~ ok /\ exists p w', delete_run name w = (Raise (OSError p), w')).
Proof.
  intros ok rest. unfold delete_run.
  destruct (run_paths_distinct name)
    as (Hmt & Hms & Hmr & Hts & Htr & Hsr & _).
  destruct (remove_if_exists (model_file name)
              (fun _ => bind (os_path_exists (training_traj_file name))
                 (fun b2 => bind (when b2 (os_remove (training_traj_file name)))
                    (fun _ => bind (os_path_exists (sample_traj_file name))
                       (fun b3 => bind (when b3 (os_remove (sample_traj_file name)))
                          (fun _ => bind (os_path_exists (run_dir name))
                             (fun b4 => when b4 (shutil_rmtree (run_dir name)))))))) w)
    as [[Hm ->] | (Hm & w1 & -> & Hf1)].
  { right. split; [unfold ok; tauto | eauto]. }
  destruct (remove_if_exists (training_traj_file name)
              (fun _ => bind (os_path_exists (sample_traj_file name))
                 (fun b3 => bind (when b3 (os_remove (sample_traj_file name)))
                    (fun _ => bind (os_path_exists (run_dir name))
                       (fun b4 => when b4 (shutil_rmtree (run_dir name)))))) w1)
    as [[Ht ->] | (Ht & w2 & -> & Hf2)].
  { right. rewrite Hf1, lookup_delete_ne in Ht by congruence.
    split; [unfold ok; tauto | eauto]. }
  rewrite Hf1, lookup_delete_ne in Ht by congruence.
  destruct (remove_if_exists (sample_traj_file name)
              (fun _ => bind (os_path_exists (run_dir name))
                 (fun b4 => when b4 (shutil_rmtree (run_dir name)))) w2)
    as [[Hs ->] | (Hs & w3 & -> & Hf3)].
  { right. rewrite Hf2, Hf1, !lookup_delete_ne in Hs by congruence.
    split; [unfold ok; tauto | eauto]. }
  rewrite Hf2, Hf1, !lookup_delete_ne in Hs by congruence.
  assert (Hr3 : fs w3 !! run_dir name = fs w !! run_dir name).
  { rewrite Hf3, Hf2, Hf1, !lookup_delete_ne by congruence. reflexivity. }
  destruct (rmtree_if_exists (run_dir name) w3)
    as [[Hr ->] | (Hr & w4 & -> & Hf4)].
  { right. rewrite Hr3 in Hr. split; [unfold ok; tauto | eauto]. }
  rewrite Hr3 in Hr, Hf4.
  left. split; [unfold ok; tauto |].
  exists w4. split; [reflexivity |].
  rewrite Hf4, Hf3, Hf2, Hf1. reflexivity.
Qed.

(** X1. For an output name that is a single path component, the four
    artifacts of the run are canonical paths, and after a successful
    [delete_run] none of them exists; if the run directory was a directory,
    nothing below it exists either; every other canonical path is as
    before. *)
Theorem delete_run_removes_run (name : string) (w w' : world) :
  plain_name name = true ->
  delete_run name w = (Ok tt, w') ->
  (canonical (model_file name) = true /\
   canonical (training_traj_file name) = true /\
   canonical (sample_traj_file name) = true /\
   canonical (run_dir name) = true) /\
  fs w' !! model_file name = None /\
  fs w' !! training_traj_file name = None /\
  fs w' !! sample_traj_file name = None /\
  fs w' !! run_dir name = None /\
  (fs w !! run_dir name = Some Dir ->
   forall q, below (run_dir name) q = true -> fs w' !! q = None) /\
  (forall q, canonical q = true ->
             q <> model_file name -> q <> training_traj_file name ->
             q <> sample_traj_file name -> q <> run_dir name ->
             below (run_dir name) q = false ->
             fs w' !! q = fs w !! q).
Proof.
  intros Hplain H.
  split; [now apply run_paths_canonical |].
  destruct (run_paths_distinct name)
    as (Hmt & Hms & Hmr & Hts & Htr & Hsr & Bm & Bt & Bs & Br).
  destruct (delete_run_cases name w)
    as [((_ & _ & _ & Hnf) & w1 & H1 & Hfs) | (_ & p & w1 & H1)];
    rewrite H1 in H; [| discriminate].
  injection H as <-.
  assert (Hrest : forall q,
    delete (sample_traj_file name)
      (delete (training_traj_file name) (delete (model_file name) (fs w))) !! q
    = if decide (q = sample_traj_file name) then None
      else if decide (q = training_traj_file name) then None
      else if decide (q = model_file name) then None else fs w !! q).
  { intros q. rewrite !lookup_delete. repeat case_decide; congruence. }
  assert (Hlook : forall q, fs w1 !! q =
    match fs w !! run_dir name with
    | Some Dir => if decide (q = run_dir name) then None
                  else if below (run_dir name) q then None
                  else delete (sample_traj_file name)
                         (delete (training_traj_file name)
                            (delete (model_file name) (fs w))) !! q
    | _ => delete (sample_traj_file name)
             (delete (training_traj_file name)
                (delete (model_file name) (fs w))) !! q
    end).
  { intros q. rewrite Hfs.
    destruct (fs w !! run_dir name) as [[|]|]; try reflexivity.
    apply remove_tree_lookup. }
  assert (Hgone : forall q,
    q = model_file name \/ q = training_traj_file name
    \/ q = sample_traj_file name -> fs w1 !! q = None).
  { intros q Hq. rewrite Hlook, Hrest.
    destruct (fs w !! run_dir name) as [[|]|];
      repeat case_decide; try reflexivity;
      try (destruct (below (run_dir name) q); reflexivity);
      exfalso; intuition congruence. }
  split; [apply Hgone; auto |].
  split; [apply Hgone; auto |].
  split; [apply Hgone; auto |].
  split.
  { rewrite Hlook, Hrest.
    destruct (fs w !! run_dir name) as [[|]|] eqn:Hr;
      repeat case_decide; try reflexivity; try congruence. }
  split.
  - intros Hdir q Hq. rewrite Hlook, Hdir, Hq. now case_decide.
  - intros q _ Nm Nt Ns Nr Nb. rewrite Hlook, Hrest, Nb.
    destruct (fs w !! run_dir name) as [[|]|];
      repeat case_decide; congruence.
Qed.

(** X2. [delete_run] is idempotent: once it has succeeded, running it
    again succeeds and changes nothing in the file system. *)
Theorem delete_run_twice (name : string) (w w' : world) :
  delete_run name w = (Ok tt, w') ->
  exists w'', delete_run name w' = (Ok tt, w'') /\ fs w'' = fs w'.
Proof.
  intros H.
  destruct (run_paths_distinct name)
    as (Hmt & Hms & Hmr & Hts & Htr & Hsr & _).
  destruct (delete_run_cases name w)
    as [((_ & _ & _ & Hnf) & w1 & H1 & Hfs) | (_ & p & w1 & H1)];
    rewrite H1 in H; [| discriminate].
  injection H as <-.
  assert (Hgone : fs w1 !! model_file name = None /\
                  fs w1 !! training_traj_file name = None /\
                  fs w1 !! sample_traj_file name = None /\
                  fs w1 !! run_dir name = None).
  { rewrite Hfs.
    destruct (fs w !! run_dir name) as [[|]|] eqn:Hr;
      rewrite ?remove_tree_lookup, ?lookup_delete;
      repeat split; repeat case_decide; try reflexivity; try congruence;
      try (destruct (below _ _); reflexivity). }
  destruct Hgone as (Gm & Gt & Gs & Gr).
  destruct (delete_run_cases name w1)
    as [(_ & w2 & H2 & Hfs2) | (Hbad & _)].
  - exists w2. split; [exact H2 |].
    rewrite Hfs2, Gr. now rewrite !delete_id by (rewrite ?lookup_delete_ne; auto).
  - exfalso. apply Hbad. rewrite Gm, Gt, Gs, Gr. repeat split; discriminate.
Qed.

(** X3. [delete_run] fails exactly when one of its three files is a
    directory or the run directory is a plain file (permissions are not
    part of the file-system model). *)
Theorem delete_run_succeeds_iff (name : string) (w : world) :
  is_ok (delete_run name w).1 = true <->
  fs w !! model_file name <> Some Dir /\
  fs w !! training_traj_file name <> Some Dir /\
  fs w !! sample_traj_file name <> Some Dir /\
  fs w !! run_dir name <> Some File.
Proof.
  destruct (delete_run_cases name w)
    as [(Hok & w1 & H1 & _) | (Hbad & p & w1 & H1)]; rewrite H1; simpl.
  - split; [intros _; exact Hok | reflexivity].
  - split; [discriminate | intros Hok; contradiction].
Qed.

(** X4. [delete_run] is not atomic: when the model is a plain file but
    [training_traj/<name>.pdb] is a directory, it raises OSError on the
    latter after the model has already been removed. *)
Theorem delete_run_partial (name : string) (w : world) :
  fs w !! model_file name = Some File ->
  fs w !! training_traj_file name = Some Dir ->
  exists w',
    delete_run name w = (Raise (OSError (training_traj_file name)), w') /\
    fs w' !! model_file name = None /\
    fs w' !! training_traj_file name = Some Dir.
Proof.
  intros Hm Ht. unfold delete_run.
  destruct (run_paths_distinct name) as (Hmt & _).
  destruct (remove_if_exists (model_file name)
              (fun _ => bind (os_path_exists (training_traj_file name))
                 (fun b2 => bind (when b2 (os_remove (training_traj_file name)))
                    (fun _ => bind (os_path_exists (sample_traj_file name))
                       (fun b3 => bind (when b3 (os_remove (sample_traj_file name)))
                          (fun _ => bind (os_path_exists (run_dir name))
                             (fun b4 => when b4 (shutil_rmtree (run_dir name)))))))) w)
    as [[Hm' _] | (_ & w1 & -> & Hf1)]; [congruence |].
  destruct (remove_if_exists (training_traj_file name)
              (fun _ => bind (os_path_exists (sample_traj_file name))
                 (fun b3 => bind (when b3 (os_remove (sample_traj_file name)))
                    (fun _ => bind (os_path_exists (run_dir name))
                       (fun b4 => when b4 (shutil_rmtree (run_dir name)))))) w1)
    as [[_ ->] | (Ht' & _)].
  - eexists. split; [reflexivity |]. simpl. rewrite Hf1.
    split; [apply lookup_delete_eq |].
    rewrite lookup_delete_ne by congruence. exact Ht.
  - exfalso. apply Ht'. rewrite Hf1, lookup_delete_ne by congruence. exact Ht.
Qed.

(** ** [create_dirs] *)

Lemma makedirs_cases p w :
  dirs_to p = [p] ->
  (fs w !! p = Some File /\ os_makedirs p w = (Raise (OSError p), w)) \/
  (fs w !! p <> Some File /\
   exists w2, os_makedirs p w = (Ok tt, w2) /\ fs w2 = <[p := Dir]> (fs w) /\
              g_args w2 = g_args w /\ np_gen w2 = np_gen w /\
              torch_gen w2 = torch_gen w /\
              trace w2 = trace w ++ [EvMakedirs p]).
Proof.
  intros Hd. unfold os_makedirs. rewrite Hd. simpl.
  destruct (fs w !! p) as [[|]|] eqn:Hp.
  - left. split; reflexivity.
  - right. split; [discriminate |]. eexists. split; [reflexivity |].
    simpl. repeat split. symmetry. now apply insert_id.
  - right. split; [discriminate |]. eexists. split; [reflexivity |].
    simpl. repeat split.
Qed.

Lemma create_dirs_cases w :
  let ok := fs w !! "models" <> Some File /\
            fs w !! "training_traj" <> Some File /\
            fs w !! "sample_traj" <> Some File in
  (ok /\ exists w', create_dirs w = (Ok tt, w') /\
          fs w' = <["sample_traj" := Dir]>
                    (<["training_traj" := Dir]> (<["models" := Dir]> (fs w)))) \/
  (~ ok /\ exists p w', create_dirs w = (Raise (OSError p), w')).
Proof.
  intros ok. unfold create_dirs.
  destruct (makedirs_cases "models" w eq_refl) as [[H1 E1] | (H1 & w1 & E1 & F1 & _)].
  { right. split; [unfold ok; tauto |].
    eexists _, _. now rewrite (bind_run_Raise _ _ _ _ _ E1). }
  rewrite (bind_run_Ok _ _ _ _ _ E1).
  destruct (makedirs_cases "training_traj" w1 eq_refl)
    as [[H2 E2] | (H2 & w2 & E2 & F2 & _)].
  { right. rewrite F1, lookup_insert_ne in H2 by discriminate.
    split; [unfold ok; tauto |].
    eexists _, _. now rewrite (bind_run_Raise _ _ _ _ _ E2). }
  rewrite F1, lookup_insert_ne in H2 by discriminate.
  rewrite (bind_run_Ok _ _ _ _ _ E2).
  destruct (makedirs_cases "sample_traj" w2 eq_refl)
    as [[H3 E3] | (H3 & w3 & E3 & F3 & _)].
  { right. rewrite F2, F1, !lookup_insert_ne in H3 by discriminate.
    split; [unfold ok; tauto | eauto]. }
  rewrite F2, F1, !lookup_insert_ne in H3 by discriminate.
  left. split; [unfold ok; tauto |].
  exists w3. split; [exact E3 |]. now rewrite F3, F2, F1.
Qed.

(** X5. [create_dirs] succeeds exactly when none of [models],
    [training_traj] and [sample_traj] is a plain file; afterwards the three
    are directories and every other path is as before. *)
Theorem create_dirs_spec (w : world) :
  (is_ok (create_dirs w).1 = true <->
   fs w !! "models" <> Some File /\
   fs w !! "training_traj" <> Some File /\
   fs w !! "sample_traj" <> Some File) /\
  (forall w', create_dirs w = (Ok tt, w') ->
     fs w' !! "models" = Some Dir /\
     fs w' !! "training_traj" = Some Dir /\
     fs w' !! "sample_traj" = Some Dir /\
     forall q, q <> "models" -> q <> "training_traj" -> q <> "sample_traj" ->
               fs w' !! q = fs w !! q).
Proof.
  destruct (create_dirs_cases w)
    as [(Hok & w1 & H1 & Hfs) | (Hbad & p & w1 & H1)]; rewrite H1; simpl.
  - split; [split; [intros _; exact Hok | reflexivity] |].
    intros w' [= <-]. rewrite Hfs.
    split; [now rewrite !lookup_insert_ne, lookup_insert_eq by discriminate |].
    split; [now rewrite lookup_insert_ne, lookup_insert_eq by discriminate |].
    split; [apply lookup_insert_eq |].
    intros q N1 N2 N3. now rewrite !lookup_insert_ne by congruence.
  - split; [split; [discriminate | intros Hok; contradiction] |].
    intros w' Heq. discriminate Heq.
Qed.

(** ** No file is touched inside the loop *)

Lemma keeps_fs_ret {A} (x : A) : keeps_fs (ret x).
Proof. intros w. reflexivity. Qed.

Lemma keeps_fs_raise {A} e : keeps_fs (@raise _ A e).
Proof. intros w. reflexivity. Qed.

Lemma keeps_fs_bind {A C} (m : M A) (k : A -> M C) :
  keeps_fs m -> (forall x, keeps_fs (k x)) -> keeps_fs (bind m k).
Proof.
  intros Hm Hk w. unfold bind. specialize (Hm w).
  destruct (m w) as [[x|e] w1]; simpl in *; [| exact Hm].
  now rewrite Hk.
Qed.

Lemma keeps_fs_run {A} (m : M A) w r w' :
  keeps_fs m -> m w = (r, w') -> fs w' = fs w.
Proof. intros Hm H. specialize (Hm w). now rewrite H in Hm. Qed.

Lemma keeps_fs_emit e : keeps_fs (emit e).
Proof. intros w. reflexivity. Qed.

Lemma keeps_fs_read_local {A} name (v : option A) :
  keeps_fs (read_local name v).
Proof. intros w. now destruct v. Qed.

Lemma keeps_fs_np_random_choice pop size : keeps_fs (np_random_choice pop size).
Proof.
  intros w. unfold np_random_choice.
  destruct (size <? 0); [reflexivity |].
  destruct (_ && _)%bool; [reflexivity |].
  now destruct (np_draws _ _ _).
Qed.

Lemma keeps_fs_take_rows t index : keeps_fs (take_rows t index).
Proof. intros w. unfold take_rows. now destruct (mapM _ _). Qed.

Lemma keeps_fs_call_forward grad s x : keeps_fs (call_forward grad s x).
Proof.
  intros w. unfold call_forward. now destruct (net_forward _ _ _ _) as [[? ?] ?].
Qed.

Lemma keeps_fs_call_inverse grad s z : keeps_fs (call_inverse grad s z).
Proof.
  intros w. unfold call_inverse. now destruct (net_inverse _ _ _ _) as [[? ?] ?].
Qed.

Lemma keeps_fs_torch_normal mean std rows cols :
  keeps_fs (torch_normal mean std rows cols).
Proof.
  intros w. unfold torch_normal.
  destruct (_ || _)%bool; [reflexivity |]. now destruct (randn_rows _ _ _).
Qed.

Lemma keeps_fs_py_mod x y : keeps_fs (py_mod x y).
Proof. intros w. unfold py_mod. now destruct (y =? 0). Qed.

Lemma keeps_fs_example_objective a s : keeps_fs (example_objective a s).
Proof.
  unfold example_objective.
  apply keeps_fs_bind; [apply keeps_fs_np_random_choice | intros index].
  apply keeps_fs_bind; [apply keeps_fs_take_rows | intros x].
  apply keeps_fs_bind; [apply keeps_fs_call_forward | intros [[z zj] s1]].
  apply keeps_fs_ret.
Qed.

Lemma keeps_fs_energy_objective a s : keeps_fs (energy_objective a s).
Proof.
  unfold energy_objective.
  apply keeps_fs_bind; [apply keeps_fs_torch_normal | intros z].
  apply keeps_fs_bind; [apply keeps_fs_call_inverse | intros [[x xj] s1]].
  apply keeps_fs_ret.
Qed.

Lemma keeps_fs_combined_loss a s : keeps_fs (combined_loss a s).
Proof.
  unfold combined_loss.
  destruct (_ && _)%bool;
    [| destruct (train_example a); apply keeps_fs_read_local].
  apply keeps_fs_bind; [apply keeps_fs_read_local | intros ex].
  apply keeps_fs_bind; [apply keeps_fs_read_local | intros en].
  apply keeps_fs_ret.
Qed.

Lemma keeps_fs_train_step a epoch s : keeps_fs (train_step a epoch s).
Proof.
  unfold train_step. cbv zeta.
  apply keeps_fs_bind.
  { destruct (train_example a);
      [apply keeps_fs_example_objective | apply keeps_fs_ret]. }
  intros s1. apply keeps_fs_bind.
  { destruct (train_energy a);
      [apply keeps_fs_energy_objective | apply keeps_fs_ret]. }
  intros s2.
  apply keeps_fs_bind; [apply keeps_fs_combined_loss | intros l].
  apply keeps_fs_bind; [apply keeps_fs_emit | intros _].
  destruct (opt_step _ _). apply keeps_fs_ret.
Qed.

Lemma keeps_fs_log_if (b : bool) name (v : option F) tag epoch :
  keeps_fs (if b then bind (read_local name v)
                        (fun x => emit (EvScalar tag x epoch))
            else ret tt).
Proof.
  destruct b; [| apply keeps_fs_ret].
  apply keeps_fs_bind; [apply keeps_fs_read_local | intros x].
  apply keeps_fs_emit.
Qed.

Lemma keeps_fs_validate_log a epoch s : keeps_fs (validate_log a epoch s).
Proof.
  unfold validate_log. cbv zeta.
  apply keeps_fs_bind; [apply keeps_fs_read_local | intros l].
  apply keeps_fs_bind; [apply keeps_fs_emit | intros _].
  apply keeps_fs_bind; [apply keeps_fs_log_if | intros _].
  apply keeps_fs_bind; [apply keeps_fs_log_if | intros _].
  apply keeps_fs_bind; [apply keeps_fs_np_random_choice | intros index].
  apply keeps_fs_bind; [apply keeps_fs_take_rows | intros x].
  apply keeps_fs_bind; [apply keeps_fs_call_forward | intros [[z zj] s1]].
  apply keeps_fs_bind; [apply keeps_fs_torch_normal | intros zv].
  apply keeps_fs_bind; [apply keeps_fs_call_inverse | intros [[x' xj] s2]].
  do 7 (apply keeps_fs_bind; [apply keeps_fs_emit | intros _]).
  apply keeps_fs_bind; [apply keeps_fs_call_inverse | intros [[fx fj] s3]].
  apply keeps_fs_bind; [apply keeps_fs_emit | intros _].
  apply keeps_fs_ret.
Qed.

Lemma keeps_fs_epoch_body a epoch s : keeps_fs (epoch_body a epoch s).
Proof.
  unfold epoch_body.
  apply keeps_fs_bind; [apply keeps_fs_train_step | intros s1].
  apply keeps_fs_bind; [apply keeps_fs_py_mod | intros r].
  destruct (r =? 0); [apply keeps_fs_validate_log | apply keeps_fs_ret].
Qed.

Lemma keeps_fs_run_epochs a es : forall s, keeps_fs (run_epochs a es s).
Proof.
  induction es as [|e es IH]; intros s; simpl; [apply keeps_fs_ret |].
  apply keeps_fs_bind; [apply keeps_fs_epoch_body | exact IH].
Qed.

Lemma event_file_not_dir name :
  event_file name <> run_dir name /\ event_file name <> "runs" /\
  event_file name <> "models" /\ event_file name <> "training_traj" /\
  event_file name <> "sample_traj" /\
  event_file name <> model_file name /\
  event_file name <> training_traj_file name /\
  event_file name <> sample_traj_file name.
Proof.
  split; [unfold event_file; apply append_longer |].
  unfold event_file, run_dir, model_file, training_traj_file, sample_traj_file.
  repeat split; discriminate.
Qed.

(** what [setup] does to the file system: the tensorboard directory, the
    directories above it and the event file *)
Lemma setup_fs a dev w s w' :
  setup a dev w = (Ok s, w') ->
  exists m, make_dirs (dirs_to (run_dir (output_name a))) (fs w) = Some m /\
            m !! event_file (output_name a) <> Some Dir /\
            fs w' = <[event_file (output_name a) := File]> m.
Proof.
  unfold setup. intros H.
  inv_bind H as u1 w1 Hw. unfold create_tensorboard in Hw.
  inv_bind Hw as u0 w0 Hm. apply os_makedirs_run in Hm as (m & Hmk & ->).
  inv_bind Hw as u2 w2 Ho. apply open_wb_Ok in Ho as [Hnd ->].
  simpl in Hnd. apply emit_Ok in Hw as ->.
  exists m. split; [exact Hmk |]. split; [exact Hnd |].
  inv_bind H as t0 w2 Ht.
  assert (F2 : fs w2 = <[event_file (output_name a) := File]> m).
  { unfold load_trajectory, bind, emit in Ht. simpl in Ht.
    destruct (g_args w); [| discriminate]. now injection Ht as _ <-. }
  inv_bind H as u3 w3 He3. apply emit_Ok in He3 as ->.
  inv_bind H as u4 w4 He4. apply emit_Ok in He4 as ->.
  inv_bind H as net0 w5 Hnet.
  assert (F5 : fs w5 = fs w2).
  { destruct (truthy (load_network_arg a)) as [name|].
    - unfold load_network in Hnet. now injection Hnet as _ <-.
    - unfold build_network in Hnet. inv_bind Hnet as u w6 He.
      apply emit_Ok in He as ->.
      destruct (composite_transform _ _) as [n1 g]. now injection Hnet as _ <-. }
  inv_bind H as ctx w6 Hctx. unfold get_openmm_context in Hctx.
  injection Hctx as <- <-.
  inv_bind H as n_val w7 Hdiv. unfold lift in Hdiv. injection Hdiv as Hdiv <-.
  inv_bind H as shuffled w8 Hsh. unfold np_random_shuffle in Hsh.
  destruct (np_shuffle _ _ _) as [l' g']. injection Hsh as <- <-.
  inv_bind H as fz w9 Hfz.
  apply (keeps_fs_run _ _ _ _ (keeps_fs_torch_normal _ _ _ _)) in Hfz.
  simpl in Hfz.
  inv_ret H. rewrite Hfz, F5, F2. reflexivity.
Qed.

(** ... for an output name that is a single path component *)
Lemma setup_fs_plain a dev w s w' :
  plain_name (output_name a) = true ->
  setup a dev w = (Ok s, w') ->
  fs w !! "runs" <> Some File /\
  fs w !! run_dir (output_name a) <> Some File /\
  fs w !! event_file (output_name a) <> Some Dir /\
  fs w' = <[event_file (output_name a) := File]>
            (<[run_dir (output_name a) := Dir]> (<["runs" := Dir]> (fs w))).
Proof.
  intros Hplain Hs.
  apply setup_fs in Hs as (m & Hmk & Hnd & Hfs).
  rewrite (run_dirs_plain _ Hplain) in Hmk.
  pose proof (make_dirs_spec ["runs"; run_dir (output_name a)] (fs w)) as Hspec.
  rewrite Hmk in Hspec. destruct Hspec as [Hall Hlook].
  apply Forall_cons in Hall as [H1 Hall]. apply Forall_cons in Hall as [H2 _].
  destruct (event_file_not_dir (output_name a)) as (Ner & Ne & _).
  assert (Hm : m = <[run_dir (output_name a) := Dir]> (<["runs" := Dir]> (fs w))).
  { apply map_eq. intros q. rewrite Hlook.
    destruct (decide (q = run_dir (output_name a))) as [-> | Nq].
    { rewrite lookup_insert_eq. rewrite bool_decide_eq_true_2; [reflexivity |].
      apply elem_of_cons. right. apply elem_of_cons. now left. }
    rewrite lookup_insert_ne by congruence.
    destruct (decide (q = "runs")) as [-> | Nr].
    { rewrite lookup_insert_eq. rewrite bool_decide_eq_true_2; [reflexivity |].
      apply elem_of_cons. now left. }
    rewrite lookup_insert_ne by congruence.
    rewrite bool_decide_eq_false_2; [reflexivity |].
    intros Hq. apply elem_of_cons in Hq as [? | Hq]; [contradiction |].
    apply elem_of_cons in Hq as [? | Hq]; [contradiction |].
    now apply elem_of_nil in Hq. }
  split; [exact H1 |]. split; [exact H2 |]. split.
  - intros Hd. apply Hnd. rewrite Hm, !lookup_insert_ne by congruence. exact Hd.
  - now rewrite Hfs, Hm.
Qed.

Lemma training_loop_fs (a : args) (s : locals) (w : world) :
  fs (training_loop a s w).2 = fs w.
Proof. unfold training_loop. apply keeps_fs_run_epochs. Qed.

(** X6. The loop itself touches no file: whether it completes or raises,
    the file system after it is the one before it.  (What the tensorboard
    writer appends to its event file, which exists since [setup], is
    recorded as events, not as files.) *)
Theorem loop_keeps_file_system (a : args) (s : locals) (w : world) :
  fs (training_loop a s w).2 = fs w.
Proof. unfold training_loop. apply keeps_fs_run_epochs. Qed.

(** X7. A run that fails inside the loop fails with that exception and
    has written neither the model nor a trajectory.  For an output name
    that is a single path component: compared with the file system
    [run_training] was started on, only the tensorboard directory
    [runs/<name>] with the writer's event file in it, and [runs] above it,
    have been created. *)
Theorem failed_loop_leaves_no_artifact (a : args) (dev : device) (w : world)
    (s0 : locals) (w0 : world) (e : exn) (w1 : world) :
  plain_name (output_name a) = true ->
  setup a dev w = (Ok s0, w0) ->
  training_loop a s0 w0 = (Raise e, w1) ->
  run_training a dev w = (Raise e, w1) /\
  fs w1 = <[event_file (output_name a) := File]>
            (<[run_dir (output_name a) := Dir]> (<["runs" := Dir]> (fs w))) /\
  fs w1 !! model_file (output_name a) = fs w !! model_file (output_name a) /\
  fs w1 !! training_traj_file (output_name a)
    = fs w !! training_traj_file (output_name a) /\
  fs w1 !! sample_traj_file (output_name a)
    = fs w !! sample_traj_file (output_name a).
Proof.
  intros Hplain Hs Hl. split.
  - unfold run_training. rewrite (bind_run_Ok _ _ _ _ _ Hs).
    now rewrite (bind_run_Raise _ _ _ _ _ Hl).
  - pose proof (training_loop_fs a s0 w0) as Hk.
    rewrite Hl in Hk. simpl in Hk.
    apply (setup_fs_plain _ _ _ _ _ Hplain) in Hs as (_ & _ & _ & Hfs).
    rewrite Hk, Hfs. split; [reflexivity |].
    destruct (event_file_not_dir (output_name a))
      as (_ & _ & _ & _ & _ & Nm & Nt & Ns).
    destruct (run_paths_distinct (output_name a))
      as (_ & _ & Hmr & _ & Htr & Hsr & _).
    assert (Hr : forall n, model_file n <> "runs" /\
                           training_traj_file n <> "runs" /\
                           sample_traj_file n <> "runs").
    { intros n. unfold model_file, training_traj_file, sample_traj_file.
      repeat split; discriminate. }
    destruct (Hr (output_name a)) as (? & ? & ?).
    repeat split; now rewrite !lookup_insert_ne by congruence.
Qed.

(** ** How often the loop logs and steps *)

Lemma epoch_body_counts a epoch s w s' w' :
  epoch_body a epoch s w = (Ok s', w') ->
  length (fixed_coords s') =
    (length (fixed_coords s) + length (log_epochs a [epoch]))%nat /\
  backward_count (trace w') = S (backward_count (trace w)).
Proof.
  intros H. apply epoch_body_Ok in H as (Hnz & s1 & w1 & Hstep & Hrest).
  pose proof (train_step_frame _ _ _ _ _ _ Hstep)
    as (_ & Hc & _ & _ & _ & _ & _ & _ & _ & l & _ & Ht).
  assert (Hb1 : backward_count (trace w1) = S (backward_count (trace w))).
  { rewrite Ht. unfold backward_count.
    rewrite List.filter_app, length_app. simpl. lia. }
  unfold log_epochs. simpl.
  destruct (epoch mod log_freq a =? 0).
  - apply validate_log_Ok in Hrest. unfold validation_pass in Hrest.
    cbv zeta in Hrest.
    destruct Hrest as (l' & xv & z & zj & n1 & g1 & wx & zv & wz & x & xj & n2
                       & g2 & fx & fj & n3 & g3 & _ & _ & _ & _ & _ & _ & _
                       & _ & _ & _ & _ & Hfc & _ & _ & _ & _ & _ & _ & _ & Htr).
    split.
    + rewrite Hfc, length_app, Hc. simpl. lia.
    + rewrite Htr, <- Hb1. unfold backward_count, train_scalars, scalar_if.
      rewrite !List.filter_app, !length_app.
      destruct (train_example a), (train_energy a),
        (example_loss s1), (energy_loss s1); simpl; lia.
  - destruct Hrest as [-> ->]. split; [rewrite Hc; simpl; lia | exact Hb1].
Qed.

Lemma run_epochs_counts a es : forall s w s' w',
  run_epochs a es s w = (Ok s', w') ->
  length (fixed_coords s') =
    (length (fixed_coords s) + length (log_epochs a es))%nat /\
  backward_count (trace w') = (backward_count (trace w) + length es)%nat.
Proof.
  induction es as [|e es IH]; intros s w s' w' H; simpl in H.
  - inv_ret H. simpl. split; lia.
  - inv_bind H as s1 w1 Hb.
    apply epoch_body_counts in Hb as [Hc Hb].
    apply IH in H as [Hc' Hb'].
    rewrite Hc', Hc, Hb', Hb. unfold log_epochs in *. simpl.
    destruct (e mod log_freq a =? 0); simpl; split; lia.
Qed.

(** the multiples of [k] in [range(n)]: there are [ceil(n / k)] of them *)
Lemma multiples_in_range k n :
  0 < k -> 0 <= n ->
  length (List.filter (fun e => e mod k =? 0) (py_range n))
  = Z.to_nat ((n + k - 1) / k).
Proof.
  intros Hk Hn. unfold py_range.
  rewrite <- (Z2Nat.id n) at 2 by exact Hn.
  generalize (Z.to_nat n). clear n Hn. intros m.
  induction m as [|m IH].
  - simpl. rewrite Z.div_small by lia. reflexivity.
  - rewrite seq_S, map_app, List.filter_app, length_app, IH. simpl.
    pose proof (Z.div_mod (Z.of_nat m) k ltac:(lia)) as Hdm.
    pose proof (Z.mod_pos_bound (Z.of_nat m) k Hk) as Hr.
    set (q := Z.of_nat m / k) in *. set (r := Z.of_nat m mod k) in *.
    assert (Hq : 0 <= q) by (apply Z.div_pos; lia).
    replace (Z.of_nat (S m) + k - 1) with (Z.of_nat m + 1 * k) by lia.
    rewrite Z.div_add by lia. fold q.
    destruct (Z.eqb_spec r 0) as [Hz | Hz]; simpl.
    + assert (E : (Z.of_nat m + k - 1) / k = q).
      { symmetry. apply (Z.div_unique _ _ _ (k - 1)); lia. }
      rewrite E. lia.
    + assert (E : (Z.of_nat m + k - 1) / k = q + 1).
      { symmetry. apply (Z.div_unique _ _ _ (r - 1)); lia. }
      rewrite E. lia.
Qed.

(** X8. A completed loop with [log_freq >= 1] has appended one decoded
    fixed-latent frame per logging epoch, that is [ceil(epochs / log_freq)]
    frames: this is the length of the trajectory written to
    [training_traj/<name>.pdb]. *)
Theorem fixed_coords_per_log_epoch (a : args) (s : locals) (w : world)
    (s' : locals) (w' : world) :
  1 <= log_freq a -> 0 <= epochs a ->
  training_loop a s w = (Ok s', w') ->
  length (fixed_coords s') =
    (length (fixed_coords s)
     + Z.to_nat ((epochs a + log_freq a - 1) / log_freq a))%nat.
Proof.
  intros Hlf Hep H. unfold training_loop in H.
  apply run_epochs_counts in H as [Hc _].
  rewrite Hc. unfold log_epochs. rewrite multiples_in_range by lia.
  reflexivity.
Qed.

(** X9. A completed loop has backpropagated exactly once per epoch:
    [range(epochs)] has [max(0, epochs)] elements. *)
Theorem one_backward_per_epoch (a : args) (s : locals) (w : world)
    (s' : locals) (w' : world) :
  training_loop a s w = (Ok s', w') ->
  backward_count (trace w') =
    (backward_count (trace w) + Z.to_nat (epochs a))%nat.
Proof.
  intros H. unfold training_loop in H.
  apply run_epochs_counts in H as [_ Hb].
  rewrite Hb. unfold py_range. now rewrite length_map, length_seq.
Qed.

(** ** Configurations that cannot complete *)

(** X10. With [log_freq = 0] no run of at least one epoch completes: as
    soon as the first training step has succeeded, [epoch % log_freq]
    raises ZeroDivisionError, after the backward pass and before anything
    is logged. *)
Theorem zero_log_freq_fails (a : args) (s : locals) (w : world) :
  log_freq a = 0 -> 1 <= epochs a ->
  (forall s' w', training_loop a s w <> (Ok s', w')) /\
  (forall s1 w1, train_step a 0 s w = (Ok s1, w1) ->
     training_loop a s w = (Raise ZeroDivisionError, w1) /\
     exists l, trace w1 = trace w ++ [EvBackward l]).
Proof.
  intros Hlf Hep. destruct (py_range_pos _ Hep) as [rest Hr].
  unfold training_loop. rewrite Hr. simpl. split.
  - intros s' w' H. inv_bind H as s1 w1 Hb.
    apply epoch_body_Ok in Hb as [Hnz _]. contradiction.
  - intros s1 w1 Hstep. split.
    + unfold bind at 1. unfold epoch_body.
      rewrite (bind_run_Ok _ _ _ _ _ Hstep).
      unfold bind, py_mod. rewrite Hlf. reflexivity.
    + apply train_step_frame in Hstep
        as (_ & _ & _ & _ & _ & _ & _ & _ & _ & l & _ & Ht).
      eauto.
Qed.

Lemma np_random_choice_nonempty (pop : list nat) size w index w' :
  np_random_choice pop size w = (Ok index, w') -> 0 < size -> pop <> [].
Proof.
  unfold np_random_choice. intros H Hs Hp. subst pop. simpl in H.
  destruct (size <? 0); [discriminate |].
  destruct (Z.ltb_spec 0 size); [discriminate | lia].
Qed.

Lemma example_objective_nonempty a s w s' w' :
  example_objective a s w = (Ok s', w') -> 0 < batch_size a ->
  indices (env_of s) <> [].
Proof.
  unfold example_objective. intros H Hb.
  inv_bind H as index w1 Hc. eapply np_random_choice_nonempty; eauto.
Qed.

Lemma validate_log_nonempty a epoch s w s' w' :
  validate_log a epoch s w = (Ok s', w') -> 0 < batch_size a ->
  indices_val (env_of s) <> [].
Proof.
  unfold validate_log. cbv zeta. intros H Hb.
  inv_bind H as l w1 Hl. inv_bind H as u1 w2 He1.
  inv_bind H as u2 w3 Hex. inv_bind H as u3 w4 Hen.
  inv_bind H as index w5 Hc.
  apply np_random_choice_nonempty in Hc; auto.
Qed.

(** X11. A run of at least one epoch with a positive batch size can
    only complete when the validation split is not empty and, if the
    example objective is enabled, neither is the training split:
    [np.random.choice] refuses to draw from an empty index range. *)
Theorem completed_run_has_data (a : args) (dev : device) (w : world)
    (s0 : locals) (w0 : world) (s : locals) (w1 : world) :
  setup a dev w = (Ok s0, w0) ->
  training_loop a s0 w0 = (Ok s, w1) ->
  1 <= epochs a -> 0 < batch_size a ->
  read_view (val_data (env_of s0)) (data (env_of s0)) <> [] /\
  (train_example a = true ->
   read_view (train_data (env_of s0)) (data (env_of s0)) <> []).
Proof.
  intros Hs Hl Hep Hb.
  apply setup_Ok in Hs
    as (ga & nv & _ & _ & _ & _ & _ & Hi & Hiv & _).
  unfold training_loop in Hl. destruct (py_range_pos _ Hep) as [rest Hr].
  rewrite Hr in Hl. simpl in Hl. inv_bind Hl as s1 wa Hfirst.
  apply epoch_body_Ok in Hfirst as (Hnz & s2 & w2 & Hstep & Hrest).
  rewrite Z.mod_0_l in Hrest by exact Hnz. simpl in Hrest.
  pose proof (train_step_frame _ _ _ _ _ _ Hstep) as (He & _).
  split.
  - apply validate_log_nonempty in Hrest; [| exact Hb].
    rewrite He, Hiv in Hrest. intros Hnil. apply Hrest.
    now rewrite Hnil.
  - intros Hex Hnil.
    apply train_step_Ok in Hstep as (sa & wb & sc & wc & l & H1 & _).
    rewrite Hex in H1.
    apply example_objective_nonempty in H1; [| exact Hb].
    simpl in H1. rewrite Hi in H1. apply H1. now rewrite Hnil.
Qed.

Lemma split_partition_aux a dev w s w' :
  setup a dev w = (Ok s, w') ->
  let E := env_of s in
  exists n_val,
    int_div (length (data E)) (fold_validation a) = Ok n_val /\
    read_view (val_data E) (data E) = slice_to n_val (data E) /\
    read_view (train_data E) (data E) = slice_from n_val (data E).
Proof.
  intros Hsetup E.
  apply setup_Ok in Hsetup
    as (ga & nv & Hga & Hdiv & Hdata & Hval & Htrain & _).
  fold E in Hdata, Hval, Htrain.
  assert (Hn : length (traj_frames
            (superpose_backbone (md_load (dcd_path ga) (pdb_path ga))))
               = length (data E)).
  { rewrite Hdata. symmetry. apply Permutation_length, np_shuffle_perm. }
  rewrite Hn in Hdiv, Hval, Htrain.
  exists nv. rewrite Hval, Htrain, read_view_to, read_view_from. auto.
Qed.

(** X12. With fewer frames than [fold_validation] (10 by default) the
    validation split is empty, so by X11 such a run cannot complete.  The
    frame count is below 2^53, so that it converts to a double exactly, and
    is compared with [fold_validation] as a double. *)
Theorem few_frames_empty_validation (a : args) (dev : device) (w : world)
    (s0 : locals) (w0 : world) :
  setup a dev w = (Ok s0, w0) ->
  Z.of_nat (length (data (env_of s0))) < 2 ^ 53 ->
  valid_binary 53 1024 (fold_validation a) = true ->
  int_lt_float (Z.of_nat (length (data (env_of s0)))) (fold_validation a)
    = true ->
  read_view (val_data (env_of s0)) (data (env_of s0)) = [] /\
  read_view (train_data (env_of s0)) (data (env_of s0)) = data (env_of s0).
Proof.
  intros Hs Hn Hv Hlt.
  destruct (split_partition_aux _ _ _ _ _ Hs) as (nv & Hdiv & Hval & Htrain).
  assert (Hz : nv = 0).
  { unfold int_div in Hdiv. unfold int_lt_float in Hlt.
    destruct (float_of_int_valid (Z.of_nat (length (data (env_of s0))))
                ltac:(lia)) as (x & Hx & Vx & Cx).
    rewrite Hx in Hdiv, Hlt.
    pose proof (div_trunc_zero x _ Vx Hv Cx Hlt) as Hq.
    destruct (fold_validation a) as [sf|sf| |sf mf ef]; try discriminate;
      rewrite Hq in Hdiv; now injection Hdiv. }
  subst nv.
  destruct (slice_nonneg (data (env_of s0)) 0 ltac:(lia)) as [H1 H2].
  now rewrite Hval, Htrain, H1, H2.
Qed.

(** ** What [setup] needs and what it builds *)

Lemma setup_more a dev w s w' :
  setup a dev w = (Ok s, w') ->
  exists ga,
    g_args w = Some ga /\
    let traj0 := superpose_backbone (md_load (dcd_path ga) (pdb_path ga)) in
    let nd := Z.of_nat (traj_atoms traj0) * 3 in
    6 <= nd /\ n_dim (env_of s) = nd /\
    length (fixed_z (env_of s)) = 1%nat /\
    Forall (fun r => Z.of_nat (length r) = nd - 6) (fixed_z (env_of s)) /\
    openmm_context (env_of s) = openmm_simulation (pdb_path a) /\
    optimizer s =
      setup_scheduler (setup_optimizer (net s) (init_lr a) (weight_decay a))
        (init_lr a) (final_lr a) (epochs a) (warmup_epochs a) /\
    match truthy (load_network_arg a) with
    | Some name => net s = torch_load (model_file name)
    | None => exists g,
        net s = (composite_transform
                   (network_layers nd traj0 (traj_frames traj0)
                      (coupling_layers a) (is_affine a) (spline_points a)
                      (hidden_features a) (hidden_layers a)
                      (dropout_fraction a)) g).1
    end /\
    trace w' =
      trace w
      ++ [EvMakedirs (run_dir (output_name a));
          EvWriterOpen (run_dir (output_name a));
          EvPrint "Loading trajectory";
          EvLoadTraj (dcd_path ga) (pdb_path ga);
          EvPrint "Trajectory loaded"; EvPrint "Data has size:"]
      ++ network_events a ++ [EvOpenMM (pdb_path a)].
Proof.
  unfold setup. intros H.
  inv_bind H as u1 w1 Hw. unfold create_tensorboard in Hw.
  inv_bind Hw as u0 w0 Hm. apply os_makedirs_run in Hm as (m & _ & ->).
  inv_bind Hw as u2 w2 Ho. apply open_wb_Ok in Ho as [_ ->].
  apply emit_Ok in Hw as ->.
  inv_bind H as t0 w2 Ht.
  unfold load_trajectory, bind, emit in Ht. simpl in Ht.
  destruct (g_args w) as [ga|] eqn:Hga; [| discriminate].
  injection Ht as <- <-.
  inv_bind H as u3 w3 He3. apply emit_Ok in He3 as ->.
  inv_bind H as u4 w4 He4. apply emit_Ok in He4 as ->.
  inv_bind H as net0 w5 Hnet.
  inv_bind H as ctx w6 Hctx. unfold get_openmm_context in Hctx.
  injection Hctx as <- <-.
  inv_bind H as n_val w7 Hdiv. unfold lift in Hdiv. injection Hdiv as Hdiv <-.
  inv_bind H as shuffled w8 Hsh. unfold np_random_shuffle in Hsh.
  destruct (np_shuffle _ _ _) as [l' g']. injection Hsh as <- <-.
  inv_bind H as fz w9 Hfz.
  pose proof (torch_normal_Ok _ _ _ _ _ _ _ Hfz) as (_ & Hd & Hl1 & Hcols & gz & ->).
  inv_ret H. exists ga. split; [reflexivity |]. cbv zeta. simpl.
  split; [lia |]. split; [reflexivity |]. split; [exact Hl1 |].
  split. { eapply Forall_impl; [exact Hcols |]. intros r Hr. simpl in Hr. lia. }
  split; [reflexivity |]. split; [reflexivity |].
  unfold network_events.
  destruct (truthy (load_network_arg a)) as [name|].
  - unfold load_network in Hnet. injection Hnet as <- <-. simpl.
    split; [reflexivity |]. rewrite <- !app_assoc. reflexivity.
  - unfold build_network, bind, emit in Hnet. simpl in Hnet.
    destruct (composite_transform _ _) as [n1 g1] eqn:Hc.
    injection Hnet as <- <-. simpl. split.
    + eexists. unfold network_layers. now rewrite Hc.
    + rewrite <- !app_assoc. reflexivity.
Qed.

(** X14. [setup] can only return when the module-level [args] is bound,
    [fold_validation] is neither zero nor NaN and the loaded molecule has at
    least two atoms (so that [n_dim - 6] is not negative); [fixed_z] is then
    a single latent vector of [n_dim - 6] components, with [n_dim] three
    times the number of atoms.  For an output name that is a single path
    component, neither [runs] nor [runs/<name>] was a plain file and the
    writer's event file was not a directory, and [setup] has created [runs],
    [runs/<name>] and the event file in it, and nothing else. *)
Theorem setup_requirements (a : args) (dev : device) (w : world)
    (s : locals) (w' : world) :
  setup a dev w = (Ok s, w') ->
  exists ga,
    g_args w = Some ga /\
    (plain_name (output_name a) = true ->
     fs w !! "runs" <> Some File /\
     fs w !! run_dir (output_name a) <> Some File /\
     fs w !! event_file (output_name a) <> Some Dir /\
     fs w' = <[event_file (output_name a) := File]>
               (<[run_dir (output_name a) := Dir]>
                  (<["runs" := Dir]> (fs w)))) /\
    (forall sg, fold_validation a <> S754_zero sg) /\
    fold_validation a <> S754_nan /\
    (2 <= traj_atoms
            (superpose_backbone (md_load (dcd_path ga) (pdb_path ga))))%nat /\
    n_dim (env_of s) =
      Z.of_nat (traj_atoms
                  (superpose_backbone (md_load (dcd_path ga) (pdb_path ga))))
      * 3 /\
    length (fixed_z (env_of s)) = 1%nat /\
    Forall (fun r => Z.of_nat (length r) = n_dim (env_of s) - 6)
      (fixed_z (env_of s)).
Proof.
  intros Hs.
  pose proof (setup_more _ _ _ _ _ Hs)
    as (ga & Hga & Hd & Hnd & Hl & Hz & _).
  pose proof (setup_Ok _ _ _ _ _ Hs) as (ga' & nv & Hga' & Hdiv & _).
  rewrite Hga in Hga'. injection Hga' as <-.
  exists ga. split; [exact Hga |].
  split; [intros Hplain; exact (setup_fs_plain _ _ _ _ _ Hplain Hs) |].
  unfold int_div in Hdiv.
  destruct (float_of_int _) as [x|e]; [| discriminate].
  split.
  { intros sg Hf. rewrite Hf in Hdiv. discriminate. }
  split.
  { intros Hf. rewrite Hf in Hdiv. destruct x; discriminate. }
  split; [lia |]. split; [exact Hnd |]. split; [exact Hl |].
  now rewrite Hnd.
Qed.

(** X15. Which network is trained: a non-empty [--load-network NAME]
    loads [models/NAME.pkl]; without the option, or with the empty string,
    a new flow is built.  Its PCA transform is fitted on all loaded frames
    in file order, so on the frames of the validation split as well.  The
    events of [setup] come in the order writer, trajectory, network, OpenMM
    context. *)
Theorem setup_network (a : args) (dev : device) (w : world)
    (s : locals) (w' : world) :
  setup a dev w = (Ok s, w') ->
  exists ga,
    g_args w = Some ga /\
    let traj0 := superpose_backbone (md_load (dcd_path ga) (pdb_path ga)) in
    (forall name, load_network_arg a = Some name -> name <> EmptyString ->
       net s = torch_load (model_file name)) /\
    (load_network_arg a = None \/ load_network_arg a = Some EmptyString ->
       (exists rest g,
          net s = (composite_transform
                     (pca_mixed_transform (n_dim (env_of s)) traj0
                        (traj_frames traj0) :: rest) g).1) /\
       forall row,
         row ∈ read_view (val_data (env_of s)) (data (env_of s)) ->
         row ∈ traj_frames traj0) /\
    trace w' =
      trace w
      ++ [EvMakedirs (run_dir (output_name a));
          EvWriterOpen (run_dir (output_name a));
          EvPrint "Loading trajectory";
          EvLoadTraj (dcd_path ga) (pdb_path ga);
          EvPrint "Trajectory loaded"; EvPrint "Data has size:"]
      ++ network_events a ++ [EvOpenMM (pdb_path a)].
Proof.
  intros Hs.
  pose proof (setup_more _ _ _ _ _ Hs)
    as (ga & Hga & _ & Hnd & _ & _ & _ & _ & Hnet & Htr).
  pose proof (setup_Ok _ _ _ _ _ Hs)
    as (ga' & nv & Hga' & _ & Hdata & _).
  rewrite Hga in Hga'. injection Hga' as <-.
  exists ga. split; [exact Hga |]. cbv zeta.
  split; [| split; [| exact Htr]].
  - intros name Hl Hne. rewrite Hl in Hnet.
    destruct name; [contradiction | exact Hnet].
  - intros Hl.
    assert (Ht : truthy (load_network_arg a) = None)
      by (destruct Hl as [-> | ->]; reflexivity).
    rewrite Ht in Hnet. destruct Hnet as [g Hnet]. split.
    + unfold network_layers in Hnet. rewrite Hnd. eauto.
    + intros row Hin.
      assert (Hin' : row ∈ data (env_of s)).
      { unfold read_view in Hin.
        eapply subseteq_drop, subseteq_take. exact Hin. }
      rewrite Hdata in Hin'.
      now rewrite (np_shuffle_perm _ _ _) in Hin'.
Qed.

(** ** A run that returns *)

Lemma keeps_fs_print_if (b : bool) name (v : option F) label :
  keeps_fs (if b then bind (read_local name v)
                        (fun x => emit (EvPrintVal label x))
            else ret tt).
Proof.
  destruct b; [| apply keeps_fs_ret].
  apply keeps_fs_bind; [apply keeps_fs_read_local | intros x].
  apply keeps_fs_emit.
Qed.

Lemma write_file_Ok p e w u w' :
  write_file p e w = (Ok u, w') -> fs w' = <[p := File]> (fs w).
Proof. unfold write_file. now intros [= _ <-]. Qed.

(** the lines after the loop, read off a successful run of them *)
Lemma finalize_Ok_inv a s w w' :
  finalize a s w = (Ok tt, w') ->
  is_Some (loss s) /\
  fs w' = <[sample_traj_file (output_name a) := File]>
            (<[training_traj_file (output_name a) := File]>
               (<[model_file (output_name a) := File]> (fs w))).
Proof.
  unfold finalize. intros H.
  inv_bind H as u1 w1 Hw1. apply write_file_Ok in Hw1.
  inv_bind H as l w2 Hl. apply read_local_Ok in Hl as (Hl & ->).
  inv_bind H as u2 w2 He. apply emit_Ok in He as ->.
  inv_bind H as u3 w3 Hp1.
  apply (keeps_fs_run _ _ _ _ (keeps_fs_print_if _ _ _ _)) in Hp1.
  inv_bind H as u4 w4 Hp2.
  apply (keeps_fs_run _ _ _ _ (keeps_fs_print_if _ _ _ _)) in Hp2.
  inv_bind H as lv w5 Hlv. apply read_local_Ok in Hlv as (_ & ->).
  inv_bind H as u5 w5 He5. apply emit_Ok in He5 as ->.
  inv_bind H as exv w6 Hexv. apply read_local_Ok in Hexv as (_ & ->).
  inv_bind H as u6 w6 He6. apply emit_Ok in He6 as ->.
  inv_bind H as env0 w7 Henv. apply read_local_Ok in Henv as (_ & ->).
  inv_bind H as u7 w7 He7. apply emit_Ok in He7 as ->.
  inv_bind H as fe w8 Hfe. apply read_local_Ok in Hfe as (_ & ->).
  inv_bind H as u8 w8 He8. apply emit_Ok in He8 as ->.
  inv_bind H as u9 w9 Hm.
  assert (F9 : fs w9 = fs w4).
  { destruct (fixed_coords s); [discriminate | inv_ret Hm; reflexivity]. }
  inv_bind H as u10 w10 Hw10. apply write_file_Ok in Hw10.
  inv_bind H as z w11 Hz.
  apply (keeps_fs_run _ _ _ _ (keeps_fs_torch_normal _ _ _ _)) in Hz.
  inv_bind H as r w12 Hi.
  apply (keeps_fs_run _ _ _ _ (keeps_fs_call_inverse _ _ _)) in Hi.
  destruct r as [[x xj] s2]. apply write_file_Ok in H.
  split; [rewrite Hl; eauto |].
  rewrite H, Hi, Hz, Hw10, F9, Hp2, Hp1. simpl. now rewrite Hw1.
Qed.

(** X16. A run of the script that returns normally had at least one
    objective enabled, was allowed to overwrite any model it found, ran at
    least one epoch with a non-zero [log_freq] and a non-negative batch size,
    and leaves the model and the two trajectories as plain files next to the
    three artifact directories and the tensorboard directory. *)
Theorem main_success (a : args) (w w' : world) :
  main a w = (Ok tt, w') ->
  (train_example a || train_energy a)%bool = true /\
  (path_exists (fs w) (model_file (output_name a)) = true ->
   overwrite a = true) /\
  1 <= epochs a /\ log_freq a <> 0 /\ 0 <= batch_size a /\
  fs w' !! model_file (output_name a) = Some File /\
  fs w' !! training_traj_file (output_name a) = Some File /\
  fs w' !! sample_traj_file (output_name a) = Some File /\
  fs w' !! "models" = Some Dir /\
  fs w' !! "training_traj" = Some Dir /\
  fs w' !! "sample_traj" = Some Dir /\
  fs w' !! run_dir (output_name a) = Some Dir.
Proof.
  unfold main. intros H.
  inv_bind H as u0 w0 H0. injection H0 as _ <-.
  inv_bind H as u1 w1 Hgate.
  assert (Hflags : (train_example a || train_energy a)%bool = true /\
                   w1 = set_g_args a w).
  { destruct (train_example a || train_energy a)%bool; simpl in Hgate;
      [inv_ret Hgate; auto | discriminate]. }
  destruct Hflags as [Hflags ->]. clear Hgate.
  cbv zeta in H.
  inv_bind H as b w2 Hex. unfold os_path_exists in Hex. simpl in Hex.
  injection Hex as <- <-.
  inv_bind H as u3 w3 Hov.
  assert (Hover : (path_exists (fs w) (model_file (output_name a)) = true ->
                   overwrite a = true) /\ fs w3 = fs w).
  { destruct (path_exists (fs w) (model_file (output_name a))).
    - destruct (overwrite a); [| discriminate].
      apply emit_Ok in Hov as ->. auto.
    - inv_ret Hov. split; [discriminate | reflexivity]. }
  destruct Hover as [Hover F3]. clear Hov.
  inv_bind H as u4 w4 Hdel. inv_bind H as u5 w5 Hdirs.
  inv_bind H as dev w6 Hdev.
  assert (F6 : fs w6 = fs w5).
  { unfold get_device in Hdev.
    destruct (cuda_available w5); now injection Hdev as _ <-. }
  clear Hdev.
  unfold run_training in H.
  inv_bind H as s0 w7 Hs. inv_bind H as s w8 Hl.
  destruct u5.
  pose proof (create_dirs_cases w4) as [(_ & wd & Ed & Fd) | (_ & p & wd & Ed)];
    rewrite Ed in Hdirs; [| discriminate]. injection Hdirs as <-.
  pose proof (setup_fs _ _ _ _ _ Hs) as (m & Hmk & _ & F7).
  pose proof (make_dirs_spec (dirs_to (run_dir (output_name a))) (fs w6))
    as Hspec.
  rewrite Hmk in Hspec. destruct Hspec as [_ Hlook].
  pose proof (training_loop_fs a s0 w7) as F8.
  rewrite Hl in F8. simpl in F8.
  pose proof (setup_Ok _ _ _ _ _ Hs)
    as (ga & nv & _ & _ & _ & _ & _ & _ & _ & _ & _ & _ & Hloss0 & _).
  apply finalize_Ok_inv in H as [Hbound Ffin].
  assert (Hep : 1 <= epochs a).
  { destruct (Z.le_gt_cases 1 (epochs a)) as [|Hlt]; [assumption |].
    exfalso. unfold training_loop in Hl.
    rewrite py_range_nonpos in Hl by lia. simpl in Hl. inv_ret Hl.
    rewrite Hloss0 in Hbound. now destruct Hbound. }
  assert (Hfirst : log_freq a <> 0 /\ 0 <= batch_size a).
  { unfold training_loop in Hl. destruct (py_range_pos _ Hep) as [rest Hr].
    rewrite Hr in Hl. simpl in Hl. inv_bind Hl as s1 w9 Hb.
    pose proof (epoch_body_Ok _ _ _ _ _ _ Hb) as [Hnz _].
    apply first_epoch_binds in Hb as (_ & _ & Hbs & _). auto. }
  destruct Hfirst as [Hnz Hbs].
  destruct (run_paths_distinct (output_name a))
    as (Hmt & Hms & Hmr & Hts & Htr & Hsr & _).
  assert (Hdm : forall n, model_file n <> "models"
                          /\ model_file n <> "training_traj"
                          /\ model_file n <> "sample_traj").
  { intros n. unfold model_file. repeat split; simpl; discriminate. }
  assert (Hdt : forall n, training_traj_file n <> "models"
                          /\ training_traj_file n <> "training_traj"
                          /\ training_traj_file n <> "sample_traj").
  { intros n. unfold training_traj_file. repeat split; simpl; discriminate. }
  assert (Hds : forall n, sample_traj_file n <> "models"
                          /\ sample_traj_file n <> "training_traj"
                          /\ sample_traj_file n <> "sample_traj").
  { intros n. unfold sample_traj_file. repeat split; simpl; discriminate. }
  assert (Hdr : forall n, run_dir n <> "models" /\ run_dir n <> "training_traj"
                          /\ run_dir n <> "sample_traj").
  { intros n. unfold run_dir. repeat split; simpl; discriminate. }
  destruct (Hdm (output_name a)) as (? & ? & ?).
  destruct (Hdt (output_name a)) as (? & ? & ?).
  destruct (Hds (output_name a)) as (? & ? & ?).
  destruct (Hdr (output_name a)) as (? & ? & ?).
  destruct (event_file_not_dir (output_name a))
    as (Ne0 & _ & Ne1 & Ne2 & Ne3 & Ne4 & Ne5 & Ne6).
  assert (Hdirs : forall q, fs wd !! q = Some Dir -> m !! q = Some Dir).
  { intros q Hq. rewrite Hlook, F6, Hq. now destruct (bool_decide _). }
  assert (Hrun : m !! run_dir (output_name a) = Some Dir).
  { rewrite Hlook, bool_decide_eq_true_2; [reflexivity | apply run_dirs_self]. }
  rewrite Ffin, F8, F7.
  repeat split; auto;
    repeat first [ rewrite lookup_insert_eq; reflexivity
                 | rewrite lookup_insert_ne by congruence ];
    try exact Hrun; apply Hdirs; rewrite Fd;
    repeat first [ rewrite lookup_insert_eq; reflexivity
                 | rewrite lookup_insert_ne by congruence ].
Qed.

(** ** The exceptions of an iteration *)

Lemma ro_bind {A C} allowed (m : M A) (k : A -> M C) :
  raises_only allowed m ->
  (forall w x w1, m w = (Ok x, w1) -> raises_only allowed (k x)) ->
  raises_only allowed (bind m k).
Proof.
  intros Hm Hk w e w' H. unfold bind in H.
  destruct (m w) as [[x|e0] w1] eqn:Hmw.
  - eapply Hk; eauto.
  - injection H as <- <-. eapply Hm; eauto.
Qed.

Lemma ro_ret {A} allowed (x : A) : raises_only allowed (ret x).
Proof. intros w e w' H. discriminate H. Qed.

Lemma ro_emit allowed e0 : raises_only allowed (emit e0).
Proof. intros w e w' H. discriminate H. Qed.

Lemma ro_read_local {A} allowed name (v : option A) :
  is_Some v -> raises_only allowed (read_local name v).
Proof. intros [x ->] w e w' H. discriminate H. Qed.

Lemma ro_call_forward allowed grad s x :
  raises_only allowed (call_forward grad s x).
Proof.
  intros w e w' H. unfold call_forward in H.
  destruct (net_forward _ _ _ _) as [[? ?] ?]. discriminate H.
Qed.

Lemma ro_call_inverse allowed grad s z :
  raises_only allowed (call_inverse grad s z).
Proof.
  intros w e w' H. unfold call_inverse in H.
  destruct (net_inverse _ _ _ _) as [[? ?] ?]. discriminate H.
Qed.

Lemma ro_np_random_choice pop size :
  raises_only loop_error (np_random_choice pop size).
Proof.
  intros w e w' H. unfold np_random_choice in H.
  destruct (size <? 0); [injection H as <- _; exact I |].
  destruct (_ && _)%bool; [injection H as <- _; exact I |].
  destruct (np_draws _ _ _). discriminate H.
Qed.

Lemma ro_torch_normal mean std rows cols :
  raises_only loop_error (torch_normal mean std rows cols).
Proof.
  intros w e w' H. unfold torch_normal in H.
  destruct (_ || _)%bool; [injection H as <- _; exact I |].
  destruct (randn_rows _ _ _). discriminate H.
Qed.

Lemma ro_py_mod x y : raises_only loop_error (py_mod x y).
Proof.
  intros w e w' H. unfold py_mod in H.
  destruct (y =? 0); [injection H as <- _; exact I | discriminate H].
Qed.

(** indices drawn from [np.arange(k)] are below [k] *)
Lemma choice_arange_lt k size w index w' :
  np_random_choice (np_arange k) size w = (Ok index, w') ->
  Forall (fun i => (i < k)%nat) index.
Proof.
  intros H. pose proof H as H'.
  apply np_random_choice_Ok in H as (Hs & -> & _).
  unfold np_arange in *. rewrite length_seq.
  destruct k as [|k].
  - assert (size = 0).
    { destruct (Z.eq_dec size 0); [assumption |].
      exfalso. eapply (np_random_choice_nonempty (seq 0 0)); eauto; lia. }
    subst size. simpl. constructor.
  - apply Forall_map.
    eapply Forall_impl; [apply np_draws_lt; lia |].
    intros i Hi. cbv beta in Hi |- *.
    rewrite seq_nth by exact Hi. exact Hi.
Qed.

Lemma ro_take_rows allowed (t : tensor) index :
  Forall (fun i => (i < length t)%nat) index ->
  raises_only allowed (take_rows t index).
Proof.
  intros Hin w e w' H. unfold take_rows in H.
  destruct (mapM (fun i => t !! i) index) as [rows|] eqn:Hm;
    [discriminate H |].
  exfalso. apply mapM_None in Hm. apply Exists_exists in Hm.
  destruct Hm as (i & Hi & Hnone).
  rewrite Forall_forall in Hin. specialize (Hin i Hi).
  apply lookup_ge_None in Hnone. lia.
Qed.

Lemma ro_example_objective a s :
  indices (env_of s) =
    np_arange (length (read_view (train_data (env_of s)) (data (env_of s)))) ->
  raises_only loop_error (example_objective a s).
Proof.
  intros Hi. unfold example_objective.
  apply ro_bind; [apply ro_np_random_choice | intros w index w1 Hc].
  rewrite Hi in Hc. apply choice_arange_lt in Hc.
  apply ro_bind; [now apply ro_take_rows | intros w2 x w3 _].
  apply ro_bind; [apply ro_call_forward | intros w4 [[z zj] s1] w5 _].
  apply ro_ret.
Qed.

Lemma ro_energy_objective a s : raises_only loop_error (energy_objective a s).
Proof.
  unfold energy_objective.
  apply ro_bind; [apply ro_torch_normal | intros w z w1 _].
  apply ro_bind; [apply ro_call_inverse | intros w2 [[x xj] s1] w3 _].
  apply ro_ret.
Qed.

Lemma ro_log_if allowed (b : bool) name (v : option F) tag epoch :
  (b = true -> is_Some v) ->
  raises_only allowed
    (if b then bind (read_local name v) (fun x => emit (EvScalar tag x epoch))
     else ret tt).
Proof.
  intros Hv. destruct b; [| apply ro_ret].
  apply ro_bind; [apply ro_read_local; auto | intros w x w1 _].
  apply ro_emit.
Qed.

Lemma ro_train_step a epoch s :
  (train_example a || train_energy a)%bool = true ->
  indices (env_of s) =
    np_arange (length (read_view (train_data (env_of s)) (data (env_of s)))) ->
  raises_only loop_error (train_step a epoch s).
Proof.
  intros Hflags Hi. unfold train_step. cbv zeta.
  set (s0 := set_net (zero_grad (optimizer s) (net_train (net s))) s).
  apply ro_bind.
  { destruct (train_example a); [now apply ro_example_objective | apply ro_ret]. }
  intros w s1 w1 H1. apply ro_bind.
  { destruct (train_energy a); [apply ro_energy_objective | apply ro_ret]. }
  intros w2 s2 w3 H2.
  assert (Hex : train_example a = true -> is_Some (example_loss s2)).
  { intros Hte. rewrite Hte in H1.
    apply example_objective_Ok in H1
      as (xb & z & zj & n & g & _ & _ & _ & -> & _).
    destruct (train_energy a).
    - apply energy_objective_Ok in H2
        as (zb & x & xj & wz & n2 & g2 & _ & _ & -> & _). simpl. eauto.
    - unfold ret in H2. injection H2 as <- _. simpl. eauto. }
  assert (Hen : train_energy a = true -> is_Some (energy_loss s2)).
  { intros Hte. rewrite Hte in H2.
    apply energy_objective_Ok in H2
      as (zb & x & xj & wz & n2 & g2 & _ & _ & -> & _). simpl. eauto. }
  apply ro_bind.
  { unfold combined_loss.
    destruct (train_example a) eqn:Hte, (train_energy a) eqn:Hten; simpl;
      try discriminate Hflags.
    - apply ro_bind; [apply ro_read_local; auto | intros w4 ex w5 _].
      apply ro_bind; [apply ro_read_local; auto | intros w6 en w7 _].
      apply ro_ret.
    - apply ro_read_local; auto.
    - apply ro_read_local; auto. }
  intros w4 l w5 _.
  apply ro_bind; [apply ro_emit | intros w6 u w7 _].
  destruct (opt_step _ _). apply ro_ret.
Qed.

Lemma ro_validate_log a epoch s :
  is_Some (loss s) ->
  (train_example a = true -> is_Some (example_loss s)) ->
  (train_energy a = true -> is_Some (energy_loss s)) ->
  indices_val (env_of s) =
    np_arange (length (read_view (val_data (env_of s)) (data (env_of s)))) ->
  raises_only loop_error (validate_log a epoch s).
Proof.
  intros Hl Hex Hen Hi. unfold validate_log. cbv zeta.
  apply ro_bind; [now apply ro_read_local | intros w l w1 _].
  apply ro_bind; [apply ro_emit | intros w2 u w3 _].
  apply ro_bind; [now apply ro_log_if | intros w4 u1 w5 _].
  apply ro_bind; [now apply ro_log_if | intros w6 u2 w7 _].
  apply ro_bind; [apply ro_np_random_choice | intros w8 index w9 Hc].
  simpl in Hc. rewrite Hi in Hc. apply choice_arange_lt in Hc.
  apply ro_bind; [now apply ro_take_rows | intros w10 x w11 _].
  apply ro_bind; [apply ro_call_forward | intros w12 [[z zj] s1] w13 _].
  apply ro_bind; [apply ro_torch_normal | intros w14 zv w15 _].
  apply ro_bind; [apply ro_call_inverse | intros w16 [[x' xj] s2] w17 _].
  do 7 (apply ro_bind; [apply ro_emit | intros ? ? ? _]).
  apply ro_bind; [apply ro_call_inverse | intros wa [[fx fj] s3] wb _].
  apply ro_bind; [apply ro_emit | intros ? ? ? _].
  apply ro_ret.
Qed.

(** X17. In a run with at least one objective enabled, an iteration of
    the loop (its network and energy calls returning) can only fail with
    ValueError (an empty split or a negative batch size in
    [np.random.choice]), RuntimeError (a negative size in [torch.normal]) or
    ZeroDivisionError ([log_freq = 0]): no name is read before it is bound,
    and every index drawn is in range. *)
Theorem iteration_errors (a : args) (dev : device) (wi : world)
    (s0 : locals) (w0 : world) (epoch : Z) (s : locals) (w : world)
    (e : exn) (w' : world) :
  setup a dev wi = (Ok s0, w0) ->
  env_of s = env_of s0 ->
  (train_example a || train_energy a)%bool = true ->
  epoch_body a epoch s w = (Raise e, w') ->
  loop_error e.
Proof.
  intros Hs He Hflags H.
  apply setup_Ok in Hs
    as (ga & nv & _ & _ & _ & _ & _ & Hi & Hiv & _).
  rewrite <- He in Hi, Hiv.
  revert w e w' H. change (raises_only loop_error (epoch_body a epoch s)).
  unfold epoch_body.
  apply ro_bind; [now apply ro_train_step | intros w s1 w1 Hstep].
  pose proof (train_step_frame _ _ _ _ _ _ Hstep)
    as (He1 & _ & _ & _ & _ & _ & _ & Hex & Hen & l & Hl & _).
  apply ro_bind; [apply ro_py_mod | intros w2 r w3 _].
  destruct (r =? 0); [| apply ro_ret].
  apply ro_validate_log.
  - rewrite Hl. eauto.
  - exact Hex.
  - exact Hen.
  - now rewrite He1.
Qed.

End More.

(** * The properties at work on the small back end *)

#[local] Existing Instance Toy.backend.

(** a run that returns is the pair of its state and its world *)
Lemma ok_eta (r : outcome locals * world) :
  is_ok r.1 = true -> r = (Ok (Toy.state_of r), r.2).
Proof. destruct r as [[s|e] w]; [reflexivity | discriminate]. Qed.

Ltac run_toy := apply ok_eta; vm_compute; reflexivity.

(** The first training step of the small run: its example loss has the
    stated form. *)
Lemma example_loss_of_step_witness :
  train_example Toy.config = true /\
  exists z z_jac,
    example_loss (Toy.s1 Toy.config) =
      Some (fmul (example_weight Toy.config)
              (fsub (fmul fhalf (tmean (sum_squares z))) (tmean z_jac))).
Proof.
  assert (H1 : train_example Toy.config = true) by reflexivity.
  assert (H2 : train_step Toy.config 0 (Toy.s0 Toy.config) (Toy.w0 Toy.config)
               = (Ok (Toy.s1 Toy.config), Toy.w1 Toy.config)) by run_toy.
  split; [exact H1 |].
  pose proof (example_loss_of_step Toy.config 0 (Toy.s0 Toy.config)
                (Toy.w0 Toy.config) (Toy.s1 Toy.config) (Toy.w1 Toy.config)
                H1 H2) as H.
  cbv zeta in H.
  destruct H as (xb & z & zj & n & g & _ & _ & _ & _ & Hl).
  exists z, zj; exact Hl.
Defined.

(** The same step: its energy loss is built from regularized OpenMM energies. *)
Lemma energy_loss_of_step_witness :
  train_energy Toy.config = true /\
  exists x x_jac,
    energy_loss (Toy.s1 Toy.config) =
      Some (fmul (energy_weight Toy.config)
              (fsub (tmean (regularize_energy
                              (openmm_energy x
                                 (openmm_context (env_of (Toy.s0 Toy.config)))
                                 (temperature Toy.config))
                              (as_tensor32 (energy_high Toy.config))
                              (as_tensor32 (energy_max Toy.config))))
                 (tmean x_jac))).
Proof.
  assert (H0 : setup Toy.config Cpu (Toy.booted Toy.config)
               = (Ok (Toy.s0 Toy.config), Toy.w0 Toy.config)) by run_toy.
  assert (H1 : env_of (Toy.s0 Toy.config) = env_of (Toy.s0 Toy.config))
    by reflexivity.
  assert (H2 : train_energy Toy.config = true) by reflexivity.
  assert (H3 : train_step Toy.config 0 (Toy.s0 Toy.config) (Toy.w0 Toy.config)
               = (Ok (Toy.s1 Toy.config), Toy.w1 Toy.config)) by run_toy.
  split; [exact H2 |].
  pose proof (energy_loss_of_step Toy.config Cpu (Toy.booted Toy.config)
                (Toy.s0 Toy.config) (Toy.w0 Toy.config) 0
                (Toy.s0 Toy.config) (Toy.w0 Toy.config)
                (Toy.s1 Toy.config) (Toy.w1 Toy.config) H0 H1 H2 H3) as H.
  cbv zeta in H.
  destruct H as (sa & wa & zb & x & xj & wz & n & g & _ & _ & _ & _ & _ & Hl).
  exists x, xj; exact Hl.
Defined.

(** The same step: the value bound to [loss] is the one backpropagated. *)
Lemma combined_loss_of_step_witness :
  exists l, loss (Toy.s1 Toy.config) = Some l /\
            trace (Toy.w1 Toy.config)
              = trace (Toy.w0 Toy.config) ++ [EvBackward l].
Proof.
  assert (H1 : train_step Toy.config 0 (Toy.s0 Toy.config) (Toy.w0 Toy.config)
               = (Ok (Toy.s1 Toy.config), Toy.w1 Toy.config)) by run_toy.
  pose proof (combined_loss_of_step Toy.config 0 (Toy.s0 Toy.config)
                (Toy.w0 Toy.config) (Toy.s1 Toy.config) (Toy.w1 Toy.config) H1)
    as H.
  destruct H as (l & n2 & Hl & Ht & _).
  exists l; split; [exact Hl | exact Ht].
Defined.

(** Both objectives switched off, on a file system that already holds a
    model: the script stops at once and only [args] has been bound. *)
Lemma no_objective_rejected_witness :
  exists msg,
    main (Toy.configure 3 2 (5 # 2) false false) Toy.used_world
      = (Raise (RuntimeError msg),
         set_g_args (Toy.configure 3 2 (5 # 2) false false) Toy.used_world).
Proof.
  assert (H1 : train_example (Toy.configure 3 2 (5 # 2) false false) = false)
    by reflexivity.
  assert (H2 : train_energy (Toy.configure 3 2 (5 # 2) false false) = false)
    by reflexivity.
  pose proof (no_objective_rejected (Toy.configure 3 2 (5 # 2) false false)
                Toy.used_world H1 H2) as H.
  destruct H as (msg & Hm & _).
  exists msg; exact Hm.
Defined.

(** The model of an earlier run is in the way and [--overwrite] is off. *)
Lemma existing_output_rejected_witness :
  exists msg w',
    main Toy.config Toy.used_world = (Raise (RuntimeError msg), w') /\
    fs w' = fs Toy.used_world.
Proof.
  assert (H1 : path_exists (fs Toy.used_world)
                 (model_file (output_name Toy.config)) = true)
    by (vm_compute; reflexivity).
  assert (H2 : overwrite Toy.config = false) by reflexivity.
  pose proof (existing_output_rejected Toy.config Toy.used_world H1 H2) as H.
  destruct H as (msg & w' & Hm & Hfs & _).
  exists msg, w'; split; [exact Hm | exact Hfs].
Defined.

(** Epoch 0 of the small run is a logging epoch. *)
Lemma validation_every_log_freq_witness :
  exists sa wa,
    validation_pass Toy.config 0 sa wa (Toy.s2 Toy.config) (Toy.w2 Toy.config).
Proof.
  assert (H1 : log_freq Toy.config <> 0) by (vm_compute; discriminate).
  assert (H2 : epoch_body Toy.config 0 (Toy.s0 Toy.config) (Toy.w0 Toy.config)
               = (Ok (Toy.s2 Toy.config), Toy.w2 Toy.config)) by run_toy.
  pose proof (validation_every_log_freq Toy.config 0 (Toy.s0 Toy.config)
                (Toy.w0 Toy.config) (Toy.s2 Toy.config) (Toy.w2 Toy.config)
                H1 H2) as H.
  destruct H as (sa & wa & l & _ & _ & _ & Hlog & _).
  exists sa, wa. apply Hlog. exists 0. reflexivity.
Defined.

(** Two of the five frames are held out, three are trained on. *)
Lemma split_is_partition_witness :
  read_view (val_data (env_of (Toy.s0 Toy.config)))
    (data (env_of (Toy.s0 Toy.config)))
  ++ read_view (train_data (env_of (Toy.s0 Toy.config)))
       (data (env_of (Toy.s0 Toy.config)))
  = data (env_of (Toy.s0 Toy.config)).
Proof.
  assert (H1 : setup Toy.config Cpu (Toy.booted Toy.config)
               = (Ok (Toy.s0 Toy.config), Toy.w0 Toy.config)) by run_toy.
  pose proof (split_is_partition Toy.config Cpu (Toy.booted Toy.config)
                (Toy.s0 Toy.config) (Toy.w0 Toy.config) H1) as H.
  cbv zeta in H. destruct H as (_ & H & _). exact H.
Defined.

(** C10 as stated fails: the validation split is not the first
    [floor(n / fold_validation)] rows.  The quotient is rounded to a double
    before [int] truncates it: [int(11 / 1.1)] is 10 while the floor of the
    exact quotient is 9, and with five frames and [--fold-validation]
    1.6666666666666667 three rows are held out where the floor is 2.  And
    [int] truncates toward zero: with [--fold-validation -2], [int(5 / -2.0)]
    is [-2], so the validation slice [a[:-2]] holds the first three rows,
    whereas the floor is [-3]: neither "the first [-3] rows" read as no rows,
    nor the Python slice [a[:-3]] (two rows), is the validation split. *)
Lemma split_not_floor_of_quotient :
  (int_div 11 (Toy.double (11 # 10)) = Ok 10 /\
   floor_div 11 (Toy.double (11 # 10)) = Some 9) /\
  (let a := Toy.configure 3 2 (5 # 3) true true in
   let E := env_of (Toy.s0 a) in
   let val := read_view (val_data E) (data E) in
   setup a Cpu (Toy.booted a) = (Ok (Toy.s0 a), Toy.w0 a) /\
   length (data E) = 5%nat /\
   float_positive (fold_validation a) = true /\
   floor_div 5 (fold_validation a) = Some 2 /\
   length val = 3%nat /\
   val <> firstn 2 (data E)) /\
  (let a := Toy.configure 3 2 (-2 # 1) true true in
   let E := env_of (Toy.s0 a) in
   let val := read_view (val_data E) (data E) in
   setup a Cpu (Toy.booted a) = (Ok (Toy.s0 a), Toy.w0 a) /\
   length (data E) = 5%nat /\
   floor_div 5 (fold_validation a) = Some (-3) /\
   length val = 3%nat /\
   val <> firstn (Z.to_nat (-3)) (data E) /\
   val <> slice_to (-3) (data E)).
Proof.
  split; [split; vm_compute; reflexivity |].
  split.
  - intros a E val.
    split; [run_toy |].
    split; [vm_compute; reflexivity |].
    split; [vm_compute; reflexivity |].
    split; [vm_compute; reflexivity |].
    split; [vm_compute; reflexivity |].
    intros H; apply (f_equal (@length _)) in H; vm_compute in H;
      discriminate H.
  - intros a E val.
    split; [run_toy |].
    split; [vm_compute; reflexivity |].
    split; [vm_compute; reflexivity |].
    split; [vm_compute; reflexivity |].
    split; intros H; apply (f_equal (@length _)) in H; vm_compute in H;
      discriminate H.
Qed.

(** Three epochs bind every name; with [--epochs 0] the run stops on the
    unbound [loss]. *)
Lemma finalizing_needs_one_epoch_witness :
  names_bound Toy.config (Toy.s_end Toy.config) /\
  exists w2,
    run_training (Toy.configure 0 2 (5 # 2) true true) Cpu
      (Toy.booted (Toy.configure 0 2 (5 # 2) true true))
    = (Raise (UnboundLocalError "loss"), w2).
Proof.
  assert (H1 : setup Toy.config Cpu (Toy.booted Toy.config)
               = (Ok (Toy.s0 Toy.config), Toy.w0 Toy.config)) by run_toy.
  assert (H2 : 1 <= epochs Toy.config) by (vm_compute; discriminate).
  assert (H3 : 1 <= log_freq Toy.config) by (vm_compute; discriminate).
  assert (H4 : training_loop Toy.config (Toy.s0 Toy.config) (Toy.w0 Toy.config)
               = (Ok (Toy.s_end Toy.config), Toy.w_end Toy.config)) by run_toy.
  assert (H5 : setup (Toy.configure 0 2 (5 # 2) true true) Cpu
                 (Toy.booted (Toy.configure 0 2 (5 # 2) true true))
               = (Ok (Toy.s0 (Toy.configure 0 2 (5 # 2) true true)),
                  Toy.w0 (Toy.configure 0 2 (5 # 2) true true))) by run_toy.
  assert (H6 : epochs (Toy.configure 0 2 (5 # 2) true true) <= 0)
    by (vm_compute; discriminate).
  split.
  - pose proof (finalizing_needs_one_epoch Toy.config Cpu
                  (Toy.booted Toy.config) (Toy.s0 Toy.config)
                  (Toy.w0 Toy.config) H1) as H.
    destruct H as [H _].
    exact (proj1 (H H2 H3 (Toy.s_end Toy.config) (Toy.w_end Toy.config) H4)).
  - pose proof (finalizing_needs_one_epoch
                  (Toy.configure 0 2 (5 # 2) true true) Cpu
                  (Toy.booted (Toy.configure 0 2 (5 # 2) true true))
                  (Toy.s0 (Toy.configure 0 2 (5 # 2) true true))
                  (Toy.w0 (Toy.configure 0 2 (5 # 2) true true)) H5) as H.
    destruct H as [_ H]. destruct (H H6) as (w2 & Hr & _).
    exists w2; exact Hr.
Defined.

(** C6 as stated fails where it places the energy validation loss on the
    validation split.  In epoch 0 of the small run the logged mean
    validation energy is 45/2 and the energy validation loss is 55, while
    every batch of [batch_size] rows of the validation split has mean
    regularized energy different from 45/2: the energies that are averaged
    are those of decoded latent samples, not of held-out frames. *)
Lemma validation_energy_not_on_split :
  let a := Toy.config in
  let E := env_of (Toy.s0 a) in
  let val := read_view (val_data E) (data E) in
  epoch_body a 0 (Toy.s0 a) (Toy.w0 a) = (Ok (Toy.s2 a), Toy.w2 a) /\
  (log_freq a | 0) /\
  logged "Energies/mean_energy" 0 (trace (Toy.w2 a)) = [(45 # 2)%Q] /\
  energy_loss_val (Toy.s2 a) = Some 55%Q /\
  forall batch : tensor,
    Forall (fun row => In row val) batch ->
    length batch = Z.to_nat (batch_size a) ->
    tmean (energy_evaluator E batch) <> (45 # 2)%Q.
Proof.
  intros a E val.
  split; [run_toy |].
  split; [exists 0; reflexivity |].
  split; [vm_compute; reflexivity |].
  split; [vm_compute; reflexivity |].
  intros batch Hall Hlen.
  destruct batch as [|r1 [|r2 [|r3 rest]]]; try discriminate Hlen.
  apply Forall_cons in Hall as [H1 Hall].
  apply Forall_cons in Hall as [H2 _].
  vm_compute in H1, H2.
  destruct H1 as [<- | [<- | []]]; destruct H2 as [<- | [<- | []]];
    vm_compute; discriminate.
Qed.

(** * The further properties on the small back end *)

(** a computation of the script that returns, returns [tt] *)
Lemma ok_eta_unit (r : outcome unit * world) :
  is_ok r.1 = true -> r = (Ok tt, r.2).
Proof. destruct r as [[[]|e] w]; [reflexivity | discriminate]. Qed.

Lemma zero_division_eta {A} (r : outcome A * world) :
  Toy.is_zero_division r.1 = true -> r = (Raise ZeroDivisionError, r.2).
Proof.
  destruct r as [[x|e] w]; [discriminate |].
  destruct e; try discriminate. reflexivity.
Qed.

Ltac run_unit := apply ok_eta_unit; vm_compute; reflexivity.
Ltac run_zero := apply zero_division_eta; vm_compute; reflexivity.

(** Deleting the old run removes its model and its event file and keeps the
    model of the other run. *)
Lemma delete_run_removes_run_witness :
  fs (delete_run "run" Toy.old_run_world).2 !! model_file "run" = None /\
  fs (delete_run "run" Toy.old_run_world).2 !! "runs/run/events" = None /\
  fs (delete_run "run" Toy.old_run_world).2 !! "models/other.pkl"
    = fs Toy.old_run_world !! "models/other.pkl".
Proof.
  assert (H0 : plain_name "run" = true) by reflexivity.
  assert (H : delete_run "run" Toy.old_run_world
              = (Ok tt, (delete_run "run" Toy.old_run_world).2)) by run_unit.
  pose proof (delete_run_removes_run "run" Toy.old_run_world
                (delete_run "run" Toy.old_run_world).2 H0 H)
    as (_ & Hm & _ & _ & _ & Hbelow & Hframe).
  assert (B1 : fs Toy.old_run_world !! run_dir "run" = Some Dir)
    by (vm_compute; reflexivity).
  assert (B2 : below (run_dir "run") "runs/run/events" = true)
    by (vm_compute; reflexivity).
  assert (B3 : below (run_dir "run") "models/other.pkl" = false)
    by (vm_compute; reflexivity).
  assert (B4 : canonical "models/other.pkl" = true)
    by (vm_compute; reflexivity).
  split; [exact Hm |]. split; [exact (Hbelow B1 _ B2) |].
  apply Hframe; [exact B4 | discriminate | discriminate | discriminate
                | discriminate | exact B3].
Defined.

Lemma delete_run_twice_witness :
  exists w'', delete_run "run" (delete_run "run" Toy.old_run_world).2
              = (Ok tt, w'').
Proof.
  assert (H : delete_run "run" Toy.old_run_world
              = (Ok tt, (delete_run "run" Toy.old_run_world).2)) by run_unit.
  pose proof (delete_run_twice "run" Toy.old_run_world
                (delete_run "run" Toy.old_run_world).2 H) as (w'' & Hw & _).
  exists w''; exact Hw.
Defined.

Lemma delete_run_partial_witness :
  exists w',
    delete_run "run" Toy.odd_world
      = (Raise (OSError (training_traj_file "run")), w') /\
    fs w' !! model_file "run" = None.
Proof.
  assert (H1 : fs Toy.odd_world !! model_file "run" = Some File)
    by (vm_compute; reflexivity).
  assert (H2 : fs Toy.odd_world !! training_traj_file "run" = Some Dir)
    by (vm_compute; reflexivity).
  pose proof (delete_run_partial "run" Toy.odd_world H1 H2)
    as (w' & Hr & Hm & _).
  exists w'; split; [exact Hr | exact Hm].
Defined.

Lemma failed_loop_leaves_no_artifact_witness :
  run_training Toy.config_no_log Cpu (Toy.booted Toy.config_no_log)
  = (Raise ZeroDivisionError,
     (training_loop Toy.config_no_log (Toy.s0 Toy.config_no_log)
        (Toy.w0 Toy.config_no_log)).2).
Proof.
  assert (H0 : plain_name (output_name Toy.config_no_log) = true)
    by reflexivity.
  assert (H1 : setup Toy.config_no_log Cpu (Toy.booted Toy.config_no_log)
               = (Ok (Toy.s0 Toy.config_no_log), Toy.w0 Toy.config_no_log))
    by run_toy.
  assert (H2 : training_loop Toy.config_no_log (Toy.s0 Toy.config_no_log)
                 (Toy.w0 Toy.config_no_log)
               = (Raise ZeroDivisionError,
                  (training_loop Toy.config_no_log (Toy.s0 Toy.config_no_log)
                     (Toy.w0 Toy.config_no_log)).2)) by run_zero.
  exact (proj1 (failed_loop_leaves_no_artifact Toy.config_no_log Cpu
                  (Toy.booted Toy.config_no_log) (Toy.s0 Toy.config_no_log)
                  (Toy.w0 Toy.config_no_log) ZeroDivisionError _ H0 H1 H2)).
Defined.

Lemma fixed_coords_per_log_epoch_witness :
  length (fixed_coords (Toy.s_end Toy.config))
  = (length (fixed_coords (Toy.s0 Toy.config))
     + Z.to_nat ((epochs Toy.config + log_freq Toy.config - 1)
                 / log_freq Toy.config))%nat.
Proof.
  assert (H1 : 1 <= log_freq Toy.config) by (vm_compute; discriminate).
  assert (H2 : 0 <= epochs Toy.config) by (vm_compute; discriminate).
  assert (H3 : training_loop Toy.config (Toy.s0 Toy.config) (Toy.w0 Toy.config)
               = (Ok (Toy.s_end Toy.config), Toy.w_end Toy.config)) by run_toy.
  exact (fixed_coords_per_log_epoch Toy.config (Toy.s0 Toy.config)
           (Toy.w0 Toy.config) (Toy.s_end Toy.config) (Toy.w_end Toy.config)
           H1 H2 H3).
Defined.

Lemma one_backward_per_epoch_witness :
  backward_count (trace (Toy.w_end Toy.config))
  = (backward_count (trace (Toy.w0 Toy.config))
     + Z.to_nat (epochs Toy.config))%nat.
Proof.
  assert (H : training_loop Toy.config (Toy.s0 Toy.config) (Toy.w0 Toy.config)
              = (Ok (Toy.s_end Toy.config), Toy.w_end Toy.config)) by run_toy.
  exact (one_backward_per_epoch Toy.config (Toy.s0 Toy.config)
           (Toy.w0 Toy.config) (Toy.s_end Toy.config) (Toy.w_end Toy.config) H).
Defined.

Lemma zero_log_freq_fails_witness :
  training_loop Toy.config_no_log (Toy.s0 Toy.config_no_log)
    (Toy.w0 Toy.config_no_log)
  = (Raise ZeroDivisionError, Toy.w1 Toy.config_no_log).
Proof.
  assert (H1 : log_freq Toy.config_no_log = 0) by reflexivity.
  assert (H2 : 1 <= epochs Toy.config_no_log) by (vm_compute; discriminate).
  assert (H3 : train_step Toy.config_no_log 0 (Toy.s0 Toy.config_no_log)
                 (Toy.w0 Toy.config_no_log)
               = (Ok (Toy.s1 Toy.config_no_log), Toy.w1 Toy.config_no_log))
    by run_toy.
  pose proof (zero_log_freq_fails Toy.config_no_log
                (Toy.s0 Toy.config_no_log) (Toy.w0 Toy.config_no_log) H1 H2)
    as [_ H].
  exact (proj1 (H _ _ H3)).
Defined.

Lemma completed_run_has_data_witness :
  read_view (val_data (env_of (Toy.s0 Toy.config)))
    (data (env_of (Toy.s0 Toy.config))) <> [].
Proof.
  assert (H1 : setup Toy.config Cpu (Toy.booted Toy.config)
               = (Ok (Toy.s0 Toy.config), Toy.w0 Toy.config)) by run_toy.
  assert (H2 : training_loop Toy.config (Toy.s0 Toy.config) (Toy.w0 Toy.config)
               = (Ok (Toy.s_end Toy.config), Toy.w_end Toy.config)) by run_toy.
  assert (H3 : 1 <= epochs Toy.config) by (vm_compute; discriminate).
  assert (H4 : 0 < batch_size Toy.config) by (vm_compute; reflexivity).
  exact (proj1 (completed_run_has_data Toy.config Cpu (Toy.booted Toy.config)
                  (Toy.s0 Toy.config) (Toy.w0 Toy.config)
                  (Toy.s_end Toy.config) (Toy.w_end Toy.config)
                  H1 H2 H3 H4)).
Defined.

Lemma few_frames_empty_validation_witness :
  read_view (val_data (env_of (Toy.s0 Toy.config_ten_fold)))
    (data (env_of (Toy.s0 Toy.config_ten_fold))) = [].
Proof.
  assert (H1 : setup Toy.config_ten_fold Cpu (Toy.booted Toy.config_ten_fold)
               = (Ok (Toy.s0 Toy.config_ten_fold), Toy.w0 Toy.config_ten_fold))
    by run_toy.
  assert (H2 : Z.of_nat (length (data (env_of (Toy.s0 Toy.config_ten_fold))))
               < 2 ^ 53) by (vm_compute; reflexivity).
  assert (H3 : valid_binary 53 1024 (fold_validation Toy.config_ten_fold)
               = true) by (vm_compute; reflexivity).
  assert (H4 : int_lt_float
                 (Z.of_nat (length (data (env_of (Toy.s0 Toy.config_ten_fold)))))
                 (fold_validation Toy.config_ten_fold) = true)
    by (vm_compute; reflexivity).
  exact (proj1 (few_frames_empty_validation Toy.config_ten_fold Cpu
                  (Toy.booted Toy.config_ten_fold)
                  (Toy.s0 Toy.config_ten_fold) (Toy.w0 Toy.config_ten_fold)
                  H1 H2 H3 H4)).
Defined.

Lemma setup_requirements_witness :
  n_dim (env_of (Toy.s0 Toy.config)) = 9.
Proof.
  assert (H1 : setup Toy.config Cpu (Toy.booted Toy.config)
               = (Ok (Toy.s0 Toy.config), Toy.w0 Toy.config)) by run_toy.
  pose proof (setup_requirements Toy.config Cpu (Toy.booted Toy.config)
                (Toy.s0 Toy.config) (Toy.w0 Toy.config) H1)
    as (ga & _ & _ & _ & _ & _ & Hn & _).
  exact Hn.
Defined.

Lemma setup_network_witness :
  exists rest g,
    net (Toy.s0 Toy.config)
    = (composite_transform
         (pca_mixed_transform (n_dim (env_of (Toy.s0 Toy.config)))
            (superpose_backbone (md_load "mol.dcd" "mol.pdb"))
            (traj_frames (superpose_backbone (md_load "mol.dcd" "mol.pdb")))
          :: rest) g).1.
Proof.
  assert (H1 : setup Toy.config Cpu (Toy.booted Toy.config)
               = (Ok (Toy.s0 Toy.config), Toy.w0 Toy.config)) by run_toy.
  pose proof (setup_network Toy.config Cpu (Toy.booted Toy.config)
                (Toy.s0 Toy.config) (Toy.w0 Toy.config) H1)
    as (ga & Hga & _ & Hbuilt & _).
  assert (Hg : ga = Toy.config).
  { assert (Hb : g_args (Toy.booted Toy.config) = Some Toy.config)
      by reflexivity.
    rewrite Hb in Hga. now injection Hga. }
  subst ga. exact (proj1 (Hbuilt (or_introl eq_refl))).
Defined.

Lemma main_success_witness :
  fs (main Toy.config Toy.empty_world).2 !! model_file (output_name Toy.config)
  = Some File.
Proof.
  assert (H : main Toy.config Toy.empty_world
              = (Ok tt, (main Toy.config Toy.empty_world).2)) by run_unit.
  pose proof (main_success Toy.config Toy.empty_world
                (main Toy.config Toy.empty_world).2 H)
    as (_ & _ & _ & _ & _ & Hm & _).
  exact Hm.
Defined.

Lemma iteration_errors_witness : loop_error ZeroDivisionError.
Proof.
  assert (H1 : setup Toy.config_no_log Cpu (Toy.booted Toy.config_no_log)
               = (Ok (Toy.s0 Toy.config_no_log), Toy.w0 Toy.config_no_log))
    by run_toy.
  assert (H2 : env_of (Toy.s0 Toy.config_no_log)
               = env_of (Toy.s0 Toy.config_no_log)) by reflexivity.
  assert (H3 : (train_example Toy.config_no_log
                || train_energy Toy.config_no_log)%bool = true)
    by reflexivity.
  assert (H4 : epoch_body Toy.config_no_log 0 (Toy.s0 Toy.config_no_log)
                 (Toy.w0 Toy.config_no_log)
               = (Raise ZeroDivisionError,
                  (epoch_body Toy.config_no_log 0 (Toy.s0 Toy.config_no_log)
                     (Toy.w0 Toy.config_no_log)).2)) by run_zero.
  exact (iteration_errors Toy.config_no_log Cpu (Toy.booted Toy.config_no_log)
           (Toy.s0 Toy.config_no_log) (Toy.w0 Toy.config_no_log) 0
           (Toy.s0 Toy.config_no_log) (Toy.w0 Toy.config_no_log)
           ZeroDivisionError _ H1 H2 H3 H4).
Defined.
